(** * DIAOS research agent: tool validation, dispatch, context merge and the agent loop

    A shallow embedding of the temporal worker of the repository:

    - [src/tools/registry.py]                         (module [Registry])
    - [src/activities/tool_registry_activities.py]    (module [ToolRegistryActivities])
    - [src/activities/dynamic_tool_activity.py]       (module [DynamicToolActivity])
    - [src/workflows/research_workflow.py]            (module [ResearchWorkflow])
    - [src/activities/llm_activities.py]              (module [LlmActivities])
    - [src/tools/citation_analyzer.py], helpers       (module [CitationAnalyzer])
    - [src/tools/arxiv_client_mcp.py], helpers        (module [ArxivClient])

    Python dictionaries are association lists in insertion order, Python
    exceptions are values of [outcome], and the workflow object is a record
    threaded through a state-and-exception monad. *)

From Stdlib Require Import String Ascii List ZArith Bool Arith Lia.
From Stdlib Require Import DecimalString DecimalNat Sorted Permutation.
Import ListNotations.

Local Open Scope string_scope.
Local Open Scope list_scope.

(** String concatenation, kept apart from list append. *)
Infix "+++" := String.append (right associativity, at level 60).

(* ===================================================================== *)
(** ** Python values *)
(* ===================================================================== *)

Module Py.

(** JSON-shaped Python values.  Numbers are integers; a dictionary keeps
    its keys in insertion order. *)
#[warnings="-register-all"] Inductive pyval : Type :=
| PyNone
| PyBool (b : bool)
| PyInt (n : Z)
| PyStr (s : string)
| PyList (items : list pyval)
| PyDict (entries : list (string * pyval)).

(** [Dict[str, Any]] *)
Definition dict : Type := list (string * pyval).

(** [bool(v)] *)
Definition truthy (v : pyval) : bool :=
  match v with
  | PyNone => false
  | PyBool b => b
  | PyInt n => negb (Z.eqb n 0)
  | PyStr s => negb (String.eqb s "")
  | PyList [] => false
  | PyList (_ :: _) => true
  | PyDict [] => false
  | PyDict (_ :: _) => true
  end.

(** [type(v).__name__] *)
Definition type_name (v : pyval) : string :=
  match v with
  | PyNone => "NoneType"
  | PyBool _ => "bool"
  | PyInt _ => "int"
  | PyStr _ => "str"
  | PyList _ => "list"
  | PyDict _ => "dict"
  end.

(** [d[k]] when the key is there. *)
Fixpoint lookup {A : Type} (k : string) (d : list (string * A)) : option A :=
  match d with
  | [] => None
  | (k', v) :: rest => if String.eqb k k' then Some v else lookup k rest
  end.

(** [k in d] *)
Definition contains_key {A : Type} (k : string) (d : list (string * A)) : bool :=
  match lookup k d with
  | Some _ => true
  | None => false
  end.

(** [d.get(k)]: the value, or [None] when the key is absent. *)
Definition get (d : dict) (k : string) : pyval :=
  match lookup k d with
  | Some v => v
  | None => PyNone
  end.

(** [d.get(k, default)] *)
Definition get_default (d : dict) (k : string) (default : pyval) : pyval :=
  match lookup k d with
  | Some v => v
  | None => default
  end.

(** [list(d.keys())] *)
Definition keys {A : Type} (d : list (string * A)) : list string := map fst d.

(** [x in [a, b, ...]] for strings. *)
Definition in_list (x : string) (l : list string) : bool :=
  existsb (String.eqb x) l.

(** [s.startswith(p)] *)
Definition startswith (s p : string) : bool := String.prefix p s.

(** [sub in s] for strings. *)
Fixpoint str_in (sub s : string) : bool :=
  match s with
  | EmptyString => String.prefix sub EmptyString
  | String _ rest => String.prefix sub s || str_in sub rest
  end.

Definition lower_ascii (c : ascii) : ascii :=
  let n := nat_of_ascii c in
  if ((65 <=? n) && (n <=? 90))%nat then ascii_of_nat (n + 32) else c.

(** [s.lower()] on ASCII text. *)
Fixpoint lower (s : string) : string :=
  match s with
  | EmptyString => EmptyString
  | String c rest => String (lower_ascii c) (lower rest)
  end.

(** [str(n)] for a non-negative integer. *)
Definition str_of_nat (n : nat) : string :=
  NilEmpty.string_of_uint (Nat.to_uint n).

Fixpoint join (sep : string) (l : list string) : string :=
  match l with
  | [] => ""
  | [x] => x
  | x :: rest => x +++ sep +++ join sep rest
  end.

(** [str(n)] for an integer. *)
Definition str_of_int (n : Z) : string :=
  NilEmpty.string_of_int (Z.to_int n).

(** The double quote and the backslash. *)
Definition double_quote : ascii := ascii_of_nat 34.
Definition backslash : ascii := ascii_of_nat 92.

(** [c in s] for a character. *)
Definition has_char (c : ascii) (s : string) : bool :=
  existsb (Ascii.eqb c) (list_ascii_of_string s).

(** A hexadecimal digit, in lower case. *)
Definition hex_digit (n : nat) : ascii :=
  if (n <? 10)%nat then ascii_of_nat (48 + n) else ascii_of_nat (87 + n).

(** [c.isprintable()], for a code point below 256. *)
Definition isprintable (c : ascii) : bool :=
  let n := nat_of_ascii c in
  ((32 <=? n) && (n <=? 126)
   || (161 <=? n) && negb (n =? 173))%nat.

(** What [repr] writes for one character of a string quoted with
    [quote]. *)
Definition repr_char (quote c : ascii) : string :=
  let n := nat_of_ascii c in
  if Ascii.eqb c quote || Ascii.eqb c backslash then
    String backslash (String c EmptyString)
  else if (n =? 9)%nat then String backslash "t"
  else if (n =? 10)%nat then String backslash "n"
  else if (n =? 13)%nat then String backslash "r"
  else if isprintable c then String c EmptyString
  else String backslash
         (String "x"
            (String (hex_digit (n / 16))
               (String (hex_digit (n mod 16)) EmptyString))).

(** [repr(s)] for a string: in single quotes, or in double quotes when
    the string holds an apostrophe and no double quote. *)
Definition repr_str (s : string) : string :=
  let quote :=
    if has_char "'" s && negb (has_char double_quote s)
    then double_quote else "'"%char in
  String quote
    (String.concat EmptyString
       (map (repr_char quote) (list_ascii_of_string s))
     +++ String quote EmptyString).

(** [repr(l)] of a list of strings, as an f-string prints it:
    [['a', 'b']]. *)
Definition repr_str_list (l : list string) : string :=
  "[" +++ join ", " (map repr_str l) +++ "]".

(** [repr(v)] *)
Fixpoint repr (v : pyval) : string :=
  match v with
  | PyNone => "None"
  | PyBool true => "True"
  | PyBool false => "False"
  | PyInt n => str_of_int n
  | PyStr s => repr_str s
  | PyList items => "[" +++ join ", " (map repr items) +++ "]"
  | PyDict entries =>
      "{" +++ join ", "
                (map (fun entry =>
                        repr_str (fst entry) +++ ": " +++ repr (snd entry))
                     entries)
          +++ "}"
  end.

(** [str(v)], which an f-string writes for [{v}]. *)
Definition str (v : pyval) : string :=
  match v with
  | PyStr s => s
  | _ => repr v
  end.

(** An exception: [type(e).__name__], [str(e)] and
    [isinstance(e, Exception)], which is false for the other subclasses of
    [BaseException], such as [asyncio.CancelledError],
    [KeyboardInterrupt] and [SystemExit]. *)
Record exception : Type := {
  exc_type : string;
  exc_str : string;
  is_exception : bool
}.

(** What a call does: it returns, or it raises. *)
Inductive outcome (A : Type) : Type :=
| Returns (a : A)
| Raises (e : exception).

Arguments Returns {A} a.
Arguments Raises {A} e.

(** Sequencing of calls that may raise. *)
Definition and_then {A B : Type} (o : outcome A) (k : A -> outcome B)
    : outcome B :=
  match o with
  | Returns a => k a
  | Raises e => Raises e
  end.

(** [try: body  except Exception as e: handler(e)]: an exception that is
    not an [Exception] passes through. *)
Definition try_except {A : Type} (body : outcome A)
    (handler : exception -> outcome A) : outcome A :=
  match body with
  | Returns a => Returns a
  | Raises e => if is_exception e then handler e else Raises e
  end.

Definition ValueError (msg : string) : exception :=
  {| exc_type := "ValueError"; exc_str := msg; is_exception := true |}.
Definition TypeError (msg : string) : exception :=
  {| exc_type := "TypeError"; exc_str := msg; is_exception := true |}.
Definition AttributeError (msg : string) : exception :=
  {| exc_type := "AttributeError"; exc_str := msg; is_exception := true |}.
Definition RuntimeError (msg : string) : exception :=
  {| exc_type := "RuntimeError"; exc_str := msg; is_exception := true |}.

(** [asyncio.CancelledError], a [BaseException] that is not an
    [Exception]. *)
Definition CancelledError (msg : string) : exception :=
  {| exc_type := "CancelledError"; exc_str := msg; is_exception := false |}.

Fixpoint chars (s : string) : list pyval :=
  match s with
  | EmptyString => []
  | String c rest => PyStr (String c EmptyString) :: chars rest
  end.

(** [iter(v)], as [list.extend] and a generator expression consume it:
    a list gives its items, a string its characters, a dictionary its
    keys; anything else is a [TypeError]. *)
Definition iterate (v : pyval) : outcome (list pyval) :=
  match v with
  | PyList items => Returns items
  | PyStr s => Returns (chars s)
  | PyDict entries => Returns (map PyStr (keys entries))
  | _ => Raises (TypeError ("'" +++ type_name v +++ "' object is not iterable"))
  end.

(** [len(v)] *)
Definition len (v : pyval) : outcome nat :=
  match v with
  | PyList items => Returns (List.length items)
  | PyStr s => Returns (String.length s)
  | PyDict entries => Returns (List.length entries)
  | _ => Raises (TypeError ("object of type '" +++ type_name v +++ "' has no len()"))
  end.

(** [key in v] for a string [key]: a key of a dictionary, an item of a
    list, a substring of a string; other values are a [TypeError] (the
    message is the one of CPython 3.12). *)
Definition contains (v : pyval) (key : string) : outcome bool :=
  match v with
  | PyDict entries => Returns (contains_key key entries)
  | PyList items =>
      Returns (existsb (fun item =>
                          match item with
                          | PyStr s => String.eqb s key
                          | _ => false
                          end) items)
  | PyStr s => Returns (str_in key s)
  | _ => Raises (TypeError ("argument of type '" +++ type_name v
                            +++ "' is not iterable"))
  end.

(** The value under [k] when [v] is a dictionary that has the key:
    [k in v] holds and [v[k]] is the value. *)
Definition entry (v : pyval) (k : string) : option pyval :=
  match v with
  | PyDict entries => lookup k entries
  | _ => None
  end.

(** [v.get(k, default)]: only dictionaries have the method. *)
Definition method_get (v : pyval) (k : string) (default : pyval) : outcome pyval :=
  match v with
  | PyDict entries => Returns (get_default entries k default)
  | _ => Raises (AttributeError
                   ("'" +++ type_name v +++ "' object has no attribute 'get'"))
  end.

End Py.

Import Py.

(* ===================================================================== *)
(** ** Catalog entries and validation results, shared by both validators *)
(* ===================================================================== *)

(** One value of [TOOL_DESCRIPTIONS]; [args] maps an argument name to its
    human-readable description. *)
Record tool_description : Type := {
  description : string;
  args : list (string * string);
  returns : string
}.

(** The dictionary a validator returns; a key that is not set is [None]. *)
Record validation : Type := {
  valid : bool;
  reason : option string;
  available_tools : option (list string);
  required_args : option (list (string * string));
  tool_name : option string;
  validated_args : option pyval
}.

Definition not_found (tool : string) (names : list string) : validation :=
  {| valid := false;
     reason := Some ("Tool '" +++ tool +++ "' not found in registry");
     available_tools := Some names;
     required_args := None; tool_name := None; validated_args := None |}.

Definition missing_metadata (tool : string) : validation :=
  {| valid := false;
     reason := Some ("Tool '" +++ tool +++ "' missing description metadata");
     available_tools := None;
     required_args := None; tool_name := None; validated_args := None |}.

Definition rejected (why : string) (required : list (string * string)) : validation :=
  {| valid := false;
     reason := Some why;
     available_tools := None;
     required_args := Some required; tool_name := None; validated_args := None |}.

Definition accepted (tool : string) (tool_args : dict) : validation :=
  {| valid := true;
     reason := None;
     available_tools := None; required_args := None;
     tool_name := Some tool; validated_args := Some (PyDict tool_args) |}.

(** The same when the arguments are not a mapping. *)
Definition accepted_as_given (tool : string) (tool_args : pyval)
    : validation :=
  {| valid := true;
     reason := None;
     available_tools := None; required_args := None;
     tool_name := Some tool; validated_args := Some tool_args |}.

(* ===================================================================== *)
(** ** src/activities/tool_registry_activities.py *)
(* ===================================================================== *)

Module ToolRegistryActivities.

Definition TOOL_DESCRIPTIONS : list (string * tool_description) := [
  ("arxiv_search_papers",
   {| description := "Enhanced arXiv paper search with local caching and advanced filtering";
      args := [
          ("query", "Search query string");
          ("max_results", "Optional: Maximum papers to return (default: 10)");
          ("category", "Optional: arXiv category filter (e.g., 'cs.AI', 'cs.LG')");
          ("date_from", "Optional: Start date filter (YYYY-MM-DD)");
          ("date_to", "Optional: End date filter (YYYY-MM-DD)");
          ("sort_by", "Optional: Sort criteria ('relevance', 'submitted', 'updated')")];
      returns := "List of papers with metadata and local storage status" |});
  ("arxiv_download_paper",
   {| description := "Download and locally store an arXiv paper with metadata";
      args := [
          ("paper_id", "arXiv paper ID (e.g., '1706.03762')");
          ("force_download", "Optional: Force re-download if already exists (default: false)")];
      returns := "Download status and local file information" |});
  ("arxiv_list_papers",
   {| description := "List all locally downloaded papers with filtering options";
      args := [
          ("category_filter", "Optional: Category to filter by");
          ("date_from", "Optional: Start date filter for download date");
          ("limit", "Optional: Maximum papers to return (default: 100)")];
      returns := "List of downloaded papers with metadata and local paths" |});
  ("arxiv_read_paper",
   {| description := "Read content of a locally downloaded paper";
      args := [
          ("paper_id", "arXiv paper ID");
          ("include_metadata", "Optional: Include full metadata (default: true)");
          ("extract_sections", "Optional: Extract paper sections (default: false)")];
      returns := "Paper content, metadata, and extracted sections if requested" |});
  ("arxiv_get_metadata",
   {| description := "Get enhanced metadata for a paper (local or remote)";
      args := [
          ("paper_id", "arXiv paper ID");
          ("include_citations", "Optional: Include citation analysis (default: false)");
          ("force_refresh", "Optional: Force refresh from arXiv API (default: false)")];
      returns := "Enhanced paper metadata with local storage information" |});
  ("arxiv_deep_analysis",
   {| description := "Get comprehensive deep analysis of a paper using MCP server";
      args := [
          ("paper_id", "arXiv paper ID")];
      returns := "Comprehensive analysis including executive summary, methodology, results, and implications" |});
  ("extract_citations",
   {| description := "Extract citations from paper text or PDF";
      args := [
          ("paper_text", "Optional: Full text of the paper (provide either this or paper_url)");
          ("paper_url", "Optional: URL to paper PDF (provide either this or paper_text)");
          ("format", "Optional: Citation format to expect (default: mixed)")];
      returns := "List of extracted citations with parsed metadata" |});
  ("analyze_citation_network",
   {| description := "Analyze citation relationships between papers";
      args := [
          ("paper_ids", "List of paper IDs to analyze (required)");
          ("depth", "Optional: Citation depth to explore (default: 2)")];
      returns := "Citation network graph with relationships and metrics" |});
  ("process_pdf",
   {| description := "Extract and process text content from PDF";
      args := [
          ("pdf_url", "URL to PDF file (required)");
          ("sections", "Optional: List of sections to extract. If not provided, extracts all content")];
      returns := "Processed text content with section breakdown" |});
  ("extract_sections",
   {| description := "Extract specific sections from academic paper";
      args := [
          ("paper_text", "Full paper text (required)");
          ("sections", "Optional: List of section names (e.g., ['abstract', 'introduction', 'conclusion']). If not provided, extracts all major sections")];
      returns := "Dictionary mapping section names to content" |});
  ("find_similar_papers",
   {| description := "Find papers similar to given paper using semantic search";
      args := [
          ("reference_paper", "Paper text or abstract for similarity comparison (required)");
          ("search_corpus", "Optional: Specific corpus to search in. If not provided, uses default academic corpus")];
      returns := "List of similar papers with similarity scores" |});
  ("calculate_similarity",
   {| description := "Calculate semantic similarity between two papers";
      args := [
          ("paper1_text", "Text content of first paper (required)");
          ("paper2_text", "Text content of second paper (required)")];
      returns := "Similarity score and detailed comparison metrics" |})
].

(** [get_available_tools] *)
Definition get_available_tools : list string := keys TOOL_DESCRIPTIONS.

(** [get_tool_descriptions] *)
Definition get_tool_descriptions : list (string * tool_description) :=
  TOOL_DESCRIPTIONS.

(** The test the loop of [validate_tool_usage] makes on an argument's
    description. *)
Definition is_optional (arg_desc : string) : bool :=
  str_in "Optional:" arg_desc
  || str_in "optional" (lower arg_desc)
  || startswith arg_desc "Optional".

(** The [missing_args] list the loop builds, in the order of the
    description's arguments. *)
Definition missing_args (required_args : list (string * string))
    (tool_args : dict) : list string :=
  map fst
    (filter (fun entry =>
               negb (is_optional (snd entry))
               && negb (contains_key (fst entry) tool_args))
            required_args).

(** [validate_tool_usage(tool_name, tool_args)] on a tool name that is a
    string and arguments that are a mapping, as its signature declares
    them ([str], [Dict[str, Any]]); nothing raises there. *)
Definition validate_tool_usage (tool_name : string) (tool_args : dict)
    : validation :=
  match lookup tool_name TOOL_DESCRIPTIONS with
  | None => not_found tool_name (keys TOOL_DESCRIPTIONS)
  | Some tool_desc =>
      let required_args := args tool_desc in
      let missing := missing_args required_args tool_args in
      if String.eqb tool_name "extract_citations" then
        if negb (truthy (get tool_args "paper_text"))
           && negb (truthy (get tool_args "paper_url"))
        then rejected
               "extract_citations requires either 'paper_text' or 'paper_url'"
               required_args
        else accepted tool_name tool_args
      else if String.eqb tool_name "arxiv_search_papers" then
        if negb (truthy (get tool_args "query"))
        then rejected (tool_name +++ " requires 'query' parameter")
                      required_args
        else accepted tool_name tool_args
      else if in_list tool_name
                ["arxiv_download_paper"; "arxiv_read_paper";
                 "arxiv_get_metadata"; "arxiv_deep_analysis"] then
        if negb (truthy (get tool_args "paper_id"))
        then rejected (tool_name +++ " requires 'paper_id' parameter")
                      required_args
        else accepted tool_name tool_args
      else
        match missing with
        | _ :: _ =>
            rejected ("Missing required arguments: " +++ repr_str_list missing)
                     required_args
        | [] => accepted tool_name tool_args
        end
  end.

(** The activity on values of any JSON type, as the workflow calls it
    with what the planner put under ["tool_name"] and ["tool_args"].

    The loop that builds [missing_args]: [arg_name not in tool_args] is
    evaluated for the arguments that are not optional, in the order of
    the description, and raises on a value that has no [in]. *)
Fixpoint missing_args_of (required_args : list (string * string))
    (tool_args : pyval) : outcome (list string) :=
  match required_args with
  | [] => Returns []
  | (arg_name, arg_desc) :: rest =>
      if is_optional arg_desc then missing_args_of rest tool_args
      else
        and_then (contains tool_args arg_name) (fun present =>
        and_then (missing_args_of rest tool_args) (fun missing =>
          Returns (if present then missing else arg_name :: missing)))
  end.

(** [validate_tool_usage(tool_name, tool_args)] on any values.  A list or
    a dictionary is no key of [TOOL_DESCRIPTIONS] and cannot be looked
    up; [None], a boolean or a number can and is not found. *)
Definition validate_tool_usage_activity (tool_name tool_args : pyval)
    : outcome validation :=
  match tool_name with
  | PyList _ | PyDict _ =>
      Raises (TypeError ("unhashable type: '" +++ type_name tool_name
                         +++ "'"))
  | PyStr name =>
      match lookup name TOOL_DESCRIPTIONS with
      | None => Returns (not_found name (keys TOOL_DESCRIPTIONS))
      | Some tool_desc =>
          let required_args := args tool_desc in
          and_then (missing_args_of required_args tool_args) (fun missing =>
          if String.eqb name "extract_citations" then
            and_then (method_get tool_args "paper_text" PyNone)
              (fun paper_text =>
            if truthy paper_text then
              Returns (accepted_as_given name tool_args)
            else
              and_then (method_get tool_args "paper_url" PyNone)
                (fun paper_url =>
              if truthy paper_url then
                Returns (accepted_as_given name tool_args)
              else
                Returns
                  (rejected
                     "extract_citations requires either 'paper_text' or 'paper_url'"
                     required_args)))
          else if String.eqb name "arxiv_search_papers" then
            and_then (method_get tool_args "query" PyNone) (fun query =>
            if truthy query then Returns (accepted_as_given name tool_args)
            else
              Returns (rejected (name +++ " requires 'query' parameter")
                                required_args))
          else if in_list name
                    ["arxiv_download_paper"; "arxiv_read_paper";
                     "arxiv_get_metadata"; "arxiv_deep_analysis"] then
            and_then (method_get tool_args "paper_id" PyNone)
              (fun paper_id =>
            if truthy paper_id then
              Returns (accepted_as_given name tool_args)
            else
              Returns (rejected (name +++ " requires 'paper_id' parameter")
                                required_args))
          else
            match missing with
            | _ :: _ =>
                Returns
                  (rejected ("Missing required arguments: "
                             +++ repr_str_list missing)
                            required_args)
            | [] => Returns (accepted_as_given name tool_args)
            end)
      end
  | _ =>
      Returns (not_found (str tool_name) (keys TOOL_DESCRIPTIONS))
  end.

End ToolRegistryActivities.

(* ===================================================================== *)
(** ** src/tools/registry.py *)
(* ===================================================================== *)

Module Registry.

(** The keys of [TOOL_REGISTRY], in order; the callables they map to are
    the tool implementations (see [DynamicToolActivity.tool_modules]). *)
Definition TOOL_REGISTRY : list string := [
  "arxiv_search_papers"; "arxiv_download_paper"; "arxiv_list_papers";
  "arxiv_read_paper"; "arxiv_get_metadata"; "arxiv_deep_analysis";
  "extract_citations"; "analyze_citation_network"; "process_pdf";
  "extract_sections"; "find_similar_papers"; "calculate_similarity"
].

Definition TOOL_DESCRIPTIONS : list (string * tool_description) := [
  ("arxiv_search_papers",
   {| description := "Enhanced arXiv paper search with local caching and advanced filtering";
      args := [
          ("query", "Search query string");
          ("max_results", "Optional: Maximum papers to return (default: 10)");
          ("category", "Optional: arXiv category filter (e.g., 'cs.AI', 'cs.LG')");
          ("date_from", "Optional: Start date filter (YYYY-MM-DD)");
          ("date_to", "Optional: End date filter (YYYY-MM-DD)");
          ("sort_by", "Optional: Sort criteria ('relevance', 'submitted', 'updated')")];
      returns := "List of papers with metadata and local storage status" |});
  ("arxiv_download_paper",
   {| description := "Download and locally store an arXiv paper with metadata";
      args := [
          ("paper_id", "arXiv paper ID (e.g., '1706.03762')");
          ("force_download", "Optional: Force re-download if already exists (default: false)")];
      returns := "Download status and local file information" |});
  ("arxiv_list_papers",
   {| description := "List all locally downloaded papers with filtering options";
      args := [
          ("category_filter", "Optional: Category to filter by");
          ("date_from", "Optional: Start date filter for download date");
          ("limit", "Optional: Maximum papers to return (default: 100)")];
      returns := "List of downloaded papers with metadata and local paths" |});
  ("arxiv_read_paper",
   {| description := "Read content of a locally downloaded paper";
      args := [
          ("paper_id", "arXiv paper ID");
          ("include_metadata", "Optional: Include full metadata (default: true)");
          ("extract_sections", "Optional: Extract paper sections (default: false)")];
      returns := "Paper content, metadata, and extracted sections if requested" |});
  ("arxiv_get_metadata",
   {| description := "Get enhanced metadata for a paper (local or remote)";
      args := [
          ("paper_id", "arXiv paper ID");
          ("include_citations", "Optional: Include citation analysis (default: false)");
          ("force_refresh", "Optional: Force refresh from arXiv API (default: false)")];
      returns := "Enhanced paper metadata with local storage information" |});
  ("arxiv_deep_analysis",
   {| description := "Get comprehensive deep analysis of a paper using MCP server";
      args := [
          ("paper_id", "arXiv paper ID")];
      returns := "Comprehensive analysis including executive summary, methodology, results, and implications" |});
  ("extract_citations",
   {| description := "Extract citations from paper text or PDF";
      args := [
          ("paper_text", "Full text of the paper");
          ("paper_url", "Alternative: URL to paper PDF")];
      returns := "List of extracted citations with parsed metadata" |});
  ("analyze_citation_network",
   {| description := "Analyze citation relationships between papers";
      args := [
          ("paper_ids", "List of paper IDs to analyze");
          ("depth", "Citation depth to explore (default: 2)")];
      returns := "Citation network graph with relationships and metrics" |});
  ("process_pdf",
   {| description := "Extract and process text content from PDF";
      args := [
          ("pdf_url", "URL to PDF file");
          ("sections", "Optional list of sections to extract")];
      returns := "Processed text content with section breakdown" |});
  ("extract_sections",
   {| description := "Extract specific sections from academic paper";
      args := [
          ("paper_text", "Full paper text");
          ("sections", "List of section names (e.g., ['abstract', 'introduction', 'conclusion'])")];
      returns := "Dictionary mapping section names to content" |});
  ("find_similar_papers",
   {| description := "Find papers similar to given paper using semantic search";
      args := [
          ("reference_paper", "Paper text or abstract for similarity comparison");
          ("search_corpus", "Optional: specific corpus to search in")];
      returns := "List of similar papers with similarity scores" |});
  ("calculate_similarity",
   {| description := "Calculate semantic similarity between two papers";
      args := [
          ("paper1_text", "Text content of first paper");
          ("paper2_text", "Text content of second paper")];
      returns := "Similarity score and detailed comparison metrics" |})
].

(** [get_available_tools] *)
Definition get_available_tools : list string := TOOL_REGISTRY.

(** The [missing_args] list: an argument is required unless its description
    contains ["Optional:"]. *)
Definition missing_args (required_args : list (string * string))
    (tool_args : dict) : list string :=
  map fst
    (filter (fun entry =>
               negb (str_in "Optional:" (snd entry))
               && negb (contains_key (fst entry) tool_args))
            required_args).

(** [validate_tool_usage(tool_name, tool_args)] *)
Definition validate_tool_usage (tool_name : string) (tool_args : dict)
    : validation :=
  if negb (in_list tool_name TOOL_REGISTRY) then
    not_found tool_name TOOL_REGISTRY
  else
    match lookup tool_name TOOL_DESCRIPTIONS with
    | None =>
        missing_metadata tool_name
    | Some tool_desc =>
        let required_args := args tool_desc in
        let missing := missing_args required_args tool_args in
        match missing with
        | _ :: _ =>
            rejected ("Missing required arguments: " +++ repr_str_list missing)
                     required_args
        | [] => accepted tool_name tool_args
        end
    end.

End Registry.

(* ===================================================================== *)
(** ** src/activities/dynamic_tool_activity.py *)
(* ===================================================================== *)

Module DynamicToolActivity.

(** A tool implementation: what [inspect.iscoroutinefunction] says of it
    and what calling it on the arguments does. *)
Record tool_handler : Type := {
  is_coroutine : bool;
  call : pyval -> outcome pyval
}.

(** What each lazy [from src.tools... import ...] finds: the function,
    unless the import itself raises. *)
Record tool_modules : Type := {
  arxiv_search_papers : outcome tool_handler;
  arxiv_download_paper : outcome tool_handler;
  arxiv_list_papers : outcome tool_handler;
  arxiv_read_paper : outcome tool_handler;
  arxiv_get_paper_metadata : outcome tool_handler;
  arxiv_deep_analysis : outcome tool_handler;
  extract_citations : outcome tool_handler;
  analyze_citation_network : outcome tool_handler;
  process_pdf_content : outcome tool_handler;
  extract_paper_sections : outcome tool_handler;
  find_similar_papers : outcome tool_handler;
  calculate_paper_similarity : outcome tool_handler
}.

(** [activity.info()], supplied by the execution engine. *)
Record activity_info : Type := {
  current_attempt_scheduled_time : pyval;
  attempt : pyval
}.

Definition imported (found : outcome tool_handler)
    : outcome (option tool_handler) :=
  and_then found (fun h => Returns (Some h)).

(** [_get_tool_handler(tool_name)] *)
Definition _get_tool_handler (modules : tool_modules) (tool_name : string)
    : outcome (option tool_handler) :=
  if String.eqb tool_name "arxiv_search_papers" then
    imported (arxiv_search_papers modules)
  else if String.eqb tool_name "arxiv_download_paper" then
    imported (arxiv_download_paper modules)
  else if String.eqb tool_name "arxiv_list_papers" then
    imported (arxiv_list_papers modules)
  else if String.eqb tool_name "arxiv_read_paper" then
    imported (arxiv_read_paper modules)
  else if String.eqb tool_name "arxiv_get_metadata" then
    imported (arxiv_get_paper_metadata modules)
  else if String.eqb tool_name "arxiv_deep_analysis" then
    imported (arxiv_deep_analysis modules)
  else if String.eqb tool_name "extract_citations" then
    imported (extract_citations modules)
  else if String.eqb tool_name "analyze_citation_network" then
    imported (analyze_citation_network modules)
  else if String.eqb tool_name "process_pdf" then
    imported (process_pdf_content modules)
  else if String.eqb tool_name "extract_sections" then
    imported (extract_paper_sections modules)
  else if String.eqb tool_name "find_similar_papers" then
    imported (find_similar_papers modules)
  else if String.eqb tool_name "calculate_similarity" then
    imported (calculate_paper_similarity modules)
  else Returns None.

Definition metadata (info : activity_info) : pyval :=
  PyDict [("execution_time", current_attempt_scheduled_time info);
          ("attempt", attempt info)].

(** [dynamic_tool_activity(tool_name, tool_args)] on a tool name that is a
    string: the [try] block, then the [except Exception as e] block. *)
Definition dynamic_tool_activity (modules : tool_modules)
    (info : activity_info) (tool_name : string) (tool_args : pyval)
    : outcome dict :=
  try_except
    (and_then (_get_tool_handler modules tool_name) (fun handler =>
       match handler with
       | None =>
           Raises (ValueError
                     ("Tool '" +++ tool_name +++ "' not found in registry"))
       | Some h =>
           and_then
             (if is_coroutine h
              then call h tool_args          (* await handler(tool_args) *)
              else call h tool_args)         (* run_in_executor(None, handler, tool_args) *)
             (fun result =>
                Returns [("success", PyBool true);
                         ("tool_name", PyStr tool_name);
                         ("result", result);
                         ("metadata", metadata info)])
       end))
    (fun e =>
       Returns [("success", PyBool false);
                ("tool_name", PyStr tool_name);
                ("error", PyStr (exc_str e));
                ("error_type", PyStr (exc_type e));
                ("metadata", metadata info)]).

(** The activity on a tool name of any JSON type, as the workflow calls
    it.  A value that is not a string equals none of the twelve names, so
    [_get_tool_handler] returns [None] and the [ValueError] raised for it
    is caught. *)
Definition dynamic_tool_activity_any (modules : tool_modules)
    (info : activity_info) (tool_name tool_args : pyval) : outcome dict :=
  match tool_name with
  | PyStr name => dynamic_tool_activity modules info name tool_args
  | _ =>
      Returns [("success", PyBool false);
               ("tool_name", tool_name);
               ("error",
                PyStr ("Tool '" +++ str tool_name
                       +++ "' not found in registry"));
               ("error_type", PyStr "ValueError");
               ("metadata", metadata info)]
  end.

End DynamicToolActivity.

(* ===================================================================== *)
(** ** src/workflows/research_workflow.py *)
(* ===================================================================== *)

Module ResearchWorkflow.

(** The values [research_context["status"]] takes; [Iteration i] is the
    string [f"iteration_{i}"]. *)
Inductive run_status : Type :=
| Initializing
| PlanningComplete
| Iteration (i : nat)
| Summarizing
| Completed
| Failed.

Definition status_string (s : run_status) : string :=
  match s with
  | Initializing => "initializing"
  | PlanningComplete => "planning_complete"
  | Iteration i => "iteration_" +++ str_of_nat i
  | Summarizing => "summarizing"
  | Completed => "completed"
  | Failed => "failed"
  end.

(** [self.research_context]: one field per key the code ever stores; a key
    that is not in the dictionary is [None]. *)
Record context : Type := {
  query : option string;
  user_id : option string;
  document_id : option (option string);
  iteration : option nat;
  status : option run_status;
  plan : option pyval;
  papers_count : option nat;
  papers_downloaded : option nat;
  downloaded_papers : option (list pyval);
  read_papers : option (list pyval);
  extracted_content : option (list pyval);
  citations : option (list pyval);
  citation_network : option pyval;
  analysis_count : option nat;
  similar_papers : option (list pyval);
  similarity_scores : option (list pyval);
  tool_results : option (list pyval);
  summary : option pyval;
  error : option string;
  updated_focus : option string
}.

(** The empty dictionary [{}]. *)
Definition empty_context : context :=
  {| query := None; user_id := None; document_id := None;
     iteration := None; status := None; plan := None;
     papers_count := None; papers_downloaded := None;
     downloaded_papers := None; read_papers := None;
     extracted_content := None; citations := None;
     citation_network := None; analysis_count := None;
     similar_papers := None; similarity_scores := None;
     tool_results := None; summary := None; error := None;
     updated_focus := None |}.

(** [research_context[key] = v], one setter per key. *)

Definition set_iteration (v : option nat) (c : context) : context :=
  {| query := query c; user_id := user_id c; document_id := document_id c;
     iteration := v; status := status c; plan := plan c;
     papers_count := papers_count c;
     papers_downloaded := papers_downloaded c;
     downloaded_papers := downloaded_papers c;
     read_papers := read_papers c;
     extracted_content := extracted_content c; citations := citations c;
     citation_network := citation_network c;
     analysis_count := analysis_count c;
     similar_papers := similar_papers c;
     similarity_scores := similarity_scores c;
     tool_results := tool_results c; summary := summary c;
     error := error c; updated_focus := updated_focus c |}.

Definition set_status (v : option run_status) (c : context) : context :=
  {| query := query c; user_id := user_id c; document_id := document_id c;
     iteration := iteration c; status := v; plan := plan c;
     papers_count := papers_count c;
     papers_downloaded := papers_downloaded c;
     downloaded_papers := downloaded_papers c;
     read_papers := read_papers c;
     extracted_content := extracted_content c; citations := citations c;
     citation_network := citation_network c;
     analysis_count := analysis_count c;
     similar_papers := similar_papers c;
     similarity_scores := similarity_scores c;
     tool_results := tool_results c; summary := summary c;
     error := error c; updated_focus := updated_focus c |}.

Definition set_plan (v : option pyval) (c : context) : context :=
  {| query := query c; user_id := user_id c; document_id := document_id c;
     iteration := iteration c; status := status c; plan := v;
     papers_count := papers_count c;
     papers_downloaded := papers_downloaded c;
     downloaded_papers := downloaded_papers c;
     read_papers := read_papers c;
     extracted_content := extracted_content c; citations := citations c;
     citation_network := citation_network c;
     analysis_count := analysis_count c;
     similar_papers := similar_papers c;
     similarity_scores := similarity_scores c;
     tool_results := tool_results c; summary := summary c;
     error := error c; updated_focus := updated_focus c |}.

Definition set_papers_count (v : option nat) (c : context) : context :=
  {| query := query c; user_id := user_id c; document_id := document_id c;
     iteration := iteration c; status := status c; plan := plan c;
     papers_count := v; papers_downloaded := papers_downloaded c;
     downloaded_papers := downloaded_papers c;
     read_papers := read_papers c;
     extracted_content := extracted_content c; citations := citations c;
     citation_network := citation_network c;
     analysis_count := analysis_count c;
     similar_papers := similar_papers c;
     similarity_scores := similarity_scores c;
     tool_results := tool_results c; summary := summary c;
     error := error c; updated_focus := updated_focus c |}.

Definition set_papers_downloaded (v : option nat) (c : context) : context :=
  {| query := query c; user_id := user_id c; document_id := document_id c;
     iteration := iteration c; status := status c; plan := plan c;
     papers_count := papers_count c; papers_downloaded := v;
     downloaded_papers := downloaded_papers c;
     read_papers := read_papers c;
     extracted_content := extracted_content c; citations := citations c;
     citation_network := citation_network c;
     analysis_count := analysis_count c;
     similar_papers := similar_papers c;
     similarity_scores := similarity_scores c;
     tool_results := tool_results c; summary := summary c;
     error := error c; updated_focus := updated_focus c |}.

Definition set_downloaded_papers (v : option (list pyval)) (c : context) : context :=
  {| query := query c; user_id := user_id c; document_id := document_id c;
     iteration := iteration c; status := status c; plan := plan c;
     papers_count := papers_count c;
     papers_downloaded := papers_downloaded c; downloaded_papers := v;
     read_papers := read_papers c;
     extracted_content := extracted_content c; citations := citations c;
     citation_network := citation_network c;
     analysis_count := analysis_count c;
     similar_papers := similar_papers c;
     similarity_scores := similarity_scores c;
     tool_results := tool_results c; summary := summary c;
     error := error c; updated_focus := updated_focus c |}.

Definition set_read_papers (v : option (list pyval)) (c : context) : context :=
  {| query := query c; user_id := user_id c; document_id := document_id c;
     iteration := iteration c; status := status c; plan := plan c;
     papers_count := papers_count c;
     papers_downloaded := papers_downloaded c;
     downloaded_papers := downloaded_papers c; read_papers := v;
     extracted_content := extracted_content c; citations := citations c;
     citation_network := citation_network c;
     analysis_count := analysis_count c;
     similar_papers := similar_papers c;
     similarity_scores := similarity_scores c;
     tool_results := tool_results c; summary := summary c;
     error := error c; updated_focus := updated_focus c |}.

Definition set_extracted_content (v : option (list pyval)) (c : context) : context :=
  {| query := query c; user_id := user_id c; document_id := document_id c;
     iteration := iteration c; status := status c; plan := plan c;
     papers_count := papers_count c;
     papers_downloaded := papers_downloaded c;
     downloaded_papers := downloaded_papers c;
     read_papers := read_papers c; extracted_content := v;
     citations := citations c; citation_network := citation_network c;
     analysis_count := analysis_count c;
     similar_papers := similar_papers c;
     similarity_scores := similarity_scores c;
     tool_results := tool_results c; summary := summary c;
     error := error c; updated_focus := updated_focus c |}.

Definition set_citations (v : option (list pyval)) (c : context) : context :=
  {| query := query c; user_id := user_id c; document_id := document_id c;
     iteration := iteration c; status := status c; plan := plan c;
     papers_count := papers_count c;
     papers_downloaded := papers_downloaded c;
     downloaded_papers := downloaded_papers c;
     read_papers := read_papers c;
     extracted_content := extracted_content c; citations := v;
     citation_network := citation_network c;
     analysis_count := analysis_count c;
     similar_papers := similar_papers c;
     similarity_scores := similarity_scores c;
     tool_results := tool_results c; summary := summary c;
     error := error c; updated_focus := updated_focus c |}.

Definition set_citation_network (v : option pyval) (c : context) : context :=
  {| query := query c; user_id := user_id c; document_id := document_id c;
     iteration := iteration c; status := status c; plan := plan c;
     papers_count := papers_count c;
     papers_downloaded := papers_downloaded c;
     downloaded_papers := downloaded_papers c;
     read_papers := read_papers c;
     extracted_content := extracted_content c; citations := citations c;
     citation_network := v; analysis_count := analysis_count c;
     similar_papers := similar_papers c;
     similarity_scores := similarity_scores c;
     tool_results := tool_results c; summary := summary c;
     error := error c; updated_focus := updated_focus c |}.

Definition set_analysis_count (v : option nat) (c : context) : context :=
  {| query := query c; user_id := user_id c; document_id := document_id c;
     iteration := iteration c; status := status c; plan := plan c;
     papers_count := papers_count c;
     papers_downloaded := papers_downloaded c;
     downloaded_papers := downloaded_papers c;
     read_papers := read_papers c;
     extracted_content := extracted_content c; citations := citations c;
     citation_network := citation_network c; analysis_count := v;
     similar_papers := similar_papers c;
     similarity_scores := similarity_scores c;
     tool_results := tool_results c; summary := summary c;
     error := error c; updated_focus := updated_focus c |}.

Definition set_similar_papers (v : option (list pyval)) (c : context) : context :=
  {| query := query c; user_id := user_id c; document_id := document_id c;
     iteration := iteration c; status := status c; plan := plan c;
     papers_count := papers_count c;
     papers_downloaded := papers_downloaded c;
     downloaded_papers := downloaded_papers c;
     read_papers := read_papers c;
     extracted_content := extracted_content c; citations := citations c;
     citation_network := citation_network c;
     analysis_count := analysis_count c; similar_papers := v;
     similarity_scores := similarity_scores c;
     tool_results := tool_results c; summary := summary c;
     error := error c; updated_focus := updated_focus c |}.

Definition set_similarity_scores (v : option (list pyval)) (c : context) : context :=
  {| query := query c; user_id := user_id c; document_id := document_id c;
     iteration := iteration c; status := status c; plan := plan c;
     papers_count := papers_count c;
     papers_downloaded := papers_downloaded c;
     downloaded_papers := downloaded_papers c;
     read_papers := read_papers c;
     extracted_content := extracted_content c; citations := citations c;
     citation_network := citation_network c;
     analysis_count := analysis_count c;
     similar_papers := similar_papers c; similarity_scores := v;
     tool_results := tool_results c; summary := summary c;
     error := error c; updated_focus := updated_focus c |}.

Definition set_tool_results (v : option (list pyval)) (c : context) : context :=
  {| query := query c; user_id := user_id c; document_id := document_id c;
     iteration := iteration c; status := status c; plan := plan c;
     papers_count := papers_count c;
     papers_downloaded := papers_downloaded c;
     downloaded_papers := downloaded_papers c;
     read_papers := read_papers c;
     extracted_content := extracted_content c; citations := citations c;
     citation_network := citation_network c;
     analysis_count := analysis_count c;
     similar_papers := similar_papers c;
     similarity_scores := similarity_scores c; tool_results := v;
     summary := summary c; error := error c;
     updated_focus := updated_focus c |}.

Definition set_summary (v : option pyval) (c : context) : context :=
  {| query := query c; user_id := user_id c; document_id := document_id c;
     iteration := iteration c; status := status c; plan := plan c;
     papers_count := papers_count c;
     papers_downloaded := papers_downloaded c;
     downloaded_papers := downloaded_papers c;
     read_papers := read_papers c;
     extracted_content := extracted_content c; citations := citations c;
     citation_network := citation_network c;
     analysis_count := analysis_count c;
     similar_papers := similar_papers c;
     similarity_scores := similarity_scores c;
     tool_results := tool_results c; summary := v; error := error c;
     updated_focus := updated_focus c |}.

Definition set_error (v : option string) (c : context) : context :=
  {| query := query c; user_id := user_id c; document_id := document_id c;
     iteration := iteration c; status := status c; plan := plan c;
     papers_count := papers_count c;
     papers_downloaded := papers_downloaded c;
     downloaded_papers := downloaded_papers c;
     read_papers := read_papers c;
     extracted_content := extracted_content c; citations := citations c;
     citation_network := citation_network c;
     analysis_count := analysis_count c;
     similar_papers := similar_papers c;
     similarity_scores := similarity_scores c;
     tool_results := tool_results c; summary := summary c; error := v;
     updated_focus := updated_focus c |}.

Definition set_updated_focus (v : option string) (c : context) : context :=
  {| query := query c; user_id := user_id c; document_id := document_id c;
     iteration := iteration c; status := status c; plan := plan c;
     papers_count := papers_count c;
     papers_downloaded := papers_downloaded c;
     downloaded_papers := downloaded_papers c;
     read_papers := read_papers c;
     extracted_content := extracted_content c; citations := citations c;
     citation_network := citation_network c;
     analysis_count := analysis_count c;
     similar_papers := similar_papers c;
     similarity_scores := similarity_scores c;
     tool_results := tool_results c; summary := summary c;
     error := error c; updated_focus := v |}.

(** The attributes of a [ResearchWorkflow] object. *)
Record workflow : Type := {
  research_context : context;
  discovered_papers : list pyval;
  analysis_results : list pyval;
  max_iterations : nat
}.

(** A workflow object whose iteration cap is [cap]. *)
Definition configured (cap : nat) : workflow :=
  {| research_context := empty_context;
     discovered_papers := [];
     analysis_results := [];
     max_iterations := cap |}.

(** [ResearchWorkflow.__init__] *)
Definition __init__ : workflow := configured 10.

(** *** State and exceptions

    A computation reads and writes a state and either returns or raises;
    what it wrote before raising stays written, as with in-place mutation. *)
Definition St (S A : Type) : Type := S -> outcome A * S.

Definition ret {S A : Type} (a : A) : St S A := fun s => (Returns a, s).

Definition bind {S A B : Type} (m : St S A) (k : A -> St S B) : St S B :=
  fun s =>
    match m s with
    | (Returns a, s') => k a s'
    | (Raises e, s') => (Raises e, s')
    end.

Definition lift {S A : Type} (o : outcome A) : St S A := fun s => (o, s).

Definition get_state {S : Type} : St S S := fun s => (Returns s, s).

Definition modify {S : Type} (f : S -> S) : St S unit :=
  fun s => (Returns tt, f s).

(** [try: body  except Exception as e: handler(e)] with state. *)
Definition catch {S A : Type} (body : St S A) (handler : exception -> St S A)
    : St S A :=
  fun s =>
    match body s with
    | (Returns a, s') => (Returns a, s')
    | (Raises e, s') =>
        if is_exception e then handler e s' else (Raises e, s')
    end.

Notation "x <- c1 ;; c2" := (bind c1 (fun x => c2))
  (at level 61, c1 at next level, right associativity).
Notation "c1 ;; c2" := (bind c1 (fun _ => c2))
  (at level 61, right associativity).

(** *** The context accumulator *)

Definition update_context (f : context -> context) : St workflow unit :=
  modify (fun self =>
    {| research_context := f (research_context self);
       discovered_papers := discovered_papers self;
       analysis_results := analysis_results self;
       max_iterations := max_iterations self |}).

(** [self.discovered_papers.extend(papers)] *)
Definition extend_discovered (papers : list pyval) : St workflow unit :=
  modify (fun self =>
    {| research_context := research_context self;
       discovered_papers := discovered_papers self ++ papers;
       analysis_results := analysis_results self;
       max_iterations := max_iterations self |}).

(** [self.analysis_results.append(content)] *)
Definition append_analysis (content : pyval) : St workflow unit :=
  modify (fun self =>
    {| research_context := research_context self;
       discovered_papers := discovered_papers self;
       analysis_results := analysis_results self ++ [content];
       max_iterations := max_iterations self |}).

Definition KeyError (key : string) : exception :=
  {| exc_type := "KeyError"; exc_str := "'" +++ key +++ "'";
     is_exception := true |}.

(** [research_context[key]] *)
Definition item {A : Type} (key : string) (field : option A) : outcome A :=
  match field with
  | Some v => Returns v
  | None => Raises (KeyError key)
  end.

(** [if key not in self.research_context: self.research_context[key] = []] *)
Definition ensure (field : context -> option (list pyval))
    (set : option (list pyval) -> context -> context) : St workflow unit :=
  update_context (fun c =>
    match field c with
    | None => set (Some []) c
    | Some _ => c
    end).

(** [self.research_context[key].extend(items)]; [append(x)] is [extend([x])]. *)
Definition extend_item (key : string) (field : context -> option (list pyval))
    (set : option (list pyval) -> context -> context) (items : list pyval)
    : St workflow unit :=
  self <- get_state ;;
  l <- lift (item key (field (research_context self))) ;;
  update_context (set (Some (l ++ items))).

(** [sum(1 for paper in papers if paper.get("is_downloaded", False))] *)
Fixpoint downloaded_count (papers : list pyval) : outcome nat :=
  match papers with
  | [] => Returns 0
  | paper :: rest =>
      and_then (method_get paper "is_downloaded" (PyBool false)) (fun flag =>
      and_then (downloaded_count rest) (fun n =>
        Returns (if truthy flag then S n else n)))
  end.

(** The entry stored in [tool_results]. *)
Definition tool_results_entry (tool_name : string) (tool_result : dict)
    (now : pyval) : pyval :=
  PyDict [("tool", PyStr tool_name);
          ("result", PyDict tool_result);
          ("timestamp", now)].

(** The same for a tool name of any JSON type. *)
Definition stored_entry (tool_name : pyval) (tool_result : dict)
    (now : pyval) : pyval :=
  PyDict [("tool", tool_name);
          ("result", PyDict tool_result);
          ("timestamp", now)].

(** [_update_context_with_results(self, tool_result, tool_name)] on a
    tool name that is a string; [now] is the value of [workflow.now()]. *)
Definition _update_context_with_results (now : pyval) (tool_result : dict)
    (tool_name : string) : St workflow unit :=
  (if in_list tool_name ["arxiv_search_papers"; "arxiv_search"]
      && contains_key "papers" tool_result then
     papers <- lift (iterate (get tool_result "papers")) ;;
     extend_discovered papers ;;
     self <- get_state ;;
     update_context
       (set_papers_count (Some (List.length (discovered_papers self)))) ;;
     if String.eqb tool_name "arxiv_search_papers" then
       n <- lift (downloaded_count papers) ;;
       update_context (set_papers_downloaded (Some n))
     else ret tt
   else if String.eqb tool_name "arxiv_download_paper"
           && truthy (get tool_result "success") then
     ensure downloaded_papers set_downloaded_papers ;;
     if contains_key "paper_id" tool_result then
       extend_item "downloaded_papers" downloaded_papers
         set_downloaded_papers [get tool_result "paper_id"]
     else ret tt
   else if String.eqb tool_name "arxiv_read_paper"
           && truthy (get tool_result "success") then
     ensure read_papers set_read_papers ;;
     (if contains_key "paper_id" tool_result then
        extend_item "read_papers" read_papers set_read_papers
          [get tool_result "paper_id"]
      else ret tt) ;;
     if contains_key "content" tool_result
        && contains_key "paper_id" tool_result then
       ensure extracted_content set_extracted_content ;;
       sections <- lift (method_get (get tool_result "content")
                           "sections" (PyDict [])) ;;
       sections_found <- lift (len sections) ;;
       extend_item "extracted_content" extracted_content
         set_extracted_content
         [PyDict [("paper_id", get tool_result "paper_id");
                  ("sections_found", PyInt (Z.of_nat sections_found))]]
     else ret tt
   else if in_list tool_name ["extract_citations"; "analyze_citation_network"] then
     (if contains_key "citations" tool_result then
        ensure citations set_citations ;;
        found <- lift (iterate (get tool_result "citations")) ;;
        extend_item "citations" citations set_citations found
      else ret tt) ;;
     if contains_key "network" tool_result then
       update_context (set_citation_network (Some (get tool_result "network")))
     else ret tt
   else if in_list tool_name ["process_pdf"; "extract_sections"]
           && contains_key "content" tool_result then
     append_analysis (get tool_result "content") ;;
     self <- get_state ;;
     update_context
       (set_analysis_count (Some (List.length (analysis_results self))))
   else if in_list tool_name ["find_similar_papers"; "calculate_similarity"] then
     (if contains_key "similar_papers" tool_result then
        ensure similar_papers set_similar_papers ;;
        found <- lift (iterate (get tool_result "similar_papers")) ;;
        extend_item "similar_papers" similar_papers set_similar_papers found
      else ret tt) ;;
     if contains_key "similarity" tool_result then
       ensure similarity_scores set_similarity_scores ;;
       extend_item "similarity_scores" similarity_scores
         set_similarity_scores [get tool_result "similarity"]
     else ret tt
   else ret tt) ;;
  ensure tool_results set_tool_results ;;
  extend_item "tool_results" tool_results set_tool_results
    [tool_results_entry tool_name tool_result now].

(** The method on a tool name of any JSON type.  A value that is not a
    string equals none of the names the branches compare it with, so only
    the entry in [tool_results] is stored. *)
Definition _update_context_with_results_any (now : pyval)
    (tool_result : dict) (tool_name : pyval) : St workflow unit :=
  match tool_name with
  | PyStr name => _update_context_with_results now tool_result name
  | _ =>
      ensure tool_results set_tool_results ;;
      extend_item "tool_results" tool_results set_tool_results
        [stored_entry tool_name tool_result now]
  end.

(** [len] of an accumulator kept in the context; an absent key holds
    nothing. *)
Definition size (field : option (list pyval)) : nat :=
  match field with
  | Some l => List.length l
  | None => 0
  end.

(** *** The agent loop *)

(** What the workflow does that an observer can see, in the order it does
    it.  The trace is not part of the Python object: it records the writes
    of [status] and [iteration], the activity calls and the log lines. *)
Inductive event : Type :=
| StatusSet (s : run_status)
| IterationSet (i : nat)
| Plan (research_query : string)
| GetAvailableTools
| Analyze
| Validate (tool_name tool_args : pyval)
| Dispatch (tool_name tool_args : pyval)
| Merge (tool_name : pyval) (tool_result : dict)
| Warning (message : string)
| Sleep
| Summarize.

(** The collaborators of a run: the LLM activities, which return a JSON
    value or fail as the execution engine reports them, the tool
    implementations, and the engine's clock and attempt data (functions of
    what happened so far). *)
Record environment : Type := {
  llm_plan_research : string -> outcome pyval;
  llm_analyze : context -> list string -> outcome pyval;
  llm_analyze_summarize : context -> list string -> outcome pyval;
  modules : DynamicToolActivity.tool_modules;
  info : list event -> DynamicToolActivity.activity_info;
  workflow_now : list event -> pyval
}.

(** The workflow object together with the trace, newest event first. *)
Record machine : Type := {
  self : workflow;
  trace : list event
}.

Definition emit (e : event) : St machine unit :=
  modify (fun m => {| self := self m; trace := e :: trace m |}).

(** Run a method of the workflow object; the trace is out of its reach. *)
Definition on_self {A : Type} (method : St workflow A) : St machine A :=
  fun m =>
    let (r, self') := method (self m) in
    (r, {| self := self'; trace := trace m |}).

(** [await workflow.execute_activity(...)]: the call is recorded, then it
    returns or raises.  The registry and dispatch activities run the code
    embedded above, and what that code raises reaches the workflow as it
    is; the LLM activities are those of the [environment], and one the
    execution engine gives up on (timeout, attempts exhausted) is a call
    that raises.  The engine's own retries are not events of the
    workflow. *)
Definition execute_activity {A : Type} (e : event) (result : outcome A)
    : St machine A :=
  emit e ;; lift result.

(** [self.research_context["status"] = s] *)
Definition write_status (s : run_status) : St machine unit :=
  on_self (update_context (set_status (Some s))) ;;
  emit (StatusSet s).

(** [self.research_context["iteration"] = i] *)
Definition write_iteration (i : nat) : St machine unit :=
  on_self (update_context (set_iteration (Some i))) ;;
  emit (IterationSet i).

(** [action == "complete"] *)
Definition is_complete (action : pyval) : bool :=
  match action with
  | PyStr s => String.eqb s "complete"
  | _ => false
  end.

(** How one pass through the loop body ends. *)
Inductive flow : Type := Next | Break.

(** The body of [for iteration in range(self.max_iterations)].  Once
    [next_action.get("action")] has returned, [next_action] is a
    dictionary, and [entry] reads [key in next_action] together with
    [next_action[key]]. *)
Definition iteration_body (env : environment) (iteration : nat)
    : St machine flow :=
  write_iteration iteration ;;
  write_status (Iteration iteration) ;;
  available_tools <-
    execute_activity GetAvailableTools
      (Returns ToolRegistryActivities.get_available_tools) ;;
  m <- get_state ;;
  next_action <-
    execute_activity Analyze
      (llm_analyze env (research_context (self m)) available_tools) ;;
  action <- lift (method_get next_action "action" PyNone) ;;
  if is_complete action then
    ret Break
  else
    match entry next_action "tool_name", entry next_action "tool_args" with
    | Some tool_name, Some tool_args =>
        tool_validation <-
          execute_activity (Validate tool_name tool_args)
            (ToolRegistryActivities.validate_tool_usage_activity
               tool_name tool_args) ;;
        if valid tool_validation then
          m <- get_state ;;
          tool_result <-
            execute_activity (Dispatch tool_name tool_args)
              (DynamicToolActivity.dynamic_tool_activity_any
                 (modules env) (info env (trace m)) tool_name tool_args) ;;
          m <- get_state ;;
          emit (Merge tool_name tool_result) ;;
          on_self (_update_context_with_results_any
                     (workflow_now env (trace m)) tool_result tool_name)
        else
          why <- lift (item "reason" (reason tool_validation)) ;;
          emit (Warning ("Tool validation failed: " +++ why))
    | _, _ => ret tt
    end ;;
    emit Sleep ;;
    ret Next.

(** [for i in indices: body(i)], where the body may [break]. *)
Fixpoint for_range (body : nat -> St machine flow) (indices : list nat)
    : St machine unit :=
  match indices with
  | [] => ret tt
  | i :: rest =>
      signal <- body i ;;
      match signal with
      | Break => ret tt
      | Next => for_range body rest
      end
  end.

(** The dictionary [run] returns. *)
Record run_result : Type := {
  success : bool;
  result_error : option string;
  result_research_context : context;
  papers_discovered : option nat;
  result_analysis_count : option nat;
  final_summary : option pyval
}.

(** The dictionary [run] assigns to [self.research_context] first. *)
Definition initial_context (research_query user_id : string)
    (document_id : option string) : context :=
  {| query := Some research_query; user_id := Some user_id;
     document_id := Some document_id; iteration := Some 0;
     status := Some Initializing; plan := None; papers_count := None;
     papers_downloaded := None; downloaded_papers := None;
     read_papers := None; extracted_content := None; citations := None;
     citation_network := None; analysis_count := None;
     similar_papers := None; similarity_scores := None;
     tool_results := None; summary := None; error := None;
     updated_focus := None |}.

(** The [try] block of [run]. *)
Definition run_try (env : environment) (research_query : string)
    : St machine run_result :=
  research_plan <-
    execute_activity (Plan research_query)
      (llm_plan_research env research_query) ;;
  on_self (update_context (set_plan (Some research_plan))) ;;
  write_status PlanningComplete ;;
  m <- get_state ;;
  for_range (iteration_body env) (seq 0 (max_iterations (self m))) ;;
  write_status Summarizing ;;
  m <- get_state ;;
  final_summary <-
    execute_activity Summarize
      (llm_analyze_summarize env (research_context (self m)) []) ;;
  write_status Completed ;;
  on_self (update_context (set_summary (Some final_summary))) ;;
  m <- get_state ;;
  ret {| success := true;
         result_error := None;
         result_research_context := research_context (self m);
         papers_discovered := Some (List.length (discovered_papers (self m)));
         result_analysis_count := Some (List.length (analysis_results (self m)));
         final_summary := Some final_summary |}.

(** The [except Exception as e] block of [run]. *)
Definition run_except (e : exception) : St machine run_result :=
  write_status Failed ;;
  on_self (update_context (set_error (Some (exc_str e)))) ;;
  m <- get_state ;;
  ret {| success := false;
         result_error := Some (exc_str e);
         result_research_context := research_context (self m);
         papers_discovered := None;
         result_analysis_count := None;
         final_summary := None |}.

(** [ResearchWorkflow.run(research_query, user_id, document_id)] *)
Definition run (env : environment) (research_query user_id : string)
    (document_id : option string) : St machine run_result :=
  on_self (update_context
             (fun _ => initial_context research_query user_id document_id)) ;;
  emit (StatusSet Initializing) ;;
  catch (run_try env research_query) run_except.

(** A fresh workflow object with cap [cap], before anything happened. *)
Definition start (cap : nat) : machine :=
  {| self := configured cap; trace := [] |}.

(** [update_research_focus(new_focus)] *)
Definition update_research_focus (new_focus : string) : St workflow unit :=
  update_context (set_updated_focus (Some new_focus)).

End ResearchWorkflow.

(* ===================================================================== *)
(** ** Vocabulary of the properties *)
(* ===================================================================== *)

Import ResearchWorkflow.

(** The key is in the mapping and its value is truthy. *)
Definition present_and_truthy (tool_args : dict) (key : string) : Prop :=
  exists v, lookup key tool_args = Some v /\ truthy v = true.

(** The key is in the mapping and its value is falsy. *)
Definition present_but_falsy (tool_args : dict) (key : string) : Prop :=
  exists v, lookup key tool_args = Some v /\ truthy v = false.

(** The tools for which [ToolRegistryActivities.validate_tool_usage] has a
    branch of its own, in the order of its [if]/[elif] chain. *)
Definition has_special_case (tool_name : string) : bool :=
  String.eqb tool_name "extract_citations"
  || String.eqb tool_name "arxiv_search_papers"
  || in_list tool_name
       ["arxiv_download_paper"; "arxiv_read_paper";
        "arxiv_get_metadata"; "arxiv_deep_analysis"].

(** *** Tool implementations used in examples *)

(** A function that raises [e] on every call. *)
Definition raising (e : exception) : DynamicToolActivity.tool_handler :=
  {| DynamicToolActivity.is_coroutine := false;
     DynamicToolActivity.call := fun _ => Raises e |}.

(** A coroutine function that returns [v] on every call. *)
Definition returning (v : pyval) : DynamicToolActivity.tool_handler :=
  {| DynamicToolActivity.is_coroutine := true;
     DynamicToolActivity.call := fun _ => Returns v |}.

(** Tool modules in which every name resolves to the same function. *)
Definition every_tool (h : DynamicToolActivity.tool_handler)
    : DynamicToolActivity.tool_modules :=
  {| DynamicToolActivity.arxiv_search_papers := Returns h;
     DynamicToolActivity.arxiv_download_paper := Returns h;
     DynamicToolActivity.arxiv_list_papers := Returns h;
     DynamicToolActivity.arxiv_read_paper := Returns h;
     DynamicToolActivity.arxiv_get_paper_metadata := Returns h;
     DynamicToolActivity.arxiv_deep_analysis := Returns h;
     DynamicToolActivity.extract_citations := Returns h;
     DynamicToolActivity.analyze_citation_network := Returns h;
     DynamicToolActivity.process_pdf_content := Returns h;
     DynamicToolActivity.extract_paper_sections := Returns h;
     DynamicToolActivity.find_similar_papers := Returns h;
     DynamicToolActivity.calculate_paper_similarity := Returns h |}.

Definition first_attempt : DynamicToolActivity.activity_info :=
  {| DynamicToolActivity.current_attempt_scheduled_time := PyInt 0;
     DynamicToolActivity.attempt := PyInt 1 |}.

(** The envelope [dynamic_tool_activity] builds in its [except] block. *)
Definition failure_envelope (info : DynamicToolActivity.activity_info)
    (tool_name : string) (e : exception) : dict :=
  [("success", PyBool false);
   ("tool_name", PyStr tool_name);
   ("error", PyStr (exc_str e));
   ("error_type", PyStr (exc_type e));
   ("metadata", DynamicToolActivity.metadata info)].

(** The envelope [dynamic_tool_activity] builds when the tool returned. *)
Definition success_envelope (info : DynamicToolActivity.activity_info)
    (tool_name : string) (result : pyval) : dict :=
  [("success", PyBool true);
   ("tool_name", PyStr tool_name);
   ("result", result);
   ("metadata", DynamicToolActivity.metadata info)].

(** What [dynamic_tool_activity] does with the outcome of importing and
    calling the handler: the first envelope for a value, the second for an
    [Exception]; any other exception passes through its
    [except Exception]. *)
Definition answer_for (info : DynamicToolActivity.activity_info)
    (tool_name : string) (attempt : outcome pyval) : outcome dict :=
  match attempt with
  | Returns result => Returns (success_envelope info tool_name result)
  | Raises e =>
      if is_exception e then Returns (failure_envelope info tool_name e)
      else Raises e
  end.

(** Importing the handler for [tool_name] or calling it on [tool_args]
    raises [e]. *)
Definition tool_raises (modules : DynamicToolActivity.tool_modules)
    (tool_name : string) (tool_args : pyval) (e : exception) : Prop :=
  DynamicToolActivity._get_tool_handler modules tool_name = Raises e
  \/ exists h,
       DynamicToolActivity._get_tool_handler modules tool_name
       = Returns (Some h)
       /\ DynamicToolActivity.call h tool_args = Raises e.

(** *** Observing the workflow object *)

(** The items of an accumulator kept in the context. *)
Definition held (field : option (list pyval)) : list pyval :=
  match field with
  | Some l => l
  | None => []
  end.

(** No accumulator is shorter in [w'] than in [w]. *)
Definition accumulators_grow (w w' : workflow) : Prop :=
  List.length (discovered_papers w) <= List.length (discovered_papers w')
  /\ size (downloaded_papers (research_context w))
     <= size (downloaded_papers (research_context w'))
  /\ size (read_papers (research_context w))
     <= size (read_papers (research_context w'))
  /\ size (citations (research_context w))
     <= size (citations (research_context w'))
  /\ size (similar_papers (research_context w))
     <= size (similar_papers (research_context w'))
  /\ size (similarity_scores (research_context w))
     <= size (similarity_scores (research_context w'))
  /\ size (extracted_content (research_context w))
     <= size (extracted_content (research_context w'))
  /\ List.length (analysis_results w) <= List.length (analysis_results w')
  /\ size (tool_results (research_context w))
     <= size (tool_results (research_context w')).

(** The fields the loop itself writes are the same in [w'] as in [w]. *)
Definition same_run_fields (w w' : workflow) : Prop :=
  status (research_context w') = status (research_context w)
  /\ iteration (research_context w') = iteration (research_context w)
  /\ query (research_context w') = query (research_context w)
  /\ plan (research_context w') = plan (research_context w)
  /\ summary (research_context w') = summary (research_context w)
  /\ error (research_context w') = error (research_context w)
  /\ max_iterations w' = max_iterations w.

Definition same_tool_results (w w' : workflow) : Prop :=
  tool_results (research_context w') = tool_results (research_context w).

(** A computation takes every state to one that [R] relates it to,
    whether it returns or raises. *)
Definition relates {S A : Type} (R : S -> S -> Prop) (m : St S A) : Prop :=
  forall s, R s (snd (m s)).

(** None of the keys the category rules of
    [_update_context_with_results] look for is in the mapping. *)
Definition category_keys_absent (tool_result : dict) : Prop :=
  contains_key "papers" tool_result = false
  /\ contains_key "paper_id" tool_result = false
  /\ contains_key "content" tool_result = false
  /\ contains_key "citations" tool_result = false
  /\ contains_key "network" tool_result = false
  /\ contains_key "similar_papers" tool_result = false
  /\ contains_key "similarity" tool_result = false.

(** *** Observing a run *)

Definition is_analyze (e : event) : bool :=
  match e with Analyze => true | _ => false end.

Definition is_dispatch (e : event) : bool :=
  match e with Dispatch _ _ => true | _ => false end.

Definition is_merge (e : event) : bool :=
  match e with Merge _ _ => true | _ => false end.

(** A pass through the loop body starts by writing [iteration]. *)
Definition is_cycle (e : event) : bool :=
  match e with IterationSet _ => true | _ => false end.

(** How many events of a kind a trace holds. *)
Definition count (kind : event -> bool) (t : list event) : nat :=
  List.length (filter kind t).

(** The values written to [status], newest first. *)
Fixpoint status_writes (t : list event) : list run_status :=
  match t with
  | [] => []
  | StatusSet s :: older => s :: status_writes older
  | _ :: older => status_writes older
  end.

(** The values the loop wrote to [iteration], newest first. *)
Fixpoint iteration_writes (t : list event) : list nat :=
  match t with
  | [] => []
  | IterationSet i :: older => i :: iteration_writes older
  | _ :: older => iteration_writes older
  end.

(** The same in the order they were written. *)
Definition status_history (t : list event) : list run_status :=
  rev (status_writes t).


(** The papers found by the dispatched searches: for each merged envelope,
    the length of [result.papers] (zero where there is none). *)
Definition papers_in (envelope : dict) : nat :=
  match get envelope "result" with
  | PyDict result =>
      match get result "papers" with
      | PyList papers => List.length papers
      | _ => 0
      end
  | _ => 0
  end.

Fixpoint papers_dispatched (t : list event) : nat :=
  match t with
  | [] => 0
  | Merge _ envelope :: older => papers_in envelope + papers_dispatched older
  | _ :: older => papers_dispatched older
  end.

(** The order of the states of a run:
    initializing, planning_complete, iteration_0, iteration_1, ...,
    summarizing, then completed or failed. *)
Definition phase (s : run_status) : nat :=
  match s with
  | Initializing => 0
  | PlanningComplete => 1
  | Iteration _ => 2
  | Summarizing => 3
  | Completed => 4
  | Failed => 4
  end.

(** [a] comes strictly before [b]. *)
Definition before (a b : run_status) : Prop :=
  match a, b with
  | Iteration i, Iteration j => i < j
  | _, _ => phase a < phase b
  end.

Definition terminal (s : run_status) : bool :=
  match s with
  | Completed | Failed => true
  | _ => false
  end.

(** The moves of the state machine: completed only from summarizing,
    failed from any state that is not terminal. *)
Inductive transition : run_status -> run_status -> Prop :=
| planned : transition Initializing PlanningComplete
| first_iteration : transition PlanningComplete (Iteration 0)
| no_iteration : transition PlanningComplete Summarizing
| next_iteration (i : nat) : transition (Iteration i) (Iteration (S i))
| summarize (i : nat) : transition (Iteration i) Summarizing
| complete : transition Summarizing Completed
| fail (s : run_status) : terminal s = false -> transition s Failed.

(** Each element is related to the next one. *)
Inductive chain {A : Type} (R : A -> A -> Prop) : list A -> Prop :=
| chain_nil : chain R []
| chain_one (a : A) : chain R [a]
| chain_cons (a b : A) (l : list A) :
    R a b -> chain R (b :: l) -> chain R (a :: b :: l).

(** What [passes] passes through the loop body leave in the trace, the
    first of them for index [k]: one analysis and one write of
    [iteration] and of [status] per pass, at most one dispatch per pass
    and a merge only after a dispatch. *)
Definition loop_events (passes k : nat) (evs : list event) : Prop :=
  count is_analyze evs = passes
  /\ count is_cycle evs = passes
  /\ count is_dispatch evs <= passes
  /\ count is_merge evs <= count is_dispatch evs
  /\ iteration_writes evs = rev (seq k passes)
  /\ status_writes evs = rev (map Iteration (seq k passes)).

(** The analyzer answers every call with a JSON object, and never with
    the action ["complete"]. *)
Definition never_completes (env : environment) : Prop :=
  forall (c : context) (tools : list string),
    exists answer,
      llm_analyze env c tools = Returns (PyDict answer)
      /\ is_complete (get answer "action") = false.

(** The analyzer can propose the call [tool_name(tool_args)]: one of its
    answers holds the two values under ["tool_name"] and ["tool_args"]. *)
Definition proposes (env : environment) (tool_name tool_args : pyval)
    : Prop :=
  exists (c : context) (tools : list string) (next_action : pyval),
    llm_analyze env c tools = Returns next_action
    /\ entry next_action "tool_name" = Some tool_name
    /\ entry next_action "tool_args" = Some tool_args.

(** On every call the analyzer can propose, the validator returns, and
    the dispatcher returns whatever the attempt data. *)
Definition calls_return (env : environment) : Prop :=
  forall tool_name tool_args : pyval,
    proposes env tool_name tool_args ->
    (exists tool_validation,
        ToolRegistryActivities.validate_tool_usage_activity
          tool_name tool_args
        = Returns tool_validation)
    /\ (forall info,
           exists tool_result,
             DynamicToolActivity.dynamic_tool_activity_any
               (modules env) info tool_name tool_args
             = Returns tool_result).

(** The events before the loop, newest first, when planning returned. *)
Definition planning_events (research_query : string) : list event :=
  [StatusSet PlanningComplete; Plan research_query; StatusSet Initializing].

(** The ways a run that planned can end, newest event first: the loop
    raised an [Exception], the summary call raised one, the summary was
    produced, or an exception that is no [Exception] left the loop or the
    summary call and [run] with it. *)
Inductive ending : Type :=
| FailedInLoop
| FailedInSummary
| Finished
| AbortedInLoop
| AbortedInSummary.

Definition ending_events (how : ending) : list event :=
  match how with
  | FailedInLoop => [StatusSet Failed]
  | FailedInSummary => [StatusSet Failed; Summarize; StatusSet Summarizing]
  | Finished => [StatusSet Completed; Summarize; StatusSet Summarizing]
  | AbortedInLoop => []
  | AbortedInSummary => [Summarize; StatusSet Summarizing]
  end.

(** [run] returns in the first three. *)
Definition returns_a_result (how : ending) : bool :=
  match how with
  | FailedInLoop | FailedInSummary | Finished => true
  | AbortedInLoop | AbortedInSummary => false
  end.

(** How [run] itself ends for each ending of a run that planned. *)
Definition run_outcome (how : ending) (r : outcome run_result) : Prop :=
  if returns_a_result how
  then exists result, r = Returns result
  else exists e, r = Raises e /\ is_exception e = false.

(** The workflow object once pass [i] of the loop has written [iteration]
    and [status]. *)
Definition entered (i : nat) (w : workflow) : workflow :=
  {| research_context :=
       set_status (Some (Iteration i))
         (set_iteration (Some i) (research_context w));
     discovered_papers := discovered_papers w;
     analysis_results := analysis_results w;
     max_iterations := max_iterations w |}.

(** The context the analyzer is shown in the first pass of a run. *)
Definition context_at_first_analysis (research_query user_id : string)
    (document_id : option string) (research_plan : pyval) : context :=
  set_status (Some (Iteration 0))
    (set_iteration (Some 0)
       (set_status (Some PlanningComplete)
          (set_plan (Some research_plan)
             (initial_context research_query user_id document_id)))).

(** *** Collaborators used in examples *)

Definition plain_info (t : list event) : DynamicToolActivity.activity_info :=
  first_attempt.

Definition step_clock (t : list event) : pyval :=
  PyInt (Z.of_nat (List.length t)).

Definition use_tool (tool_name : string) (tool_args : pyval) : pyval :=
  PyDict [("action", PyStr "use_tool");
          ("tool_name", PyStr tool_name);
          ("tool_args", tool_args);
          ("reason", PyStr "next step")].

(** What a search tool returns: two papers, one of them stored locally. *)
Definition two_papers_found : dict :=
  [("success", PyBool true);
   ("papers",
    PyList [PyDict [("id", PyStr "1706.03762");
                    ("is_downloaded", PyBool true)];
            PyDict [("id", PyStr "2010.11929");
                    ("is_downloaded", PyBool false)]]);
   ("count", PyInt 2)].

Definition two_papers : pyval := PyDict two_papers_found.

(** Scenario 2: the analyzer proposes [arxiv_search_papers] with
    [{"query": "X"}] every time and every tool returns two papers. *)
Definition searching : environment :=
  {| llm_plan_research := fun q =>
       Returns (PyDict [("success", PyBool true); ("query", PyStr q)]);
     llm_analyze := fun _ _ =>
       Returns (use_tool "arxiv_search_papers"
                  (PyDict [("query", PyStr "X")]));
     llm_analyze_summarize := fun _ _ =>
       Returns (PyDict [("success", PyBool true)]);
     modules := every_tool (returning two_papers);
     info := plain_info;
     workflow_now := step_clock |}.

(** Scenario 1: the analyzer answers ["complete"] at once. *)
Definition completing : environment :=
  {| llm_plan_research := fun q =>
       Returns (PyDict [("success", PyBool true); ("query", PyStr q)]);
     llm_analyze := fun _ _ =>
       Returns (PyDict [("action", PyStr "complete");
                        ("reason", PyStr "enough")]);
     llm_analyze_summarize := fun _ _ =>
       Returns (PyDict [("success", PyBool true);
                        ("summary", PyStr "nothing to report")]);
     modules := every_tool (returning two_papers);
     info := plain_info;
     workflow_now := step_clock |}.

(** The analyzer proposes [extract_citations] without arguments every
    time, which the validator rejects. *)
Definition proposing_invalid : environment :=
  {| llm_plan_research := fun q =>
       Returns (PyDict [("success", PyBool true); ("query", PyStr q)]);
     llm_analyze := fun _ _ =>
       Returns (use_tool "extract_citations" (PyDict []));
     llm_analyze_summarize := fun _ _ =>
       Returns (PyDict [("success", PyBool true)]);
     modules := every_tool (returning two_papers);
     info := plain_info;
     workflow_now := step_clock |}.

(** The analyzer proposes [extract_citations] with [null] for its
    arguments every time. *)
Definition proposing_null_arguments : environment :=
  {| llm_plan_research := fun q =>
       Returns (PyDict [("success", PyBool true); ("query", PyStr q)]);
     llm_analyze := fun _ _ => Returns (use_tool "extract_citations" PyNone);
     llm_analyze_summarize := fun _ _ =>
       Returns (PyDict [("success", PyBool true)]);
     modules := every_tool (returning two_papers);
     info := plain_info;
     workflow_now := step_clock |}.

(** The analyzer proposes a search every time and the tool is cancelled
    while it runs. *)
Definition cancelled_while_searching : environment :=
  {| llm_plan_research := fun q =>
       Returns (PyDict [("success", PyBool true); ("query", PyStr q)]);
     llm_analyze := fun _ _ =>
       Returns (use_tool "arxiv_search_papers"
                  (PyDict [("query", PyStr "X")]));
     llm_analyze_summarize := fun _ _ =>
       Returns (PyDict [("success", PyBool true)]);
     modules := every_tool (raising (CancelledError ""));
     info := plain_info;
     workflow_now := step_clock |}.

(* ===================================================================== *)
(** ** src/tools/registry.py: the registry as it changes *)
(* ===================================================================== *)

(** Assignment to and deletion from a dictionary.  A dictionary holds each
    key once; both operations keep it so. *)
Module PyDict.

(** [d[k] = v]: an existing key keeps its place, a new key goes last. *)
Fixpoint assign {A : Type} (k : string) (v : A) (d : list (string * A))
    : list (string * A) :=
  match d with
  | [] => [(k, v)]
  | (k', v') :: rest =>
      if String.eqb k k' then (k, v) :: rest
      else (k', v') :: assign k v rest
  end.

(** [del d[k]], for a key that is in the dictionary. *)
Definition delete {A : Type} (k : string) (d : list (string * A))
    : list (string * A) :=
  filter (fun entry => negb (String.eqb k (fst entry))) d.

End PyDict.

Module RegistryModule.

(** The two module-level dictionaries: [TOOL_REGISTRY] maps a name to its
    callable, [TOOL_DESCRIPTIONS] to its description. *)
Record state : Type := {
  TOOL_REGISTRY : list (string * DynamicToolActivity.tool_handler);
  TOOL_DESCRIPTIONS : list (string * tool_description)
}.

(** The dictionaries as the module's import leaves them: the twelve names
    of [Registry.TOOL_REGISTRY], each mapped to the function imported for
    it, and the descriptions of [Registry.TOOL_DESCRIPTIONS]. *)
Definition imported (tool : string -> DynamicToolActivity.tool_handler)
    : state :=
  {| TOOL_REGISTRY :=
       map (fun name => (name, tool name)) Registry.TOOL_REGISTRY;
     TOOL_DESCRIPTIONS := Registry.TOOL_DESCRIPTIONS |}.

(** [get_available_tools] *)
Definition get_available_tools (st : state) : list string :=
  keys (TOOL_REGISTRY st).

(** [validate_tool_usage(tool_name, tool_args)], reading the dictionaries
    of [st]. *)
Definition validate_tool_usage (st : state) (tool_name : string)
    (tool_args : dict) : validation :=
  if negb (contains_key tool_name (TOOL_REGISTRY st)) then
    not_found tool_name (keys (TOOL_REGISTRY st))
  else
    match lookup tool_name (TOOL_DESCRIPTIONS st) with
    | None => missing_metadata tool_name
    | Some tool_desc =>
        let required_args := args tool_desc in
        let missing := Registry.missing_args required_args tool_args in
        match missing with
        | _ :: _ =>
            rejected ("Missing required arguments: " +++ repr_str_list missing)
                     required_args
        | [] => accepted tool_name tool_args
        end
    end.

(** [get_tool_handler(tool_name)]: [TOOL_REGISTRY.get(tool_name)] *)
Definition get_tool_handler (st : state) (tool_name : string)
    : option DynamicToolActivity.tool_handler :=
  lookup tool_name (TOOL_REGISTRY st).

(** [register_tool(name, handler, description)] *)
Definition register_tool (name : string)
    (handler : DynamicToolActivity.tool_handler)
    (description : tool_description) (st : state) : state :=
  {| TOOL_REGISTRY := PyDict.assign name handler (TOOL_REGISTRY st);
     TOOL_DESCRIPTIONS :=
       PyDict.assign name description (TOOL_DESCRIPTIONS st) |}.

(** [unregister_tool(name)]: what it returns and the dictionaries after. *)
Definition unregister_tool (name : string) (st : state) : bool * state :=
  if contains_key name (TOOL_REGISTRY st) then
    (true,
     {| TOOL_REGISTRY := PyDict.delete name (TOOL_REGISTRY st);
        TOOL_DESCRIPTIONS :=
          if contains_key name (TOOL_DESCRIPTIONS st)
          then PyDict.delete name (TOOL_DESCRIPTIONS st)
          else TOOL_DESCRIPTIONS st |})
  else (false, st).

(** A call that changes the registry. *)
Inductive call : Type :=
| Register (name : string) (handler : DynamicToolActivity.tool_handler)
    (description : tool_description)
| Unregister (name : string).

Definition perform (c : call) (st : state) : state :=
  match c with
  | Register name handler description =>
      register_tool name handler description st
  | Unregister name => snd (unregister_tool name st)
  end.

(** The dictionaries after a sequence of calls, first call first. *)
Definition after (calls : list call) (st : state) : state :=
  fold_left (fun s c => perform c s) calls st.

(** Every name has a callable exactly when it has a description, and the
    two dictionaries list the names in the same order. *)
Definition consistent (st : state) : Prop :=
  keys (TOOL_REGISTRY st) = keys (TOOL_DESCRIPTIONS st).

End RegistryModule.

(** One mapping extends another: every key of [small] is in [large] with
    the same value. *)
Definition extends (large small : dict) : Prop :=
  forall k v, lookup k small = Some v -> lookup k large = Some v.

(* ===================================================================== *)
(** ** More vocabulary *)
(* ===================================================================== *)

(** The value is a mapping. *)
Definition is_dict (v : pyval) : bool :=
  match v with
  | PyDict _ => true
  | _ => false
  end.

(** [paper.get("is_downloaded", False)] is truthy, for a paper that is a
    mapping. *)
Definition flagged_downloaded (paper : pyval) : bool :=
  match paper with
  | PyDict entries => truthy (get_default entries "is_downloaded" (PyBool false))
  | _ => false
  end.

(** The tool names some category rule of [_update_context_with_results]
    names. *)
Definition category_names : list string :=
  ["arxiv_search_papers"; "arxiv_search"; "arxiv_download_paper";
   "arxiv_read_paper"; "extract_citations"; "analyze_citation_network";
   "process_pdf"; "extract_sections"; "find_similar_papers";
   "calculate_similarity"].

(** The workflow object with one more entry in [tool_results] and nothing
    else changed. *)
Definition with_tool_result (entry : pyval) (w : workflow) : workflow :=
  {| research_context :=
       set_tool_results
         (Some (held (tool_results (research_context w)) ++ [entry]))
         (research_context w);
     discovered_papers := discovered_papers w;
     analysis_results := analysis_results w;
     max_iterations := max_iterations w |}.

(** The accumulators of the other categories are the same in [w'] as in
    [w]: everything but [discovered_papers], the two paper counters and
    [tool_results]. *)
Definition same_outside_search (w w' : workflow) : Prop :=
  citations (research_context w') = citations (research_context w)
  /\ citation_network (research_context w')
     = citation_network (research_context w)
  /\ similar_papers (research_context w')
     = similar_papers (research_context w)
  /\ similarity_scores (research_context w')
     = similarity_scores (research_context w)
  /\ downloaded_papers (research_context w')
     = downloaded_papers (research_context w)
  /\ read_papers (research_context w') = read_papers (research_context w)
  /\ extracted_content (research_context w')
     = extracted_content (research_context w)
  /\ analysis_count (research_context w')
     = analysis_count (research_context w)
  /\ analysis_results w' = analysis_results w.

(** What the loop of a run never writes: the inputs, the plan, the
    summary, the error, the signal's key, the counters and category
    accumulators (an accumulator that is absent and one that is empty
    hold the same), and the two lists and the cap of the object. *)
Definition loop_frame (w : workflow) :=
  let c := research_context w in
  ((query c, user_id c, document_id c, plan c, summary c, error c,
    updated_focus c),
   (papers_count c, papers_downloaded c, analysis_count c,
    citation_network c),
   (held (downloaded_papers c), held (read_papers c),
    held (extracted_content c), held (citations c),
    held (similar_papers c), held (similarity_scores c)),
   (discovered_papers w, analysis_results w, max_iterations w)).

(** From [m] to [m'] nothing of the frame changed, and [tool_results]
    got one entry for each merge recorded in between. *)
Definition quiet (m m' : machine) : Prop :=
  loop_frame (self m') = loop_frame (self m)
  /\ size (tool_results (research_context (self m')))
     + count is_merge (trace m)
     = size (tool_results (research_context (self m)))
       + count is_merge (trace m').

(** The answer of the status query. *)
Module CurrentStatus.
Record t : Type := {
  status : string;
  iteration : nat;
  papers_discovered : nat;
  analysis_count : nat
}.
End CurrentStatus.

(** [ResearchWorkflow.get_current_status()] *)
Definition get_current_status (w : workflow) : CurrentStatus.t :=
  {| CurrentStatus.status :=
       match status (research_context w) with
       | Some s => status_string s
       | None => "unknown"
       end;
     CurrentStatus.iteration :=
       match iteration (research_context w) with
       | Some i => i
       | None => 0
       end;
     CurrentStatus.papers_discovered := List.length (discovered_papers w);
     CurrentStatus.analysis_count := List.length (analysis_results w) |}.

(** [discovered_papers] and its counter are the same in [w'] as in [w]. *)
Definition same_discovered (w w' : workflow) : Prop :=
  discovered_papers w' = discovered_papers w
  /\ papers_count (research_context w') = papers_count (research_context w).

(** [analysis_results] and its counter are the same in [w'] as in [w]. *)
Definition same_analysed (w w' : workflow) : Prop :=
  analysis_results w' = analysis_results w
  /\ analysis_count (research_context w')
     = analysis_count (research_context w).

(** The value is an entry as [_update_context_with_results] stores them. *)
Definition is_result_entry (entry : pyval) : Prop :=
  exists tool_name tool_result now,
    entry = tool_results_entry tool_name tool_result now.

(** [tool_results] holds nothing but such entries. *)
Definition results_only (w : workflow) : Prop :=
  Forall is_result_entry (held (tool_results (research_context w))).

(** A dispatch event is one of a call that the validator the workflow
    calls accepts; other events are not concerned. *)
Definition validated_dispatch (e : event) : Prop :=
  match e with
  | Dispatch tool_name tool_args =>
      exists tool_validation,
        ToolRegistryActivities.validate_tool_usage_activity
          tool_name tool_args
        = Returns tool_validation
        /\ valid tool_validation = true
  | _ => True
  end.

(** The entries the merges recorded in the trace [t] (newest event
    first) store, oldest first: the merged result, stamped with the clock
    as it stood when the merge began. *)
Fixpoint stored_results (env : environment) (t : list event) : list pyval :=
  match t with
  | [] => []
  | Merge tool_name tool_result :: older =>
      stored_results env older
      ++ [stored_entry tool_name tool_result (workflow_now env older)]
  | _ :: older => stored_results env older
  end.

(** Every merge recorded in [t] comes right after a dispatch of the same
    tool and merges what the dispatcher returned for that call. *)
Fixpoint merges_follow_dispatches (env : environment) (t : list event)
    : Prop :=
  match t with
  | [] => True
  | Merge tool_name tool_result :: older =>
      match older with
      | Dispatch dispatched tool_args :: before =>
          dispatched = tool_name
          /\ DynamicToolActivity.dynamic_tool_activity_any
               (modules env) (info env before) tool_name tool_args
             = Returns tool_result
      | _ => False
      end
      /\ merges_follow_dispatches env older
  | _ :: older => merges_follow_dispatches env older
  end.

(** [tool_results] is what the merges of the trace stored, and each of
    them merged the dispatcher's answer. *)
Definition results_match_the_trace (env : environment) (m : machine)
    : Prop :=
  held (tool_results (research_context (self m)))
  = stored_results env (trace m)
  /\ merges_follow_dispatches env (trace m).

(** *** How a pass through the loop body ends *)

(** The analyzer's call in pass [i], made from the object [w]. *)
Definition analysis (env : environment) (i : nat) (w : workflow)
    : outcome pyval :=
  llm_analyze env (research_context (entered i w))
    ToolRegistryActivities.get_available_tools.

(** The events every pass [i] starts with, newest first, on top of [t]. *)
Definition pass_begins (i : nat) (t : list event) : list event :=
  Analyze :: GetAvailableTools :: StatusSet (Iteration i)
    :: IterationSet i :: t.

(** In pass [i] the analyzer answered with the object [answer], which
    does not say ["complete"] and proposes [tool_name(tool_args)]. *)
Definition proposed_in (env : environment) (i : nat) (w : workflow)
    (answer : dict) (tool_name tool_args : pyval) : Prop :=
  analysis env i w = Returns (PyDict answer)
  /\ is_complete (get answer "action") = false
  /\ lookup "tool_name" answer = Some tool_name
  /\ lookup "tool_args" answer = Some tool_args.

(** The eight ways pass [i] from [m] can end: what [iteration_body]
    returns or raises, and the machine it leaves. *)
Inductive pass_ends (env : environment) (i : nat) (m : machine)
    : outcome flow -> machine -> Prop :=
| analysis_raised (e : exception) :
    analysis env i (self m) = Raises e ->
    pass_ends env i m (Raises e)
      {| self := entered i (self m); trace := pass_begins i (trace m) |}
| answer_without_get (next_action : pyval) (e : exception) :
    analysis env i (self m) = Returns next_action ->
    method_get next_action "action" PyNone = Raises e ->
    pass_ends env i m (Raises e)
      {| self := entered i (self m); trace := pass_begins i (trace m) |}
| agent_completed (answer : dict) :
    analysis env i (self m) = Returns (PyDict answer) ->
    is_complete (get answer "action") = true ->
    pass_ends env i m (Returns Break)
      {| self := entered i (self m); trace := pass_begins i (trace m) |}
| nothing_proposed (answer : dict) :
    analysis env i (self m) = Returns (PyDict answer) ->
    is_complete (get answer "action") = false ->
    lookup "tool_name" answer = None \/ lookup "tool_args" answer = None ->
    pass_ends env i m (Returns Next)
      {| self := entered i (self m);
         trace := Sleep :: pass_begins i (trace m) |}
| validation_raised (answer : dict) (tool_name tool_args : pyval)
    (e : exception) :
    proposed_in env i (self m) answer tool_name tool_args ->
    ToolRegistryActivities.validate_tool_usage_activity tool_name tool_args
    = Raises e ->
    pass_ends env i m (Raises e)
      {| self := entered i (self m);
         trace := Validate tool_name tool_args :: pass_begins i (trace m) |}
| call_rejected (answer : dict) (tool_name tool_args : pyval)
    (tool_validation : validation) (why : string) :
    proposed_in env i (self m) answer tool_name tool_args ->
    ToolRegistryActivities.validate_tool_usage_activity tool_name tool_args
    = Returns tool_validation ->
    valid tool_validation = false ->
    reason tool_validation = Some why ->
    pass_ends env i m (Returns Next)
      {| self := entered i (self m);
         trace := Sleep :: Warning ("Tool validation failed: " +++ why)
                  :: Validate tool_name tool_args
                  :: pass_begins i (trace m) |}
| tool_aborted (answer : dict) (name : string) (tool_args : pyval)
    (tool_validation : validation) (e : exception) :
    proposed_in env i (self m) answer (PyStr name) tool_args ->
    ToolRegistryActivities.validate_tool_usage_activity
      (PyStr name) tool_args
    = Returns tool_validation ->
    valid tool_validation = true ->
    DynamicToolActivity.dynamic_tool_activity (modules env)
      (info env (Validate (PyStr name) tool_args
                 :: pass_begins i (trace m)))
      name tool_args
    = Raises e ->
    is_exception e = false ->
    pass_ends env i m (Raises e)
      {| self := entered i (self m);
         trace := Dispatch (PyStr name) tool_args
                  :: Validate (PyStr name) tool_args
                  :: pass_begins i (trace m) |}
| tool_merged (answer : dict) (name : string) (tool_args : pyval)
    (tool_validation : validation) (tool_result : dict) (w : workflow) :
    proposed_in env i (self m) answer (PyStr name) tool_args ->
    ToolRegistryActivities.validate_tool_usage_activity
      (PyStr name) tool_args
    = Returns tool_validation ->
    valid tool_validation = true ->
    DynamicToolActivity.dynamic_tool_activity (modules env)
      (info env (Validate (PyStr name) tool_args
                 :: pass_begins i (trace m)))
      name tool_args
    = Returns tool_result ->
    category_keys_absent tool_result ->
    _update_context_with_results
      (workflow_now env (Dispatch (PyStr name) tool_args
                         :: Validate (PyStr name) tool_args
                         :: pass_begins i (trace m)))
      tool_result name (entered i (self m))
    = (Returns tt, w) ->
    pass_ends env i m (Returns Next)
      {| self := w;
         trace := Sleep :: Merge (PyStr name) tool_result
                  :: Dispatch (PyStr name) tool_args
                  :: Validate (PyStr name) tool_args
                  :: pass_begins i (trace m) |}.

(** What can make the loop of a run raise [e]: the analyzer's call or
    reading its answer, the validator on a proposed call, or a tool that
    raises an exception which is no [Exception]. *)
Definition analysis_fails (env : environment) (e : exception) : Prop :=
  (exists c tools, llm_analyze env c tools = Raises e)
  \/ (exists c tools next_action,
         llm_analyze env c tools = Returns next_action
         /\ method_get next_action "action" PyNone = Raises e).

Definition validation_fails (env : environment) (e : exception) : Prop :=
  exists tool_name tool_args,
    proposes env tool_name tool_args
    /\ ToolRegistryActivities.validate_tool_usage_activity
         tool_name tool_args
       = Raises e.

Definition tool_aborts (env : environment) (e : exception) : Prop :=
  exists name tool_args,
    proposes env (PyStr name) tool_args
    /\ tool_raises (modules env) name tool_args e
    /\ is_exception e = false.

(** Of the dispatches recorded from [m] to [m'], [n] were not merged. *)
Definition unmerged (m m' : machine) (n : nat) : Prop :=
  count is_dispatch (trace m') + count is_merge (trace m)
  = count is_merge (trace m') + count is_dispatch (trace m) + n.

(* ===================================================================== *)
(** ** src/activities/llm_activities.py *)
(* ===================================================================== *)

Module LlmActivities.

(** What a chat completion is asked.  The prompts are built from the
    activity's arguments alone, so an answer that depends on the prompt is
    an answer that depends on these. *)
Inductive request : Type :=
| PlanRequest (research_query : string)
| NextActionRequest (research_context : context)
    (available_tools : list string)
| SummaryRequest (research_context : context).

(** What [set] keeps apart: [None], the integers (with [False == 0] and
    [True == 1]) and the strings. *)
Inductive hashed : Type :=
| HNone
| HInt (n : Z)
| HStr (s : string).

Definition hashed_eqb (a b : hashed) : bool :=
  match a, b with
  | HNone, HNone => true
  | HInt n, HInt m => Z.eqb n m
  | HStr s, HStr t => String.eqb s t
  | _, _ => false
  end.

(** [hash(v)], as far as [set] needs it: lists and dictionaries have
    none. *)
Definition hash_key (v : pyval) : outcome hashed :=
  match v with
  | PyNone => Returns HNone
  | PyBool b => Returns (HInt (if b then 1 else 0))
  | PyInt n => Returns (HInt n)
  | PyStr s => Returns (HStr s)
  | PyList _ | PyDict _ =>
      Raises (TypeError ("unhashable type: '" +++ type_name v +++ "'"))
  end.

(** [set(result.get("tool", "") for result in results)], the elements in
    the order they were first added, starting from [seen]. *)
Fixpoint tool_set (results : list pyval) (seen : list hashed)
    : outcome (list hashed) :=
  match results with
  | [] => Returns seen
  | result :: rest =>
      and_then (method_get result "tool" (PyStr "")) (fun tool =>
      and_then (hash_key tool) (fun key =>
        tool_set rest
          (if existsb (hashed_eqb key) seen then seen else seen ++ [key])))
  end.

Section Provider.

(** [complete r]: creating the client, the chat completion for [r] and
    reading [response.choices[0].message.content]; the content, or the
    exception one of the three raised. *)
Variable complete : request -> outcome pyval.

(** [json.loads] *)
Variable json_loads : pyval -> outcome pyval.

(** [llm_plan_research(research_query)] *)
Definition llm_plan_research (research_query : string) : outcome pyval :=
  try_except
    (and_then (complete (PlanRequest research_query)) (fun content =>
     and_then (json_loads content) (fun plan =>
       Returns (PyDict [("success", PyBool true);
                        ("plan", plan);
                        ("query", PyStr research_query)]))))
    (fun e =>
       Returns (PyDict [("success", PyBool false);
                        ("error", PyStr (exc_str e));
                        ("fallback_plan",
                         PyDict [("key_concepts",
                                  PyList [PyStr research_query]);
                                 ("search_terms",
                                  PyList [PyStr research_query]);
                                 ("strategy", PyStr "basic_search")])])).

(** [_generate_research_summary(research_context)] *)
Definition _generate_research_summary (research_context : context)
    : outcome pyval :=
  try_except
    (and_then (complete (SummaryRequest research_context)) (fun summary =>
     let results := held (tool_results research_context) in
     and_then (tool_set results []) (fun tools =>
       Returns
         (PyDict [("success", PyBool true);
                  ("summary", summary);
                  ("research_stats",
                   PyDict [("papers_analyzed",
                            PyInt (Z.of_nat (List.length results)));
                           ("iterations_completed",
                            PyInt (Z.of_nat
                                     match iteration research_context with
                                     | Some i => i
                                     | None => 0
                                     end));
                           ("tools_used",
                            PyInt (Z.of_nat (List.length tools)))])]))))
    (fun e =>
       Returns
         (PyDict [("success", PyBool false);
                  ("error", PyStr (exc_str e));
                  ("fallback_summary",
                   PyStr "Research summary could not be generated due to technical issues.")])).

(** [llm_analyze(research_context, available_tools, analysis_type)] *)
Definition llm_analyze (research_context : context)
    (available_tools : list string) (analysis_type : string)
    : outcome pyval :=
  if String.eqb analysis_type "summarize" then
    _generate_research_summary research_context
  else
    try_except
      (and_then (complete (NextActionRequest research_context
                             available_tools)) (fun content =>
       and_then (json_loads content) (fun analysis =>
       and_then (method_get analysis "action" (PyStr "unknown")) (fun _ =>
         Returns analysis))))
      (fun e =>
         Returns (PyDict [("action", PyStr "complete");
                          ("reason",
                           PyStr ("Analysis failed: " +++ exc_str e));
                          ("error", PyBool true)])).

End Provider.

End LlmActivities.

(** The LLM activities of the environment are those of
    [llm_activities.py] over the provider [complete], and the execution
    engine delivers what they return. *)
Definition served_by (env : environment)
    (complete : LlmActivities.request -> outcome pyval)
    (json_loads : pyval -> outcome pyval) : Prop :=
  (forall research_query,
      llm_plan_research env research_query
      = LlmActivities.llm_plan_research complete json_loads research_query)
  /\ (forall c tools,
         llm_analyze env c tools
         = LlmActivities.llm_analyze complete json_loads c tools
             "next_action")
  /\ (forall c tools,
         llm_analyze_summarize env c tools
         = LlmActivities.llm_analyze complete json_loads c tools "summarize").

(** Every completion fails with an [Exception]. *)
Definition outage (complete : LlmActivities.request -> outcome pyval)
    : Prop :=
  forall r, exists e, complete r = Raises e /\ is_exception e = true.

(** The analyzer's answer when its completion failed with [e]. *)
Definition analysis_failed (e : exception) : pyval :=
  PyDict [("action", PyStr "complete");
          ("reason", PyStr ("Analysis failed: " +++ exc_str e));
          ("error", PyBool true)].

(** The error of the OpenAI client when the provider cannot be reached. *)
Definition APIConnectionError : exception :=
  {| exc_type := "APIConnectionError";
     exc_str := "Connection error.";
     is_exception := true |}.

(** The completion for [r], or the reading of its content, raises [e],
    which is no [Exception]: what the [except Exception] of the LLM
    activities lets through. *)
Definition provider_aborts
    (complete : LlmActivities.request -> outcome pyval)
    (json_loads : pyval -> outcome pyval)
    (r : LlmActivities.request) (e : exception) : Prop :=
  is_exception e = false
  /\ (complete r = Raises e
      \/ exists content,
           complete r = Returns content /\ json_loads content = Raises e).

(** A provider that cannot be reached, and a reader that is never asked. *)
Definition unreachable (r : LlmActivities.request) : outcome pyval :=
  Raises APIConnectionError.

Definition unread (content : pyval) : outcome pyval :=
  Raises (ValueError "Expecting value").

(** The environment of a worker that is offline: the LLM activities are
    those of [llm_activities.py] over the unreachable provider. *)
Definition offline : environment :=
  {| llm_plan_research :=
       LlmActivities.llm_plan_research unreachable unread;
     llm_analyze := fun c tools =>
       LlmActivities.llm_analyze unreachable unread c tools "next_action";
     llm_analyze_summarize := fun c tools =>
       LlmActivities.llm_analyze unreachable unread c tools "summarize";
     modules := every_tool (returning two_papers);
     info := plain_info;
     workflow_now := step_clock |}.

(** A provider that answers every request with the same text, and a
    reader that reads it as a proposal to search. *)
Definition answering (r : LlmActivities.request) : outcome pyval :=
  Returns (PyStr "text").

Definition reading_a_search (content : pyval) : outcome pyval :=
  Returns (PyDict [("action", PyStr "use_tool");
                   ("tool_name", PyStr "arxiv_search_papers");
                   ("tool_args", PyDict [("query", PyStr "X")]);
                   ("reason", PyStr "next step")]).

(** The environment of a worker whose LLM activities are those of
    [llm_activities.py] over that provider. *)
Definition online : environment :=
  {| llm_plan_research :=
       LlmActivities.llm_plan_research answering reading_a_search;
     llm_analyze := fun c tools =>
       LlmActivities.llm_analyze answering reading_a_search c tools
         "next_action";
     llm_analyze_summarize := fun c tools =>
       LlmActivities.llm_analyze answering reading_a_search c tools
         "summarize";
     modules := every_tool (returning two_papers);
     info := plain_info;
     workflow_now := step_clock |}.

(* ===================================================================== *)
(** ** src/tools/citation_analyzer.py: the helpers of the network analysis *)
(* ===================================================================== *)

Module PyList.

(** [sorted(l, key=key, reverse=True)]: descending by key, items with
    equal keys in the order they had in [l]. *)
Fixpoint insert_reverse {A : Type} (key : A -> nat) (x : A) (l : list A)
    : list A :=
  match l with
  | [] => [x]
  | y :: rest =>
      if (key y <=? key x)%nat then x :: l
      else y :: insert_reverse key x rest
  end.

Definition sorted_reverse {A : Type} (key : A -> nat) (l : list A)
    : list A :=
  fold_right (insert_reverse key) [] l.

(** The order [sorted_reverse] puts its result in. *)
Definition descending {A : Type} (key : A -> nat) (a b : A) : Prop :=
  key b <= key a.

(** [enumerate(l)] *)
Definition enumerate {A : Type} (l : list A) : list (nat * A) :=
  combine (seq 0 (List.length l)) l.

End PyList.

Module CitationAnalyzer.

(** An edge of [network["edges"]], as the helpers read it:
    [edge["source"]] and [edge["target"]], both paper ids. *)
Record edge : Type := {
  source : string;
  target : string
}.

(** An entry of [central_papers]. *)
Record central_paper : Type := {
  paper_id : string;
  citation_count : nat;
  centrality_rank : nat
}.

(** One turn of the counting loop of [_find_central_papers]. *)
Definition count_citation (paper_citations : list (string * nat))
    (e : edge) : list (string * nat) :=
  match lookup (target e) paper_citations with
  | Some n => PyDict.assign (target e) (n + 1)%nat paper_citations
  | None => PyDict.assign (target e) 1 paper_citations
  end.

(** [paper_citations] after the loop over the edges. *)
Definition paper_citations (edges : list edge) : list (string * nat) :=
  fold_left count_citation edges [].

(** [_find_central_papers(network)], on the edges of the network. *)
Definition _find_central_papers (edges : list edge) : list central_paper :=
  let sorted_papers := PyList.sorted_reverse snd (paper_citations edges) in
  map (fun entry =>
         {| paper_id := fst (snd entry);
            citation_count := snd (snd entry);
            centrality_rank := (fst entry + 1)%nat |})
      (PyList.enumerate (firstn 5 sorted_papers)).

Section Hash.

(** [hash] of a string: an integer that differs from process to
    process. *)
Variable hash : string -> Z.

(** [hash(paper_id) % 100] *)
Definition base_num (paper : string) : nat :=
  Z.to_nat (hash paper mod 100)%Z.

(** [range(n)] for an integer [n]. *)
Definition range (n : Z) : list nat := seq 0 (Z.to_nat n).

(** [_simulate_cited_papers(paper_id, depth)] *)
Definition _simulate_cited_papers (paper : string) (depth : Z)
    : list (string * string) :=
  map (fun i => ("cited_" +++ str_of_nat (base_num paper + i)%nat,
                 "direct_citation"))
      (range (Z.min 5 (depth * 2))%Z).

(** [_simulate_citing_papers(paper_id, depth)] *)
Definition _simulate_citing_papers (paper : string) (depth : Z)
    : list (string * string) :=
  map (fun i => ("citing_" +++ str_of_nat (base_num paper + i)%nat,
                 "direct_citation"))
      (range (Z.min 3 depth)%Z).

End Hash.

(** An entry of [strongest_co_citations]. *)
Record co_citation : Type := {
  papers : list string;
  shared_citations : nat;
  shared_papers : list string
}.

(** What [_analyze_co_citations] returns. *)
Record co_citation_analysis : Type := {
  co_citation_pairs : nat;
  strongest_co_citations : list co_citation
}.

(** One turn of the first loop of [_analyze_co_citations]: the source is
    appended to the list kept for the target, which is created empty when
    the target is new. *)
Definition add_citing (citing_relationships : list (string * list string))
    (e : edge) : list (string * list string) :=
  let created :=
    if contains_key (target e) citing_relationships
    then citing_relationships
    else PyDict.assign (target e) [] citing_relationships in
  match lookup (target e) created with
  | Some citing => PyDict.assign (target e) (citing ++ [source e]) created
  | None => created
  end.

(** [tuple(sorted([paper1, paper2]))] *)
Definition sorted_pair (paper1 paper2 : string) : string * string :=
  if String.ltb paper2 paper1 then (paper2, paper1) else (paper1, paper2).

(** The pairs the two inner loops go through for one list of citing
    papers, in the order they go through them. *)
Fixpoint pairs_of (citing_papers : list string) : list (string * string) :=
  match citing_papers with
  | [] => []
  | paper1 :: rest =>
      (map (fun paper2 => sorted_pair paper1 paper2) rest
       ++ pairs_of rest)%list
  end.

(** A dictionary with pairs of strings for keys. *)
Definition pair_eqb (a b : string * string) : bool :=
  String.eqb (fst a) (fst b) && String.eqb (snd a) (snd b).

Fixpoint lookup_pair {A : Type} (k : string * string)
    (d : list ((string * string) * A)) : option A :=
  match d with
  | [] => None
  | (k', v) :: rest => if pair_eqb k k' then Some v else lookup_pair k rest
  end.

Fixpoint assign_pair {A : Type} (k : string * string) (v : A)
    (d : list ((string * string) * A)) : list ((string * string) * A) :=
  match d with
  | [] => [(k, v)]
  | (k', v') :: rest =>
      if pair_eqb k k' then (k, v) :: rest
      else (k', v') :: assign_pair k v rest
  end.

(** The body of the innermost loop: the cited paper is appended to the
    list kept for the pair, which is created empty when the pair is
    new. *)
Definition add_shared (cited_paper : string)
    (co_citations : list ((string * string) * list string))
    (pair : string * string) : list ((string * string) * list string) :=
  let created :=
    match lookup_pair pair co_citations with
    | Some _ => co_citations
    | None => assign_pair pair [] co_citations
    end in
  match lookup_pair pair created with
  | Some shared => assign_pair pair (shared ++ [cited_paper]) created
  | None => created
  end.

(** One turn of the second loop, for one cited paper. *)
Definition add_co_citations
    (co_citations : list ((string * string) * list string))
    (entry : string * list string)
    : list ((string * string) * list string) :=
  let (cited_paper, citing_papers) := entry in
  if (1 <? List.length citing_papers)%nat then
    fold_left (add_shared cited_paper) (pairs_of citing_papers) co_citations
  else co_citations.

(** [citing_relationships] and [co_citations] after their loops. *)
Definition citing_relationships (edges : list edge)
    : list (string * list string) :=
  fold_left add_citing edges [].

Definition co_citations (edges : list edge)
    : list ((string * string) * list string) :=
  fold_left add_co_citations (citing_relationships edges) [].

(** [_analyze_co_citations(network)], on the edges of the network. *)
Definition _analyze_co_citations (edges : list edge)
    : co_citation_analysis :=
  let found := co_citations edges in
  {| co_citation_pairs := List.length found;
     strongest_co_citations :=
       map (fun entry =>
              {| papers := [fst (fst entry); snd (fst entry)];
                 shared_citations := List.length (snd entry);
                 shared_papers := snd entry |})
           (firstn 5
              (PyList.sorted_reverse
                 (fun entry => List.length (snd entry)) found)) |}.

End CitationAnalyzer.

(** [citing] cites [cited]: an edge of the network says so. *)
Definition cites (edges : list CitationAnalyzer.edge) (citing cited : string)
    : Prop :=
  exists e,
    In e edges
    /\ CitationAnalyzer.source e = citing
    /\ CitationAnalyzer.target e = cited.

(** How often [paper] is the target of an edge. *)
Definition times_cited (edges : list CitationAnalyzer.edge) (paper : string)
    : nat :=
  count_occ string_dec (map CitationAnalyzer.target edges) paper.

(** What holds of every list [_analyze_co_citations] keeps for a target:
    its members cite the target. *)
Definition citing_sound (edges : list CitationAnalyzer.edge)
    (kept : list (string * list string)) : Prop :=
  forall cited citing_papers,
    In (cited, citing_papers) kept ->
    forall citing, In citing citing_papers -> cites edges citing cited.

(** What holds of every list it keeps for a pair: the pair is in sorted
    order and both its papers cite every member of the list, which is not
    empty. *)
Definition shared_sound (edges : list CitationAnalyzer.edge)
    (kept : list ((string * string) * list string)) : Prop :=
  forall pair shared,
    CitationAnalyzer.lookup_pair pair kept = Some shared ->
    shared <> []
    /\ String.ltb (snd pair) (fst pair) = false
    /\ forall cited,
         In cited shared ->
         cites edges (fst pair) cited /\ cites edges (snd pair) cited.

(* ===================================================================== *)
(** ** src/tools/arxiv_client_mcp.py: building the search query *)
(* ===================================================================== *)

(** More of [str].  A string is a sequence of code points below 256. *)
Module PyString.

(** [c.isspace()] *)
Definition isspace (c : ascii) : bool :=
  let n := nat_of_ascii c in
  ((9 <=? n) && (n <=? 13) || (28 <=? n) && (n <=? 32)
   || (n =? 133) || (n =? 160))%nat.

(** [s.lstrip()] *)
Fixpoint lstrip (s : string) : string :=
  match s with
  | EmptyString => EmptyString
  | String c rest => if isspace c then lstrip rest else s
  end.

(** [s.rstrip()] *)
Fixpoint rstrip (s : string) : string :=
  match s with
  | EmptyString => EmptyString
  | String c rest =>
      match rstrip rest with
      | EmptyString => if isspace c then EmptyString else String c EmptyString
      | kept => String c kept
      end
  end.

(** [s.strip()] *)
Definition strip (s : string) : string := rstrip (lstrip s).

(** [bool(s)] *)
Definition nonempty (s : string) : bool :=
  match s with
  | EmptyString => false
  | String _ _ => true
  end.

(** The one-character string of a double quote. *)
Definition double_quote : string := String (ascii_of_nat 34) EmptyString.

End PyString.

Module ArxivClient.

(** The [categories] argument: [None], a string or a list of strings. *)
Inductive categories_arg : Type :=
| NoCategories
| CategoryString (category : string)
| CategoryList (categories : list string).

(** The characters that make [_build_arxiv_query] quote the query. *)
Definition special_characters : list string :=
  [":"; "["; "]"; "("; ")"; "+"; "-"].

(** The loop over the categories: a filter for each category that is not
    blank. *)
Definition category_filters (categories : list string) : list string :=
  map (fun cat => "cat:" +++ PyString.strip cat)
      (filter (fun cat =>
                 PyString.nonempty cat
                 && PyString.nonempty (PyString.strip cat))
              categories).

(** The first block of [_build_arxiv_query]: the stripped query, quoted
    when it holds a special character; nothing for a blank query. *)
Definition query_part (query : string) : list string :=
  let clean_query := PyString.strip query in
  if PyString.nonempty clean_query then
    if existsb (fun char => str_in char clean_query) special_characters
    then [PyString.double_quote +++ clean_query +++ PyString.double_quote]
    else [clean_query]
  else [].

(** The block [if categories:]; a string stands for the list of itself. *)
Definition category_part (categories : categories_arg) : list string :=
  match categories with
  | NoCategories => []
  | CategoryString category =>
      if PyString.nonempty category then category_filters [category]
      else []
  | CategoryList [] => []
  | CategoryList categories => category_filters categories
  end.

(** [_build_arxiv_query(query, categories, date_from, date_to)] *)
Definition _build_arxiv_query (query : string) (categories : categories_arg)
    (date_from date_to : option string) : string :=
  match (query_part query ++ category_part categories)%list with
  | [] => "all:*"
  | search_parts => join " AND " search_parts
  end.

End ArxivClient.

(** No category of the argument gives a filter. *)
Definition no_usable_category (categories : ArxivClient.categories_arg)
    : Prop :=
  match categories with
  | ArxivClient.NoCategories => True
  | ArxivClient.CategoryString category => PyString.strip category = ""
  | ArxivClient.CategoryList categories =>
      Forall (fun cat => PyString.strip cat = "") categories
  end.

(* ===================================================================== *)
(** ** The two validators *)
(* ===================================================================== *)

Section Validators.

Lemma truthy_get_iff (tool_args : dict) (key : string) :
  truthy (get tool_args key) = true <-> present_and_truthy tool_args key.
Proof.
  unfold get, present_and_truthy.
  destruct (lookup key tool_args) as [v|].
  - split; [intros H; exists v; auto | intros [v' [E H]]; congruence].
  - split; [discriminate | intros [v' [E _]]; discriminate].
Qed.

(** A filtered list is non-empty exactly when some element passes. *)
Lemma filter_nonempty_iff {A : Type} (keep : A -> bool) (l : list A) :
  filter keep l <> [] <-> exists x, In x l /\ keep x = true.
Proof.
  split.
  - intros Hne. destruct (filter keep l) as [|x rest] eqn:E; [congruence|].
    exists x. apply filter_In. rewrite E. now left.
  - intros [x Hx] E. apply filter_In in Hx. rewrite E in Hx. exact Hx.
Qed.

Lemma map_nonempty_iff {A B : Type} (f : A -> B) (l : list A) :
  map f l <> [] <-> l <> [].
Proof. destruct l; simpl; split; congruence. Qed.

(** What [missing_args] of the activity validator collects. *)
Lemma activity_missing_args_iff (required : list (string * string))
    (tool_args : dict) :
  ToolRegistryActivities.missing_args required tool_args <> []
  <-> exists arg_name arg_desc,
        In (arg_name, arg_desc) required
        /\ ToolRegistryActivities.is_optional arg_desc = false
        /\ contains_key arg_name tool_args = false.
Proof.
  unfold ToolRegistryActivities.missing_args.
  rewrite map_nonempty_iff, filter_nonempty_iff. split.
  - intros [[n d] [Hin Hkeep]]. simpl in Hkeep.
    apply andb_true_iff in Hkeep. destruct Hkeep as [Ho Hc].
    apply negb_true_iff in Ho, Hc. exists n, d. auto.
  - intros [n [d [Hin [Ho Hc]]]]. exists (n, d). simpl.
    rewrite Ho, Hc. auto.
Qed.

(** Outside the special cases the activity validator decides on
    [missing_args] alone. *)
Lemma activity_validate_plain (tool_name : string)
    (tool_desc : tool_description) (tool_args : dict) :
  lookup tool_name ToolRegistryActivities.TOOL_DESCRIPTIONS = Some tool_desc ->
  has_special_case tool_name = false ->
  valid (ToolRegistryActivities.validate_tool_usage tool_name tool_args) = false
  <-> ToolRegistryActivities.missing_args (args tool_desc) tool_args <> [].
Proof.
  intros Hdesc Hplain. unfold has_special_case in Hplain.
  apply orb_false_iff in Hplain. destruct Hplain as [Hplain Hids].
  apply orb_false_iff in Hplain. destruct Hplain as [Hcit Hsearch].
  unfold ToolRegistryActivities.validate_tool_usage.
  rewrite Hdesc, Hcit, Hsearch, Hids.
  destruct (ToolRegistryActivities.missing_args (args tool_desc) tool_args);
    simpl; split; congruence.
Qed.

(** Every rejection of the activity validator carries a reason. *)
Lemma activity_validate_rejection_has_reason (tool_name : string)
    (tool_args : dict) :
  valid (ToolRegistryActivities.validate_tool_usage tool_name tool_args) = false ->
  exists why, reason (ToolRegistryActivities.validate_tool_usage tool_name tool_args) = Some why.
Proof.
  unfold ToolRegistryActivities.validate_tool_usage.
  repeat match goal with
         | |- context [match ?x with _ => _ end] => destruct x
         end;
    simpl; intros H; try discriminate; eexists; reflexivity.
Qed.

(** On a mapping the loop of the activity collects [missing_args]. *)
Lemma missing_args_of_mapping (required : list (string * string))
    (tool_args : dict) :
  ToolRegistryActivities.missing_args_of required (PyDict tool_args)
  = Returns (ToolRegistryActivities.missing_args required tool_args).
Proof.
  unfold ToolRegistryActivities.missing_args.
  induction required as [|[arg_name arg_desc] rest IH]; [reflexivity|].
  cbn [ToolRegistryActivities.missing_args_of filter map fst snd].
  destruct (ToolRegistryActivities.is_optional arg_desc);
    cbn [negb andb]; [exact IH|].
  rewrite IH. cbn [contains and_then].
  destruct (contains_key arg_name tool_args); reflexivity.
Qed.

(** On a tool name that is a string and arguments that are a mapping the
    activity returns, and what it returns is [validate_tool_usage]. *)
Lemma activity_agrees_on_mappings (tool_name : string) (tool_args : dict) :
  ToolRegistryActivities.validate_tool_usage_activity
    (PyStr tool_name) (PyDict tool_args)
  = Returns (ToolRegistryActivities.validate_tool_usage tool_name tool_args).
Proof.
  unfold ToolRegistryActivities.validate_tool_usage_activity,
    ToolRegistryActivities.validate_tool_usage.
  destruct (lookup tool_name ToolRegistryActivities.TOOL_DESCRIPTIONS)
    as [tool_desc|]; [|reflexivity].
  rewrite missing_args_of_mapping.
  cbn [and_then method_get]. unfold get_default, get, accepted,
    accepted_as_given.
  destruct (String.eqb tool_name "extract_citations").
  { destruct (lookup "paper_text" tool_args) as [v|];
      [destruct (truthy v)|]; cbn [truthy negb andb and_then];
      try reflexivity;
      destruct (lookup "paper_url" tool_args) as [u|];
      [destruct (truthy u)| |destruct (truthy u)|];
      reflexivity. }
  destruct (String.eqb tool_name "arxiv_search_papers").
  { destruct (lookup "query" tool_args) as [v|];
      [destruct (truthy v)|]; reflexivity. }
  destruct (in_list tool_name _).
  { destruct (lookup "paper_id" tool_args) as [v|];
      [destruct (truthy v)|]; reflexivity. }
  destruct (ToolRegistryActivities.missing_args (args tool_desc) tool_args);
    reflexivity.
Qed.

(** Every rejection the activity returns carries a reason. *)
Lemma activity_rejection_has_reason (tool_name tool_args : pyval)
    (tool_validation : validation) :
  ToolRegistryActivities.validate_tool_usage_activity tool_name tool_args
  = Returns tool_validation ->
  valid tool_validation = false ->
  exists why, reason tool_validation = Some why.
Proof.
  unfold ToolRegistryActivities.validate_tool_usage_activity.
  intros Hret Hvalid.
  repeat match type of Hret with
         | Returns _ = Returns _ =>
             injection Hret as <-; cbn in Hvalid |- *
         | Raises _ = Returns _ => discriminate Hret
         | and_then ?o _ = _ =>
             destruct o; cbn [and_then] in Hret
         | context [match ?x with _ => _ end] => destruct x
         end;
    try discriminate; eexists; reflexivity.
Qed.

(** The activity accepts only a tool name that is a string, one of the
    names of [TOOL_DESCRIPTIONS]. *)
Lemma activity_accepts_only_names (tool_name tool_args : pyval)
    (tool_validation : validation) :
  ToolRegistryActivities.validate_tool_usage_activity tool_name tool_args
  = Returns tool_validation ->
  valid tool_validation = true ->
  exists name,
    tool_name = PyStr name
    /\ contains_key name ToolRegistryActivities.TOOL_DESCRIPTIONS = true.
Proof.
  unfold ToolRegistryActivities.validate_tool_usage_activity.
  intros Hret Hvalid.
  destruct tool_name as [| | |name| |];
    try (injection Hret as <-; discriminate Hvalid);
    try discriminate Hret.
  exists name. split; [reflexivity|]. unfold contains_key.
  destruct (lookup name ToolRegistryActivities.TOOL_DESCRIPTIONS);
    [reflexivity|].
  injection Hret as <-. discriminate Hvalid.
Qed.

End Validators.

(** C3.  In [tool_registry_activities.validate_tool_usage] the special-cased
    tools are accepted exactly when one of their alternative fields is
    present and truthy: [paper_text] or [paper_url] for
    [extract_citations], [query] for [arxiv_search_papers], [paper_id] for
    the four paper tools.  On the empty mapping [extract_citations] is
    rejected with a reason that names both [paper_text] and [paper_url]. *)
Theorem special_cased_tools_accept_iff_a_field_is_truthy :
  (forall tool_args : dict,
      valid (ToolRegistryActivities.validate_tool_usage
               "extract_citations" tool_args) = true
      <-> present_and_truthy tool_args "paper_text"
          \/ present_and_truthy tool_args "paper_url")
  /\ (forall tool_args : dict,
         valid (ToolRegistryActivities.validate_tool_usage
                  "arxiv_search_papers" tool_args) = true
         <-> present_and_truthy tool_args "query")
  /\ Forall (fun tool =>
               forall tool_args : dict,
                 valid (ToolRegistryActivities.validate_tool_usage
                          tool tool_args) = true
                 <-> present_and_truthy tool_args "paper_id")
            ["arxiv_download_paper"; "arxiv_read_paper";
             "arxiv_get_metadata"; "arxiv_deep_analysis"]
  /\ valid (ToolRegistryActivities.validate_tool_usage
              "extract_citations" []) = false
  /\ exists why,
       reason (ToolRegistryActivities.validate_tool_usage
                 "extract_citations" []) = Some why
       /\ str_in "paper_text" why = true
       /\ str_in "paper_url" why = true.
Proof.
  split; [|split; [|split; [|split]]].
  - intros tool_args. rewrite <- !truthy_get_iff.
    unfold ToolRegistryActivities.validate_tool_usage. cbn.
    destruct (truthy (get tool_args "paper_text"));
      destruct (truthy (get tool_args "paper_url")); cbn; intuition congruence.
  - intros tool_args. rewrite <- truthy_get_iff.
    unfold ToolRegistryActivities.validate_tool_usage. cbn.
    destruct (truthy (get tool_args "query")); cbn; intuition congruence.
  - repeat (apply Forall_cons;
            [intros tool_args; rewrite <- truthy_get_iff;
             unfold ToolRegistryActivities.validate_tool_usage; cbn;
             destruct (truthy (get tool_args "paper_id")); cbn;
             intuition congruence|]).
    apply Forall_nil.
  - reflexivity.
  - eexists. split; [reflexivity|]. split; reflexivity.
Qed.

(** C4, as the code has it.  For a tool without a special case, the
    validator the workflow calls
    ([tool_registry_activities.validate_tool_usage]) answers
    [valid = false] exactly when a required argument, one whose description
    does not mark it optional, is missing from the mapping, for every
    mapping.  A key that is present counts as supplied whatever its
    value. *)
Theorem plain_tools_reject_iff_a_required_key_is_missing
    (tool_name : string) (tool_desc : tool_description) (tool_args : dict) :
  lookup tool_name ToolRegistryActivities.TOOL_DESCRIPTIONS = Some tool_desc ->
  has_special_case tool_name = false ->
  valid (ToolRegistryActivities.validate_tool_usage tool_name tool_args)
    = false
  <-> exists arg_name arg_desc,
        In (arg_name, arg_desc) (args tool_desc)
        /\ ToolRegistryActivities.is_optional arg_desc = false
        /\ contains_key arg_name tool_args = false.
Proof.
  intros Hdesc Hplain.
  rewrite (activity_validate_plain tool_name tool_desc tool_args Hdesc Hplain).
  apply activity_missing_args_iff.
Qed.

(** The theorem at [process_pdf] with an empty [pdf_url]. *)
Lemma plain_tools_reject_iff_a_required_key_is_missing_witness :
  valid (ToolRegistryActivities.validate_tool_usage
           "process_pdf" [("pdf_url", PyStr "")]) = false
  <-> exists arg_name arg_desc,
        In (arg_name, arg_desc)
           [("pdf_url", "URL to PDF file (required)");
            ("sections",
             "Optional: List of sections to extract. If not provided, extracts all content")]
        /\ ToolRegistryActivities.is_optional arg_desc = false
        /\ contains_key arg_name [("pdf_url", PyStr "")] = false.
Proof.
  apply (plain_tools_reject_iff_a_required_key_is_missing
           "process_pdf"
           {| description := "Extract and process text content from PDF";
              args := [("pdf_url", "URL to PDF file (required)");
                       ("sections",
                        "Optional: List of sections to extract. If not provided, extracts all content")];
              returns := "Processed text content with section breakdown" |}
           [("pdf_url", PyStr "")]); reflexivity.
Defined.

(** C4 as it is worded fails: [process_pdf] called with an empty [pdf_url]
    has a required key that is present but falsy, and is accepted. *)
Lemma falsy_required_argument_is_accepted :
  ~ (forall (tool_name : string) (tool_desc : tool_description)
            (tool_args : dict),
        lookup tool_name ToolRegistryActivities.TOOL_DESCRIPTIONS
          = Some tool_desc ->
        has_special_case tool_name = false ->
        valid (ToolRegistryActivities.validate_tool_usage tool_name tool_args)
          = false
        <-> exists arg_name arg_desc,
              In (arg_name, arg_desc) (args tool_desc)
              /\ ToolRegistryActivities.is_optional arg_desc = false
              /\ (contains_key arg_name tool_args = false
                  \/ present_but_falsy tool_args arg_name)).
Proof.
  intros claim.
  specialize (claim "process_pdf"
    {| description := "Extract and process text content from PDF";
       args := [("pdf_url", "URL to PDF file (required)");
                ("sections",
                 "Optional: List of sections to extract. If not provided, extracts all content")];
       returns := "Processed text content with section breakdown" |}
    [("pdf_url", PyStr "")] eq_refl eq_refl).
  assert (Hacc : valid (ToolRegistryActivities.validate_tool_usage
                          "process_pdf" [("pdf_url", PyStr "")]) = true)
    by reflexivity.
  rewrite (proj2 claim) in Hacc; [discriminate|].
  exists "pdf_url", "URL to PDF file (required)".
  split; [now left|]. split; [reflexivity|].
  right. exists (PyStr ""). split; reflexivity.
Qed.

(** C10.  The validator of [src/tools/registry.py] and the validator of
    [src/activities/tool_registry_activities.py] are different functions:
    for [arxiv_search_papers] with an empty [query], a required argument
    that is present but falsy, the first answers [valid = true] and the
    second [valid = false]. *)
Theorem the_two_validators_disagree :
  (exists (tool_name : string) (tool_args : dict) (arg_name : string),
      present_but_falsy tool_args arg_name
      /\ (exists tool_desc arg_desc,
             lookup tool_name Registry.TOOL_DESCRIPTIONS = Some tool_desc
             /\ In (arg_name, arg_desc) (args tool_desc)
             /\ str_in "Optional:" arg_desc = false)
      /\ (exists tool_desc arg_desc,
             lookup tool_name ToolRegistryActivities.TOOL_DESCRIPTIONS
               = Some tool_desc
             /\ In (arg_name, arg_desc) (args tool_desc)
             /\ ToolRegistryActivities.is_optional arg_desc = false)
      /\ valid (Registry.validate_tool_usage tool_name tool_args) = true
      /\ valid (ToolRegistryActivities.validate_tool_usage
                  tool_name tool_args) = false)
  /\ Registry.validate_tool_usage
     <> ToolRegistryActivities.validate_tool_usage.
Proof.
  split.
  - exists "arxiv_search_papers", [("query", PyStr "")], "query".
    split; [exists (PyStr ""); split; reflexivity|].
    split; [eexists; eexists; split; [reflexivity|];
            split; [now left | reflexivity]|].
    split; [eexists; eexists; split; [reflexivity|];
            split; [now left | reflexivity]|].
    split; reflexivity.
  - intros Heq.
    assert (H : valid (Registry.validate_tool_usage
                         "arxiv_search_papers" [("query", PyStr "")])
                = valid (ToolRegistryActivities.validate_tool_usage
                           "arxiv_search_papers" [("query", PyStr "")]))
      by (rewrite Heq; reflexivity).
    discriminate H.
Qed.

(* ===================================================================== *)
(** ** The dispatcher *)
(* ===================================================================== *)

Section Dispatcher.

Import DynamicToolActivity.

(** A name outside the catalog resolves to no handler. *)
Lemma unknown_tool_has_no_handler (modules : tool_modules)
    (tool_name : string) :
  in_list tool_name ToolRegistryActivities.get_available_tools = false ->
  _get_tool_handler modules tool_name = Returns None.
Proof.
  intros H. unfold in_list in H. cbn in H.
  repeat match type of H with
         | (_ || _)%bool = false =>
             apply orb_false_iff in H; let E := fresh "E" in destruct H as [E H]
         end.
  unfold _get_tool_handler.
  repeat match goal with
         | E : String.eqb tool_name _ = false |- _ => rewrite E; clear E
         end.
  reflexivity.
Qed.

(** The dispatcher returns one of its two envelopes, the second for an
    [Exception]; what it raises is no [Exception]. *)
Lemma dispatch_outcome (modules : tool_modules)
    (info : activity_info) (tool_name : string) (tool_args : pyval) :
  (exists result,
      dynamic_tool_activity modules info tool_name tool_args
      = Returns (success_envelope info tool_name result))
  \/ (exists e,
         dynamic_tool_activity modules info tool_name tool_args
         = Returns (failure_envelope info tool_name e))
  \/ (exists e,
         dynamic_tool_activity modules info tool_name tool_args = Raises e
         /\ is_exception e = false).
Proof.
  unfold dynamic_tool_activity.
  destruct (_get_tool_handler modules tool_name) as [[h|]|e];
    cbn [and_then try_except].
  - destruct (is_coroutine h);
      (destruct (call h tool_args) as [result|e]; cbn [and_then try_except];
       [left; exists result; reflexivity |
        destruct (is_exception e) eqn:He;
        [right; left; exists e; reflexivity |
         right; right; exists e; split; [reflexivity | exact He]]]).
  - right. left.
    exists (ValueError ("Tool '" +++ tool_name +++ "' not found in registry")).
    reflexivity.
  - destruct (is_exception e) eqn:He;
      [right; left; exists e; reflexivity |
       right; right; exists e; split; [reflexivity | exact He]].
Qed.

(** When the dispatcher raises, the import or the tool raised that
    exception. *)
Lemma dispatch_raises_what_the_tool_raised (modules : tool_modules)
    (info : activity_info) (tool_name : string) (tool_args : pyval)
    (e : exception) :
  dynamic_tool_activity modules info tool_name tool_args = Raises e ->
  is_exception e = false
  /\ (_get_tool_handler modules tool_name = Raises e
      \/ exists h,
           _get_tool_handler modules tool_name = Returns (Some h)
           /\ call h tool_args = Raises e).
Proof.
  unfold dynamic_tool_activity.
  destruct (_get_tool_handler modules tool_name) as [[h|]|e'];
    cbn [and_then try_except].
  - destruct (is_coroutine h);
      (destruct (call h tool_args) as [result|e''] eqn:Hcall;
       cbn [and_then try_except]; [discriminate|];
       destruct (is_exception e'') eqn:He; [discriminate|];
       intros H; injection H as <-;
       split; [exact He | right; exists h; auto]).
  - discriminate.
  - destruct (is_exception e') eqn:He; [discriminate|].
    intros H; injection H as <-. split; [exact He | left; reflexivity].
Qed.

End Dispatcher.

(** C2, as the code has it.  [dynamic_tool_activity] returns an envelope
    unless the import or the tool raises an exception that is no
    [Exception], which its [except Exception] lets through.  For a tool
    name outside the catalog the envelope has [success = False], the
    message ["Tool '<name>' not found in registry"] and the error type
    ["ValueError"]; when the resolved handler raises an [Exception], the
    envelope has [success = False], the exception's message and the name
    of the exception's class; when it raises something else, such as
    [asyncio.CancelledError], the dispatcher raises it too. *)
Theorem dispatch_captures_every_failure
    (modules : DynamicToolActivity.tool_modules)
    (info : DynamicToolActivity.activity_info)
    (tool_name : string) (tool_args : pyval) :
  ((exists envelope,
       DynamicToolActivity.dynamic_tool_activity
         modules info tool_name tool_args
       = Returns envelope)
   \/ (exists e,
          DynamicToolActivity.dynamic_tool_activity
            modules info tool_name tool_args
          = Raises e
          /\ is_exception e = false
          /\ (DynamicToolActivity._get_tool_handler modules tool_name
              = Raises e
              \/ exists h,
                   DynamicToolActivity._get_tool_handler modules tool_name
                   = Returns (Some h)
                   /\ DynamicToolActivity.call h tool_args = Raises e)))
  /\ (in_list tool_name ToolRegistryActivities.get_available_tools = false ->
      DynamicToolActivity.dynamic_tool_activity modules info tool_name tool_args
      = Returns
          [("success", PyBool false);
           ("tool_name", PyStr tool_name);
           ("error",
            PyStr ("Tool '" +++ tool_name +++ "' not found in registry"));
           ("error_type", PyStr "ValueError");
           ("metadata", DynamicToolActivity.metadata info)])
  /\ (forall (h : DynamicToolActivity.tool_handler) (e : exception),
         DynamicToolActivity._get_tool_handler modules tool_name
           = Returns (Some h) ->
         DynamicToolActivity.call h tool_args = Raises e ->
         (is_exception e = true ->
          DynamicToolActivity.dynamic_tool_activity
            modules info tool_name tool_args
          = Returns
              [("success", PyBool false);
               ("tool_name", PyStr tool_name);
               ("error", PyStr (exc_str e));
               ("error_type", PyStr (exc_type e));
               ("metadata", DynamicToolActivity.metadata info)])
         /\ (is_exception e = false ->
             DynamicToolActivity.dynamic_tool_activity
               modules info tool_name tool_args
             = Raises e)).
Proof.
  split; [|split].
  - destruct (DynamicToolActivity.dynamic_tool_activity
                modules info tool_name tool_args) as [envelope|e] eqn:H.
    + left. exists envelope. reflexivity.
    + right. exists e. split; [reflexivity|].
      apply (dispatch_raises_what_the_tool_raised _ _ _ _ _ H).
  - intros Hunknown. unfold DynamicToolActivity.dynamic_tool_activity.
    rewrite (unknown_tool_has_no_handler modules tool_name Hunknown).
    reflexivity.
  - intros h e Hh Hcall. unfold DynamicToolActivity.dynamic_tool_activity.
    rewrite Hh. cbn [and_then]. rewrite Hcall.
    split; intros He;
      destruct (DynamicToolActivity.is_coroutine h);
      cbn [and_then try_except]; rewrite He; reflexivity.
Qed.

(** The theorem at an unknown name, at [process_pdf] with a handler that
    raises [RuntimeError("boom")], and at [process_pdf] with a handler
    that is cancelled. *)
Lemma dispatch_captures_every_failure_witness :
  DynamicToolActivity.dynamic_tool_activity
    (every_tool (returning PyNone)) first_attempt "no_such_tool" (PyDict [])
  = Returns
      [("success", PyBool false);
       ("tool_name", PyStr "no_such_tool");
       ("error", PyStr "Tool 'no_such_tool' not found in registry");
       ("error_type", PyStr "ValueError");
       ("metadata", DynamicToolActivity.metadata first_attempt)]
  /\ DynamicToolActivity.dynamic_tool_activity
       (every_tool (raising (RuntimeError "boom")))
       first_attempt "process_pdf" (PyDict [("pdf_url", PyStr "u")])
     = Returns
         [("success", PyBool false);
          ("tool_name", PyStr "process_pdf");
          ("error", PyStr "boom");
          ("error_type", PyStr "RuntimeError");
          ("metadata", DynamicToolActivity.metadata first_attempt)]
  /\ DynamicToolActivity.dynamic_tool_activity
       (every_tool (raising (CancelledError "")))
       first_attempt "process_pdf" (PyDict [("pdf_url", PyStr "u")])
     = Raises (CancelledError "").
Proof.
  split; [|split].
  - apply (proj1 (proj2 (dispatch_captures_every_failure
                           (every_tool (returning PyNone)) first_attempt
                           "no_such_tool" (PyDict [])))).
    reflexivity.
  - apply (proj1 (proj2 (proj2 (dispatch_captures_every_failure
                                  (every_tool (raising (RuntimeError "boom")))
                                  first_attempt "process_pdf"
                                  (PyDict [("pdf_url", PyStr "u")])))
                    (raising (RuntimeError "boom")) (RuntimeError "boom")
                    eq_refl eq_refl));
      reflexivity.
  - apply (proj2 (proj2 (proj2 (dispatch_captures_every_failure
                                  (every_tool (raising (CancelledError "")))
                                  first_attempt "process_pdf"
                                  (PyDict [("pdf_url", PyStr "u")])))
                    (raising (CancelledError "")) (CancelledError "")
                    eq_refl eq_refl));
      reflexivity.
Defined.

(** C2 as it is worded fails on the error kind: the envelope for an unknown
    tool carries the error type ["ValueError"], the same a known tool gives
    whose handler raises a [ValueError], so no reading of the error kind
    tells that the tool was absent. *)
Lemma error_kind_does_not_indicate_absence :
  ~ (exists indicates_absence : pyval -> bool,
        forall (modules : DynamicToolActivity.tool_modules)
               (info : DynamicToolActivity.activity_info)
               (tool_name : string) (tool_args : pyval) (envelope : dict),
          DynamicToolActivity.dynamic_tool_activity
            modules info tool_name tool_args = Returns envelope ->
          get envelope "success" = PyBool false ->
          indicates_absence (get envelope "error_type") = true
          <-> in_list tool_name ToolRegistryActivities.get_available_tools
              = false).
Proof.
  intros [indicates_absence claim].
  pose proof (claim (every_tool (raising (ValueError "bad url")))
                first_attempt "no_such_tool" (PyDict []) _ eq_refl eq_refl)
    as Habsent.
  pose proof (claim (every_tool (raising (ValueError "bad url")))
                first_attempt "process_pdf" (PyDict []) _ eq_refl eq_refl)
    as Hknown.
  cbn in Habsent, Hknown.
  destruct (indicates_absence (PyStr "ValueError")).
  - destruct Hknown as [Hk _]. specialize (Hk eq_refl). discriminate Hk.
  - destruct Habsent as [_ Ha]. specialize (Ha eq_refl). discriminate Ha.
Qed.

(* ===================================================================== *)
(** ** The context accumulator *)
(* ===================================================================== *)

Section Accumulator.

Context {S : Type} (R : S -> S -> Prop).
Hypothesis R_refl : forall s, R s s.
Hypothesis R_trans : forall a b c, R a b -> R b c -> R a c.

Lemma relates_ret {A : Type} (a : A) : relates R (ret a).
Proof. intros s. apply R_refl. Qed.

Lemma relates_lift {A : Type} (o : outcome A) : relates R (lift o).
Proof. intros s. apply R_refl. Qed.

Lemma relates_get_state : relates R get_state.
Proof. intros s. apply R_refl. Qed.

Lemma relates_bind {A B : Type} (m : St S A) (k : A -> St S B) :
  relates R m -> (forall a, relates R (k a)) -> relates R (bind m k).
Proof.
  intros Hm Hk s. unfold bind. specialize (Hm s).
  destruct (m s) as [[a|e] s1]; simpl in *.
  - eapply R_trans; [exact Hm | apply Hk].
  - exact Hm.
Qed.

End Accumulator.

(** How a sequence runs from a state. *)
Lemma bind_run {S A B : Type} (m : St S A) (k : A -> St S B) (s : S) :
  bind m k s
  = match m s with
    | (Returns a, s') => k a s'
    | (Raises e, s') => (Raises e, s')
    end.
Proof. reflexivity. Qed.

Lemma accumulators_grow_refl (w : workflow) : accumulators_grow w w.
Proof. unfold accumulators_grow. repeat split; lia. Qed.

Lemma accumulators_grow_trans (a b c : workflow) :
  accumulators_grow a b -> accumulators_grow b c -> accumulators_grow a c.
Proof. unfold accumulators_grow. intuition lia. Qed.

Lemma same_run_fields_refl (w : workflow) : same_run_fields w w.
Proof. unfold same_run_fields. repeat split. Qed.

Lemma same_run_fields_trans (a b c : workflow) :
  same_run_fields a b -> same_run_fields b c -> same_run_fields a c.
Proof. unfold same_run_fields. intuition congruence. Qed.

Lemma same_tool_results_refl (w : workflow) : same_tool_results w w.
Proof. reflexivity. Qed.

Lemma same_tool_results_trans (a b c : workflow) :
  same_tool_results a b -> same_tool_results b c -> same_tool_results a c.
Proof. unfold same_tool_results. congruence. Qed.

(** One write to the object: open the state and compare field by field. *)
Ltac one_write :=
  let c := fresh "c" in
  intros [c ? ? ?]; destruct c;
  cbv [ensure extend_item update_context extend_discovered append_analysis
       modify bind get_state lift ret item];
  cbn;
  repeat match goal with
         | |- context [match ?x with _ => _ end] => is_var x; destruct x; cbn
         end;
  cbv [accumulators_grow same_run_fields same_tool_results size];
  cbn; rewrite ?length_app; cbn; repeat split; try lia.

(** Walk through a method body: sequencing, branches, then single writes. *)
Ltac walk refl trans :=
  repeat match goal with
         | |- relates _ (bind _ _) =>
             apply (relates_bind _ trans); [| intros ?]
         | |- relates _ (ret _) => apply (relates_ret _ refl)
         | |- relates _ (lift _) => apply (relates_lift _ refl)
         | |- relates _ get_state => apply (relates_get_state _ refl)
         | |- relates _ (if ?c then _ else _) => destruct c
         | |- relates _ _ => one_write
         end.

Lemma merge_grows (now : pyval) (tool_result : dict) (tool_name : string) :
  relates accumulators_grow
    (_update_context_with_results now tool_result tool_name).
Proof.
  unfold _update_context_with_results.
  walk accumulators_grow_refl accumulators_grow_trans.
Qed.

Lemma merge_keeps_run_fields (now : pyval) (tool_result : dict)
    (tool_name : string) :
  relates same_run_fields
    (_update_context_with_results now tool_result tool_name).
Proof.
  unfold _update_context_with_results.
  walk same_run_fields_refl same_run_fields_trans.
Qed.

(** The last two statements of the method: they cannot raise, and they put
    the entry at the end of [tool_results]. *)
Lemma store_tool_result (entry : pyval) (w : workflow) :
  fst ((ensure tool_results set_tool_results ;;
        extend_item "tool_results" tool_results set_tool_results [entry]) w)
  = Returns tt
  /\ tool_results
       (research_context
          (snd ((ensure tool_results set_tool_results ;;
                 extend_item "tool_results" tool_results set_tool_results
                   [entry]) w)))
     = Some (held (tool_results (research_context w)) ++ [entry])
  /\ discovered_papers
       (snd ((ensure tool_results set_tool_results ;;
              extend_item "tool_results" tool_results set_tool_results
                [entry]) w))
     = discovered_papers w
  /\ analysis_results
       (snd ((ensure tool_results set_tool_results ;;
              extend_item "tool_results" tool_results set_tool_results
                [entry]) w))
     = analysis_results w.
Proof.
  destruct w as [c dp ar mx]. destruct c.
  destruct tool_results0; cbn; repeat split; reflexivity.
Qed.

(** A method body followed by the two storing statements. *)
Lemma stored_after (body : St workflow unit) (entry : pyval) (w : workflow) :
  relates same_tool_results body ->
  let r := (body ;;
            ensure tool_results set_tool_results ;;
            extend_item "tool_results" tool_results set_tool_results [entry]) w
  in
  (fst r = Returns tt ->
   tool_results (research_context (snd r))
   = Some (held (tool_results (research_context w)) ++ [entry]))
  /\ (forall e, fst r = Raises e ->
      tool_results (research_context (snd r))
      = tool_results (research_context w))
  /\ (fst (body w) = Returns tt -> fst r = Returns tt).
Proof.
  intros Hkeep. specialize (Hkeep w). unfold same_tool_results in Hkeep.
  cbv zeta. rewrite bind_run.
  destruct (body w) as [[[]|e] w1]; simpl in Hkeep.
  - destruct (store_tool_result entry w1) as [Hret [Hres _]].
    split; [|split].
    + intros _. rewrite Hres, Hkeep. reflexivity.
    + intros e He. rewrite Hret in He. discriminate He.
    + intros _. exact Hret.
  - simpl. split; [|split].
    + discriminate.
    + intros _ _. exact Hkeep.
    + discriminate.
Qed.

Lemma envelopes_have_no_category_keys
    (info : DynamicToolActivity.activity_info) (tool_name : string) :
  (forall result, category_keys_absent (success_envelope info tool_name result))
  /\ (forall e, category_keys_absent (failure_envelope info tool_name e)).
Proof. split; intros; repeat split. Qed.

(** On a mapping without the category keys the method returns, stores the
    entry and leaves the two lists of the object alone. *)
Lemma merge_without_category_keys (now : pyval) (tool_result : dict)
    (tool_name : string) (w : workflow) :
  category_keys_absent tool_result ->
  fst (_update_context_with_results now tool_result tool_name w) = Returns tt
  /\ tool_results
       (research_context
          (snd (_update_context_with_results now tool_result tool_name w)))
     = Some (held (tool_results (research_context w))
             ++ [tool_results_entry tool_name tool_result now])
  /\ discovered_papers
       (snd (_update_context_with_results now tool_result tool_name w))
     = discovered_papers w
  /\ analysis_results
       (snd (_update_context_with_results now tool_result tool_name w))
     = analysis_results w.
Proof.
  intros (Hp & Hid & Hc & Hci & Hn & Hsp & Hs).
  unfold _update_context_with_results.
  rewrite Hp, Hid, Hc, Hci, Hn, Hsp, Hs, !andb_false_r.
  destruct w as [c dp ar mx]. destruct c.
  repeat match goal with
         | |- context [if ?b then _ else _] => destruct b
         end;
    cbn;
    repeat match goal with
           | |- context [match ?x with _ => _ end] =>
               is_var x; destruct x; cbn
           end;
    repeat split; reflexivity.
Qed.

(** C7, as the code has it.  A call of [_update_context_with_results]
    never makes an accumulator shorter, whether it returns or raises.
    When it returns it has put exactly one [{tool, result, timestamp}]
    entry at the end of [tool_results], whatever the tool's category and
    success flag; when it raises, [tool_results] is as it was.  It returns
    on every envelope the dispatcher produces. *)
Theorem merge_appends_one_result_and_never_shrinks
    (now : pyval) (tool_result : dict) (tool_name : string) (w : workflow) :
  accumulators_grow w
    (snd (_update_context_with_results now tool_result tool_name w))
  /\ (fst (_update_context_with_results now tool_result tool_name w)
      = Returns tt ->
      tool_results
        (research_context
           (snd (_update_context_with_results now tool_result tool_name w)))
      = Some (held (tool_results (research_context w))
              ++ [tool_results_entry tool_name tool_result now]))
  /\ (forall e,
         fst (_update_context_with_results now tool_result tool_name w)
         = Raises e ->
         tool_results
           (research_context
              (snd (_update_context_with_results now tool_result tool_name w)))
         = tool_results (research_context w))
  /\ (forall modules info tool_args,
         DynamicToolActivity.dynamic_tool_activity
           modules info tool_name tool_args = Returns tool_result ->
         fst (_update_context_with_results now tool_result tool_name w)
         = Returns tt).
Proof.
  split; [apply merge_grows|].
  assert (Hstored :
    (fst (_update_context_with_results now tool_result tool_name w)
     = Returns tt ->
     tool_results
       (research_context
          (snd (_update_context_with_results now tool_result tool_name w)))
     = Some (held (tool_results (research_context w))
             ++ [tool_results_entry tool_name tool_result now]))
    /\ (forall e,
           fst (_update_context_with_results now tool_result tool_name w)
           = Raises e ->
           tool_results
             (research_context
                (snd (_update_context_with_results now tool_result tool_name w)))
           = tool_results (research_context w))).
  { unfold _update_context_with_results.
    match goal with
    | |- context [bind ?body _] =>
        assert (Hkeep : relates same_tool_results body)
          by walk same_tool_results_refl same_tool_results_trans;
        pose proof (stored_after body
                      (tool_results_entry tool_name tool_result now)
                      w Hkeep) as H
    end.
    cbv zeta in H. destruct H as [Hret [Hraise _]]. split; assumption. }
  destruct Hstored as [Hret Hraise].
  split; [exact Hret|]. split; [exact Hraise|].
  intros modules info tool_args Hdispatch.
  apply merge_without_category_keys.
  destruct (dispatch_outcome modules info tool_name tool_args)
    as [[r H]|[[e H]|[e [H _]]]];
    rewrite H in Hdispatch; [| |discriminate Hdispatch];
    injection Hdispatch as <-;
    apply envelopes_have_no_category_keys.
Qed.

(** The theorem of C7 on a dispatched envelope, which is stored, and on a
    search result whose [papers] is [None], on which the call raises. *)
Lemma merge_appends_one_result_and_never_shrinks_witness :
  tool_results
    (research_context
       (snd (_update_context_with_results (PyInt 0)
               (success_envelope first_attempt "process_pdf" two_papers)
               "process_pdf" (configured 10))))
  = Some (held (tool_results (research_context (configured 10)))
          ++ [tool_results_entry "process_pdf"
                (success_envelope first_attempt "process_pdf" two_papers)
                (PyInt 0)])
  /\ tool_results
       (research_context
          (snd (_update_context_with_results (PyInt 0)
                  [("papers", PyNone)] "arxiv_search" (configured 10))))
     = tool_results (research_context (configured 10))
  /\ fst (_update_context_with_results (PyInt 0)
            (success_envelope first_attempt "process_pdf" two_papers)
            "process_pdf" (configured 10))
     = Returns tt.
Proof.
  split; [|split].
  - apply (proj1 (proj2 (merge_appends_one_result_and_never_shrinks
                           (PyInt 0)
                           (success_envelope first_attempt "process_pdf"
                              two_papers)
                           "process_pdf" (configured 10)))).
    reflexivity.
  - apply (proj1 (proj2 (proj2 (merge_appends_one_result_and_never_shrinks
                                  (PyInt 0) [("papers", PyNone)]
                                  "arxiv_search" (configured 10))))
             (TypeError "'NoneType' object is not iterable")).
    reflexivity.
  - apply (proj2 (proj2 (proj2 (merge_appends_one_result_and_never_shrinks
                                  (PyInt 0)
                                  (success_envelope first_attempt
                                     "process_pdf" two_papers)
                                  "process_pdf" (configured 10))))
             (every_tool (returning two_papers)) first_attempt (PyDict [])).
    reflexivity.
Defined.

(** C7 as it is worded fails: given a search result whose [papers] is
    [None], the call raises [TypeError] at [extend] and stores no entry. *)
Lemma merge_can_raise_before_storing :
  ~ (forall (now : pyval) (tool_result : dict) (tool_name : string)
            (w : workflow),
        tool_results
          (research_context
             (snd (_update_context_with_results now tool_result tool_name w)))
        = Some (held (tool_results (research_context w))
                ++ [tool_results_entry tool_name tool_result now])).
Proof.
  intros claim.
  specialize (claim (PyInt 0) [("papers", PyNone)] "arxiv_search"
                (configured 10)).
  discriminate claim.
Qed.

(* ===================================================================== *)
(** ** The agent loop *)
(* ===================================================================== *)

Section TraceLemmas.

Lemma count_app (kind : event -> bool) (a b : list event) :
  count kind (a ++ b) = count kind a + count kind b.
Proof. unfold count. rewrite filter_app, length_app. reflexivity. Qed.

Lemma status_writes_app (a b : list event) :
  status_writes (a ++ b) = status_writes a ++ status_writes b.
Proof.
  induction a as [|e a IH]; [reflexivity|].
  destruct e; simpl; rewrite IH; reflexivity.
Qed.

Lemma iteration_writes_app (a b : list event) :
  iteration_writes (a ++ b) = iteration_writes a ++ iteration_writes b.
Proof.
  induction a as [|e a IH]; [reflexivity|].
  destruct e; simpl; rewrite IH; reflexivity.
Qed.

End TraceLemmas.

(** Run the monadic plumbing of the machine, leaving the activities and
    the accumulator as they are. *)
Ltac machine_steps :=
  cbv beta iota zeta delta
    [bind catch execute_activity emit lift get_state ret modify on_self
     update_context write_status write_iteration];
  cbn [fst snd self trace research_context discovered_papers
       analysis_results max_iterations].

Opaque ToolRegistryActivities.get_available_tools
       ToolRegistryActivities.validate_tool_usage
       ToolRegistryActivities.validate_tool_usage_activity
       DynamicToolActivity.dynamic_tool_activity
       _update_context_with_results String.append.

(** One pass through the loop body, whatever the collaborators do. *)
Lemma iteration_body_effect (env : environment) (i : nat) (m : machine) :
  exists evs,
    trace (snd (iteration_body env i m))
    = evs ++ Analyze :: GetAvailableTools :: StatusSet (Iteration i)
          :: IterationSet i :: trace m
    /\ count is_analyze evs = 0
    /\ status_writes evs = []
    /\ iteration_writes evs = []
    /\ count is_dispatch evs <= 1
    /\ count is_merge evs <= count is_dispatch evs
    /\ (count is_merge evs = count is_dispatch evs
        \/ exists e,
             fst (iteration_body env i m) = Raises e
             /\ is_exception e = false)
    /\ status (research_context (self (snd (iteration_body env i m))))
       = Some (Iteration i)
    /\ iteration (research_context (self (snd (iteration_body env i m))))
       = Some i
    /\ discovered_papers (self (snd (iteration_body env i m)))
       = discovered_papers (self m)
    /\ analysis_results (self (snd (iteration_body env i m)))
       = analysis_results (self m)
    /\ (never_completes env -> calls_return env ->
        fst (iteration_body env i m) = Returns Next).
Proof.
  destruct m as [[c dp ar mx] tr].
  unfold iteration_body. machine_steps.
  match goal with
  | |- context [llm_analyze env ?ctx ?tools] =>
      assert (Hgo : never_completes env ->
                    exists answer,
                      llm_analyze env ctx tools = Returns (PyDict answer)
                      /\ is_complete (get answer "action") = false)
        by (intros H; apply H);
      assert (Hcalls : calls_return env ->
                       forall next_action tool_name tool_args,
                         llm_analyze env ctx tools = Returns next_action ->
                         entry next_action "tool_name" = Some tool_name ->
                         entry next_action "tool_args" = Some tool_args ->
                         (exists tool_validation,
                             ToolRegistryActivities.validate_tool_usage_activity
                               tool_name tool_args
                             = Returns tool_validation)
                         /\ (forall info,
                                exists tool_result,
                                  DynamicToolActivity.dynamic_tool_activity_any
                                    (modules env) info tool_name tool_args
                                  = Returns tool_result))
        by (intros H na tn ta Hna Htn Hta; apply H;
            exists ctx, tools, na; auto);
      destruct (llm_analyze env ctx tools) as [next_action|e]
  end; machine_steps.
  2:{ exists []. repeat split; auto.
      intros H _. destruct (Hgo H) as [na [Hna _]]. discriminate Hna. }
  destruct next_action as [| | | | |answer];
    cbn [method_get]; machine_steps;
    try (exists []; repeat split; auto;
         intros H _; destruct (Hgo H) as [na [Hna _]]; discriminate Hna).
  change (get_default answer "action" PyNone) with (get answer "action").
  destruct (is_complete (get answer "action")) eqn:Hdone; machine_steps.
  { exists []. repeat split; auto.
    intros H _. destruct (Hgo H) as [na [Hna Hc]].
    injection Hna as <-. congruence. }
  clear Hgo. cbn [entry] in *.
  destruct (lookup "tool_name" answer) as [tool_name|] eqn:Hname;
    machine_steps; [|exists [Sleep]; repeat split; auto].
  destruct (lookup "tool_args" answer) as [tool_args|] eqn:Hargs;
    machine_steps; [|exists [Sleep]; repeat split; auto].
  assert (Hcalls' : calls_return env ->
                    (exists tool_validation,
                        ToolRegistryActivities.validate_tool_usage_activity
                          tool_name tool_args
                        = Returns tool_validation)
                    /\ (forall info,
                           exists tool_result,
                             DynamicToolActivity.dynamic_tool_activity_any
                               (modules env) info tool_name tool_args
                             = Returns tool_result))
    by (intros H; apply (Hcalls H (PyDict answer)); auto).
  clear Hcalls.
  destruct (ToolRegistryActivities.validate_tool_usage_activity
              tool_name tool_args) as [tool_validation|e] eqn:Hvalidate;
    machine_steps.
  2:{ eexists [Validate _ _]. repeat split; cbn; auto.
      intros _ H. destruct (Hcalls' H) as [[v Hv] _]. discriminate Hv. }
  destruct (valid tool_validation) eqn:Hvalid; machine_steps.
  - destruct (activity_accepts_only_names _ _ _ Hvalidate Hvalid)
      as [name [-> _]].
    cbn [DynamicToolActivity.dynamic_tool_activity_any
         _update_context_with_results_any] in *.
    match goal with
    | |- context [DynamicToolActivity.dynamic_tool_activity ?ms ?inf ?n ?a] =>
        assert (Hret : calls_return env ->
                       exists tool_result,
                         DynamicToolActivity.dynamic_tool_activity ms inf n a
                         = Returns tool_result)
          by (intros H; apply (Hcalls' H));
        destruct (dispatch_outcome ms inf n a)
          as [[res H]|[[e H]|[e [H He]]]];
          rewrite H in Hret |- *
    end; machine_steps.
    3:{ eexists [Dispatch _ _; Validate _ _]. repeat split; cbn; auto.
        - right. exists e. auto.
        - intros _ Hc. destruct (Hret Hc) as [r Hr]. discriminate Hr. }
    all: match goal with
    | |- context [_update_context_with_results ?now ?tr ?n ?w] =>
        assert (Hm : category_keys_absent tr)
          by apply envelopes_have_no_category_keys;
        apply (merge_without_category_keys now tr n w) in Hm;
        pose proof (merge_keeps_run_fields now tr n w) as Hf;
        destruct (_update_context_with_results now tr n w) as [r w']
    end;
    cbn in Hm, Hf; destruct Hm as (-> & Hres & Hdp & Har);
    destruct Hf as (Hst & Hit & _); machine_steps;
    eexists [Sleep; Merge _ _; Dispatch _ _; Validate _ _];
    repeat split; cbn; auto.
  - destruct (activity_rejection_has_reason _ _ _ Hvalidate Hvalid)
      as [why Hwhy].
    rewrite Hwhy. unfold item. machine_steps.
    eexists [Sleep; Warning _; Validate _ _]. repeat split; cbn; auto.
Qed.

(** The events of one pass add up as [loop_events] counts them. *)
Lemma one_pass_events (i : nat) (evs : list event) :
  count is_analyze evs = 0 ->
  status_writes evs = [] ->
  iteration_writes evs = [] ->
  count is_dispatch evs <= 1 ->
  count is_merge evs <= count is_dispatch evs ->
  loop_events 1 i
    (evs ++ [Analyze; GetAvailableTools; StatusSet (Iteration i);
             IterationSet i]).
Proof.
  intros Ha Hs Hi Hd Hm. unfold loop_events.
  rewrite !count_app, status_writes_app, iteration_writes_app, Ha, Hs, Hi.
  assert (Hc : count is_cycle evs = 0).
  { clear - Hi. induction evs as [|e evs IH]; [reflexivity|].
    destruct e; simpl in *; try discriminate; auto. }
  rewrite Hc. cbn. repeat split; lia.
Qed.

Lemma loop_events_app (p k : nat) (later first : list event) :
  loop_events 1 k first ->
  loop_events p (S k) later ->
  loop_events (S p) k (later ++ first).
Proof.
  unfold loop_events.
  intros (Ha1 & Hc1 & Hd1 & Hm1 & Hi1 & Hs1) (Ha & Hc & Hd & Hm & Hi & Hs).
  rewrite !count_app, status_writes_app, iteration_writes_app.
  rewrite Ha1, Hc1, Hi1, Hs1, Ha, Hc, Hi, Hs.
  cbn [seq map rev app]. repeat split; try lia.
Qed.

(** The loop over [range]: how many passes it makes and what they leave. *)
Lemma for_range_effect (env : environment) (n : nat) :
  forall (k : nat) (m : machine),
  exists passes evs,
    passes <= n
    /\ trace (snd (for_range (iteration_body env) (seq k n) m))
       = evs ++ trace m
    /\ loop_events passes k evs
    /\ (count is_merge evs = count is_dispatch evs
        \/ exists e,
             fst (for_range (iteration_body env) (seq k n) m) = Raises e
             /\ is_exception e = false)
    /\ discovered_papers
         (self (snd (for_range (iteration_body env) (seq k n) m)))
       = discovered_papers (self m)
    /\ analysis_results
         (self (snd (for_range (iteration_body env) (seq k n) m)))
       = analysis_results (self m)
    /\ (passes = 0 ->
        for_range (iteration_body env) (seq k n) m = (Returns tt, m))
    /\ (0 < passes ->
        status (research_context
                  (self (snd (for_range (iteration_body env) (seq k n) m))))
        = Some (Iteration (k + passes - 1))
        /\ iteration
             (research_context
                (self (snd (for_range (iteration_body env) (seq k n) m))))
           = Some (k + passes - 1))
    /\ (never_completes env -> calls_return env ->
        passes = n
        /\ fst (for_range (iteration_body env) (seq k n) m) = Returns tt).
Proof.
  induction n as [|n IH]; intros k m.
  - exists 0, []. cbn. repeat split; auto; lia.
  - cbn [seq for_range]. rewrite bind_run.
    destruct (iteration_body_effect env k m)
      as (evs1 & Htr & Ha & Hs & Hi & Hd & Hm & Heq & Hst & Hit & Hdp & Har
          & Hgo).
    pose proof (one_pass_events k evs1 Ha Hs Hi Hd Hm) as Hone.
    assert (Htr' : trace (snd (iteration_body env k m))
                   = (evs1 ++ [Analyze; GetAvailableTools;
                               StatusSet (Iteration k); IterationSet k])
                     ++ trace m)
      by (rewrite Htr, <- app_assoc; reflexivity).
    assert (Heq' : count is_merge
                     (evs1 ++ [Analyze; GetAvailableTools;
                               StatusSet (Iteration k); IterationSet k])
                   = count is_dispatch
                       (evs1 ++ [Analyze; GetAvailableTools;
                                 StatusSet (Iteration k); IterationSet k])
                   \/ exists e,
                        fst (iteration_body env k m) = Raises e
                        /\ is_exception e = false)
      by (rewrite !count_app; cbn; destruct Heq as [->|?]; auto).
    clear Htr Ha Hs Hi Hd Hm Heq.
    destruct (iteration_body env k m) as [[[|]|e] m1]; cbn [fst snd] in *.
    + destruct (IH (S k) m1)
        as (p & evs2 & Hle & Htr2 & Hev2 & Heq2 & Hdp2 & Har2 & Hzero & Hpos
            & Hgo2).
      exists (S p), (evs2 ++ evs1 ++ [Analyze; GetAvailableTools;
                                      StatusSet (Iteration k); IterationSet k]).
      split; [lia|]. split; [rewrite Htr2, Htr', app_assoc; reflexivity|].
      split; [apply loop_events_app; assumption|].
      split.
      { destruct Heq' as [Heq1|[e [He _]]]; [|discriminate He].
        destruct Heq2 as [Heq2|Hraise]; [left|right; exact Hraise].
        rewrite (count_app is_merge), (count_app is_dispatch). lia. }
      split; [congruence|]. split; [congruence|].
      split; [discriminate|]. split.
      * intros _. destruct p as [|p].
        -- rewrite (Hzero eq_refl). cbn [snd].
           replace (k + 1 - 1) with k by lia. auto.
        -- replace (k + S (S p) - 1) with (S k + S p - 1) by lia.
           apply Hpos. lia.
      * intros Hnc Hcr. destruct (Hgo2 Hnc Hcr) as [-> Hret]. auto.
    + exists 1, (evs1 ++ [Analyze; GetAvailableTools;
                          StatusSet (Iteration k); IterationSet k]).
      split; [lia|]. split; [exact Htr'|]. split; [exact Hone|].
      split; [destruct Heq' as [?|[e [He _]]]; [auto | discriminate He]|].
      split; [exact Hdp|]. split; [exact Har|].
      split; [discriminate|]. split.
      * intros _. replace (k + 1 - 1) with k by lia. auto.
      * intros Hnc Hcr. specialize (Hgo Hnc Hcr). discriminate Hgo.
    + exists 1, (evs1 ++ [Analyze; GetAvailableTools;
                          StatusSet (Iteration k); IterationSet k]).
      split; [lia|]. split; [exact Htr'|]. split; [exact Hone|].
      split; [destruct Heq' as [?|[e' He']]; [auto | right; exists e'; destruct He' as [He1 He2]; injection He1 as <-; auto]|].
      split; [exact Hdp|]. split; [exact Har|].
      split; [discriminate|]. split.
      * intros _. replace (k + 1 - 1) with k by lia. auto.
      * intros Hnc Hcr. specialize (Hgo Hnc Hcr). discriminate Hgo.
Qed.

(** The shape of every run: either planning raised, or the run planned,
    made some passes through the loop and ended in one of five ways. *)
Lemma run_effect (env : environment) (research_query user_id : string)
    (document_id : option string) (cap : nat) :
  let r := run env research_query user_id document_id (start cap) in
  discovered_papers (self (snd r)) = []
  /\ analysis_results (self (snd r)) = []
  /\ status (research_context (self (snd r)))
     = hd_error (status_writes (trace (snd r)))
  /\ ((exists e,
          llm_plan_research env research_query = Raises e
          /\ is_exception e = true
          /\ (exists result, fst r = Returns result)
          /\ trace (snd r)
             = [StatusSet Failed; Plan research_query; StatusSet Initializing]
          /\ iteration (research_context (self (snd r))) = Some 0)
      \/ (exists e,
             llm_plan_research env research_query = Raises e
             /\ is_exception e = false
             /\ fst r = Raises e
             /\ trace (snd r)
                = [Plan research_query; StatusSet Initializing]
             /\ iteration (research_context (self (snd r))) = Some 0)
      \/ (exists research_plan passes evs how,
             llm_plan_research env research_query = Returns research_plan
             /\ passes <= cap
             /\ loop_events passes 0 evs
             /\ trace (snd r)
                = ending_events how ++ evs ++ planning_events research_query
             /\ iteration (research_context (self (snd r)))
                = Some (passes - 1)
             /\ (how = FailedInLoop \/ how = AbortedInLoop -> 0 < passes)
             /\ run_outcome how (fst r)
             /\ (how <> AbortedInLoop ->
                 count is_merge evs = count is_dispatch evs)
             /\ (never_completes env -> calls_return env ->
                 passes = cap
                 /\ how <> FailedInLoop /\ how <> AbortedInLoop))).
Proof.
  unfold run, run_try, run_except, start, configured. machine_steps.
  destruct (llm_plan_research env research_query) as [research_plan|e];
    machine_steps.
  2:{ destruct (is_exception e) eqn:He; machine_steps.
      - do 3 (split; [auto|]). left. exists e.
        repeat split; auto. eexists; reflexivity.
      - do 3 (split; [auto|]). right. left. exists e.
        repeat split; auto. }
  match goal with
  | |- context [for_range (iteration_body env) (seq 0 cap) ?m0] =>
      destruct (for_range_effect env cap 0 m0)
        as (passes & evs & Hle & Htr & Hev & Heq & Hdp & Har & Hzero & Hpos
            & Hgo);
      destruct (for_range (iteration_body env) (seq 0 cap) m0)
        as [[[]|e] [[c dp ar mx] tr]]
  end; cbn [fst snd self trace research_context discovered_papers
            analysis_results max_iterations] in *; subst dp ar tr;
    machine_steps.
  - assert (Hiter : iteration c = Some (passes - 1)).
    { destruct passes as [|p].
      - specialize (Hzero eq_refl). injection Hzero as ->. reflexivity.
      - destruct (Hpos ltac:(lia)) as [_ ->]. f_equal; lia. }
    assert (Heq' : count is_merge evs = count is_dispatch evs)
      by (destruct Heq as [?|[e [He _]]]; [auto | discriminate He]).
    destruct (llm_analyze_summarize env _ _) as [final_summary|e];
      machine_steps.
    + do 3 (split; [auto|]).
      right. right. exists research_plan, passes, evs, Finished.
      split; [reflexivity|]. split; [exact Hle|]. split; [exact Hev|].
      split; [reflexivity|]. split; [exact Hiter|].
      split; [intros [?|?]; discriminate|].
      split; [eexists; reflexivity|]. split; [auto|].
      intros H H'. split; [apply Hgo; assumption | split; discriminate].
    + destruct (is_exception e) eqn:He; machine_steps.
      * do 3 (split; [auto|]).
        right. right. exists research_plan, passes, evs, FailedInSummary.
        split; [reflexivity|]. split; [exact Hle|]. split; [exact Hev|].
        split; [reflexivity|]. split; [exact Hiter|].
        split; [intros [?|?]; discriminate|].
        split; [eexists; reflexivity|]. split; [auto|].
        intros H H'. split; [apply Hgo; assumption | split; discriminate].
      * do 3 (split; [auto|]).
        right. right. exists research_plan, passes, evs, AbortedInSummary.
        split; [reflexivity|]. split; [exact Hle|]. split; [exact Hev|].
        split; [reflexivity|]. split; [exact Hiter|].
        split; [intros [?|?]; discriminate|].
        split; [exists e; auto|]. split; [auto|].
        intros H H'. split; [apply Hgo; assumption | split; discriminate].
  - assert (Hp : 0 < passes).
    { destruct passes; [specialize (Hzero eq_refl); discriminate Hzero | lia]. }
    destruct (is_exception e) eqn:He; machine_steps.
    + do 3 (split; [auto|]).
      right. right. exists research_plan, passes, evs, FailedInLoop.
      split; [reflexivity|]. split; [exact Hle|]. split; [exact Hev|].
      split; [reflexivity|].
      split; [cbn [iteration set_error set_status];
              destruct (Hpos Hp) as [_ ->]; f_equal; lia|].
      split; [intros _; exact Hp|].
      split; [eexists; reflexivity|].
      split; [intros _; destruct Heq as [?|[e' [He' Hne]]];
              [auto | injection He' as <-; congruence]|].
      intros H H'. destruct (Hgo H H') as [_ Hret]. discriminate Hret.
    + do 2 (split; [auto|]).
      split.
      { destruct (Hpos Hp) as [-> _].
        destruct Hev as (_ & _ & _ & _ & _ & Hs).
        rewrite status_writes_app, Hs.
        destruct passes as [|p]; [lia|].
        rewrite seq_S, map_app, rev_app_distr. cbn.
        do 2 f_equal. lia. }
      right. right. exists research_plan, passes, evs, AbortedInLoop.
      split; [reflexivity|]. split; [exact Hle|]. split; [exact Hev|].
      split; [reflexivity|].
      split; [destruct (Hpos Hp) as [_ ->]; f_equal; lia|].
      split; [intros _; exact Hp|].
      split; [exists e; auto|].
      split; [intros Hne; exfalso; apply Hne; reflexivity|].
      intros H H'. destruct (Hgo H H') as [_ Hret]. discriminate Hret.
Qed.

Transparent ToolRegistryActivities.get_available_tools
            ToolRegistryActivities.validate_tool_usage
            ToolRegistryActivities.validate_tool_usage_activity
            DynamicToolActivity.dynamic_tool_activity
            _update_context_with_results String.append.

Section RunTraces.


End RunTraces.





(* ===================================================================== *)
(** ** The status of a run *)
(* ===================================================================== *)

Section StatusOrder.

Lemma before_trans (a b c : run_status) :
  before a b -> before b c -> before a c.
Proof. destruct a, b, c; cbn; lia. Qed.

(** Every move of the state machine goes forward in the order. *)
Lemma transition_before (a b : run_status) : transition a b -> before a b.
Proof.
  intros H. destruct H; cbn; try lia.
  destruct s; cbn in *; try discriminate; lia.
Qed.

(** A chain for a relation inside a transitive one is sorted for it. *)
Lemma chain_sorted {A : Type} (R T : A -> A -> Prop) (l : list A) :
  (forall a b, R a b -> T a b) ->
  (forall a b c, T a b -> T b c -> T a c) ->
  chain R l -> StronglySorted T l.
Proof.
  intros Hsub Htrans Hchain.
  induction Hchain as [|a|a b l Hab Hchain IH].
  - constructor.
  - constructor; constructor.
  - constructor; [exact IH|].
    inversion IH as [|? ? _ Hall]; subst.
    constructor; [apply Hsub, Hab|].
    eapply Forall_impl; [|exact Hall].
    intros c Hbc. eapply Htrans; [apply Hsub, Hab | exact Hbc].
Qed.

(** In a chain of moves, what precedes [Completed] is [Summarizing]. *)
Lemma chain_completed_after_summarizing (l pre post : list run_status)
    (a : run_status) :
  chain transition l ->
  l = pre ++ a :: Completed :: post ->
  a = Summarizing.
Proof.
  intros Hchain. revert pre.
  induction Hchain as [|x|x y l Hxy Hchain IH]; intros pre Heq.
  - destruct pre; discriminate.
  - destruct pre as [|? [|? ?]]; discriminate.
  - destruct pre as [|p pre].
    + injection Heq as -> -> _. inversion Hxy. reflexivity.
    + injection Heq as _ Heq. apply (IH pre Heq).
Qed.

(** The passes of the loop followed by an ending. *)
Lemma chain_iterations (tail : list run_status) (passes : nat) :
  (forall i, chain transition (Iteration i :: tail)) ->
  forall k,
    chain transition (map Iteration (seq k (S passes)) ++ tail).
Proof.
  intros Htail. induction passes as [|p IH]; intros k.
  - apply Htail.
  - change (map Iteration (seq k (S (S p))) ++ tail)
      with (Iteration k :: (map Iteration (seq (S k) (S p)) ++ tail)).
    specialize (IH (S k)).
    change (map Iteration (seq (S k) (S p)) ++ tail)
      with (Iteration (S k) :: (map Iteration (seq (S (S k)) p) ++ tail))
      in IH |- *.
    constructor; [constructor | exact IH].
Qed.

Lemma chain_ending (how : ending) (i : nat) :
  chain transition (Iteration i :: rev (status_writes (ending_events how))).
Proof.
  destruct how; cbn; repeat constructor.
Qed.

(** The statuses of a run that planned, in the order they were written. *)
Lemma planned_history (research_query : string) (how : ending)
    (passes : nat) (evs : list event) :
  loop_events passes 0 evs ->
  status_history (ending_events how ++ evs ++ planning_events research_query)
  = [Initializing; PlanningComplete]
    ++ map Iteration (seq 0 passes)
    ++ rev (status_writes (ending_events how)).
Proof.
  intros (_ & _ & _ & _ & _ & Hs). unfold status_history.
  rewrite !status_writes_app, Hs, !rev_app_distr, rev_involutive.
  cbn [planning_events status_writes rev app]. reflexivity.
Qed.

End StatusOrder.

(** C8.  In every run the values written to [status], in the order they
    are written, start at [initializing] and form a chain of moves of the
    state machine: planning_complete after initializing, the iterations
    in increasing order, summarizing after the last pass, completed only
    directly after summarizing, failed only after a state that is not
    terminal.  Hence every later value is strictly later in the order
    initializing, planning_complete, iteration_0 .. iteration_N,
    summarizing, completed or failed, and the field ends at the last
    value written. *)
Theorem status_only_moves_forward
    (env : environment) (research_query user_id : string)
    (document_id : option string) (cap : nat) :
  let final := snd (run env research_query user_id document_id (start cap)) in
  chain transition (status_history (trace final))
  /\ StronglySorted before (status_history (trace final))
  /\ hd_error (status_history (trace final)) = Some Initializing
  /\ status (research_context (self final))
     = hd_error (status_writes (trace final))
  /\ (forall pre a post,
         status_history (trace final) = pre ++ a :: Completed :: post ->
         a = Summarizing).
Proof.
  cbv zeta.
  assert (Hchain : chain transition
                     (status_history
                        (trace (snd (run env research_query user_id
                                       document_id (start cap)))))
                   /\ hd_error
                        (status_history
                           (trace (snd (run env research_query user_id
                                          document_id (start cap)))))
                      = Some Initializing).
  { destruct (run_effect env research_query user_id document_id cap)
      as (_ & _ & _ & [(e & _ & _ & _ & Htr & _)|
                       [(e & _ & _ & _ & Htr & _)|
                        (research_plan & passes & evs & how & _ & _
                         & Hev & Htr & _ & Hloop & _)]]).
    - rewrite Htr. cbn. split; [repeat constructor | reflexivity].
    - rewrite Htr. cbn. split; [repeat constructor | reflexivity].
    - rewrite Htr, (planned_history research_query how passes evs Hev).
      split; [|reflexivity].
      destruct passes as [|p].
      + destruct how; cbn.
        * specialize (Hloop (or_introl eq_refl)). lia.
        * repeat constructor.
        * repeat constructor.
        * specialize (Hloop (or_intror eq_refl)). lia.
        * repeat constructor.
      + constructor; [constructor|].
        change ([PlanningComplete] ++ map Iteration (seq 0 (S p))
                ++ rev (status_writes (ending_events how)))
          with (PlanningComplete
                :: Iteration 0
                :: (map Iteration (seq 1 p)
                    ++ rev (status_writes (ending_events how)))).
        constructor; [constructor|].
        apply (chain_iterations
                 (rev (status_writes (ending_events how))) p
                 (chain_ending how) 0). }
  destruct Hchain as [Hchain Hhead].
  split; [exact Hchain|].
  split; [apply (chain_sorted transition before);
          [apply transition_before | apply before_trans | exact Hchain]|].
  split; [exact Hhead|].
  split; [apply run_effect|].
  intros pre a post Heq.
  apply (chain_completed_after_summarizing _ pre post a Hchain Heq).
Qed.

(** The theorem on scenario 1: [completed] comes directly after
    [summarizing]. *)
Lemma status_only_moves_forward_witness :
  status_history
    (trace (snd (run completing "vision transformer" "user" None (start 10))))
  = [Initializing; PlanningComplete; Iteration 0] ++ Summarizing
    :: Completed :: []
  /\ Summarizing = Summarizing.
Proof.
  split; [reflexivity|].
  apply (proj2 (proj2 (proj2 (proj2
           (status_only_moves_forward
              completing "vision transformer" "user" None 10))))
           [Initializing; PlanningComplete; Iteration 0] Summarizing []).
  reflexivity.
Defined.

(* ===================================================================== *)
(** ** Scenarios of the agent loop *)
(* ===================================================================== *)

(** C9.  When planning returns, the analyzer answers ["complete"] in the
    first pass and the summary call returns, the run returns
    [success = True] with that summary; the context ends with
    [iteration = 0], status [completed], the summary attached and no
    [tool_results]; no tool was validated or dispatched. *)
Theorem completing_in_the_first_pass
    (env : environment) (research_query user_id : string)
    (document_id : option string) (cap : nat)
    (research_plan : pyval) (answer : dict)
    (the_summary : pyval) :
  0 < cap ->
  llm_plan_research env research_query = Returns research_plan ->
  llm_analyze env
    (context_at_first_analysis research_query user_id document_id
       research_plan)
    ToolRegistryActivities.get_available_tools
  = Returns (PyDict answer) ->
  is_complete (get answer "action") = true ->
  llm_analyze_summarize env
    (set_status (Some Summarizing)
       (context_at_first_analysis research_query user_id document_id
          research_plan))
    []
  = Returns the_summary ->
  let r := run env research_query user_id document_id (start cap) in
  exists result,
    fst r = Returns result
    /\ success result = true
    /\ final_summary result = Some the_summary
    /\ result_research_context result = research_context (self (snd r))
    /\ iteration (research_context (self (snd r))) = Some 0
    /\ status (research_context (self (snd r))) = Some Completed
    /\ summary (research_context (self (snd r))) = Some the_summary
    /\ tool_results (research_context (self (snd r))) = None
    /\ count is_dispatch (trace (snd r)) = 0
    /\ count is_analyze (trace (snd r)) = 1
    /\ status_history (trace (snd r))
       = [Initializing; PlanningComplete; Iteration 0; Summarizing; Completed].
Proof.
  intros Hcap Hplan Hanalyze Hdone Hsummary.
  destruct cap as [|cap]; [lia|].
  unfold context_at_first_analysis in *.
  cbv zeta. unfold run, run_try, start, configured. machine_steps.
  rewrite Hplan. machine_steps.
  cbn [seq for_range]. unfold iteration_body. machine_steps.
  rewrite Hanalyze. machine_steps. cbn [method_get]. machine_steps.
  change (get_default answer "action" PyNone) with (get answer "action").
  rewrite Hdone. machine_steps.
  rewrite Hsummary. machine_steps.
  eexists. split; [reflexivity|]. repeat split.
Qed.

(** The theorem on scenario 1. *)
Lemma completing_in_the_first_pass_witness :
  exists result,
    fst (run completing "vision transformer" "user" None (start 10))
    = Returns result
    /\ success result = true
    /\ final_summary result
       = Some (PyDict [("success", PyBool true);
                       ("summary", PyStr "nothing to report")])
    /\ result_research_context result
       = research_context
           (self (snd (run completing "vision transformer" "user" None
                         (start 10))))
    /\ iteration
         (research_context
            (self (snd (run completing "vision transformer" "user" None
                          (start 10))))) = Some 0
    /\ status
         (research_context
            (self (snd (run completing "vision transformer" "user" None
                          (start 10))))) = Some Completed
    /\ summary
         (research_context
            (self (snd (run completing "vision transformer" "user" None
                          (start 10)))))
       = Some (PyDict [("success", PyBool true);
                       ("summary", PyStr "nothing to report")])
    /\ tool_results
         (research_context
            (self (snd (run completing "vision transformer" "user" None
                          (start 10))))) = None
    /\ count is_dispatch
         (trace (snd (run completing "vision transformer" "user" None
                        (start 10)))) = 0
    /\ count is_analyze
         (trace (snd (run completing "vision transformer" "user" None
                        (start 10)))) = 1
    /\ status_history
         (trace (snd (run completing "vision transformer" "user" None
                        (start 10))))
       = [Initializing; PlanningComplete; Iteration 0; Summarizing; Completed].
Proof.
  apply (completing_in_the_first_pass
           completing "vision transformer" "user" None 10
           (PyDict [("success", PyBool true);
                    ("query", PyStr "vision transformer")])
           [("action", PyStr "complete"); ("reason", PyStr "enough")]
           (PyDict [("success", PyBool true);
                    ("summary", PyStr "nothing to report")]));
    [lia | reflexivity | reflexivity | reflexivity | reflexivity].
Defined.

(** C6.  When the analyzer proposes a tool call that the validator
    rejects in pass [i], the pass returns normally: it logs a warning,
    records no dispatch and no merge, leaves the workflow object as it
    was on entering the pass, and the loop goes on with index [i + 1]. *)
Theorem validation_failure_skips_the_tool
    (env : environment) (i : nat) (m : machine)
    (answer : dict) (tool_name tool_args : pyval)
    (tool_validation : validation) :
  llm_analyze env (research_context (entered i (self m)))
    ToolRegistryActivities.get_available_tools
  = Returns (PyDict answer) ->
  is_complete (get answer "action") = false ->
  lookup "tool_name" answer = Some tool_name ->
  lookup "tool_args" answer = Some tool_args ->
  ToolRegistryActivities.validate_tool_usage_activity tool_name tool_args
  = Returns tool_validation ->
  valid tool_validation = false ->
  exists why m',
    reason tool_validation = Some why
    /\ iteration_body env i m = (Returns Next, m')
    /\ self m' = entered i (self m)
    /\ trace m'
       = Sleep :: Warning ("Tool validation failed: " +++ why)
         :: Validate tool_name tool_args :: Analyze :: GetAvailableTools
         :: StatusSet (Iteration i) :: IterationSet i :: trace m
    /\ count is_dispatch (trace m') = count is_dispatch (trace m)
    /\ count is_merge (trace m') = count is_merge (trace m)
    /\ (forall n,
           for_range (iteration_body env) (seq i (S n)) m
           = for_range (iteration_body env) (seq (S i) n) m').
Proof.
  intros Hanalyze Hgo Hname Hargs Hvalidate Hvalid.
  destruct (activity_rejection_has_reason _ _ _ Hvalidate Hvalid)
    as [why Hwhy].
  assert (Hbody :
    iteration_body env i m
    = (Returns Next,
       {| self := entered i (self m);
          trace := Sleep :: Warning ("Tool validation failed: " +++ why)
                   :: Validate tool_name tool_args :: Analyze
                   :: GetAvailableTools :: StatusSet (Iteration i)
                   :: IterationSet i :: trace m |})).
  { destruct m as [[c dp ar mx] tr]. unfold entered in *.
    cbn [self research_context] in Hanalyze.
    unfold iteration_body. machine_steps.
    rewrite Hanalyze. machine_steps. cbn [method_get entry]. machine_steps.
    change (get_default answer "action" PyNone) with (get answer "action").
    rewrite Hgo, Hname, Hargs. machine_steps.
    rewrite Hvalidate. machine_steps.
    rewrite Hvalid, Hwhy. unfold item. machine_steps.
    reflexivity. }
  exists why. eexists. split; [exact Hwhy|]. split; [exact Hbody|].
  split; [reflexivity|]. split; [reflexivity|].
  split; [reflexivity|]. split; [reflexivity|].
  intros n. cbn [seq for_range]. rewrite bind_run, Hbody. reflexivity.
Qed.

(** The theorem on a run whose analyzer proposes [extract_citations]
    without arguments, in the first pass. *)
Lemma validation_failure_skips_the_tool_witness :
  exists why m',
    reason (ToolRegistryActivities.validate_tool_usage "extract_citations" [])
    = Some why
    /\ iteration_body proposing_invalid 0 (start 10) = (Returns Next, m')
    /\ self m' = entered 0 (self (start 10))
    /\ trace m'
       = Sleep :: Warning ("Tool validation failed: " +++ why)
         :: Validate (PyStr "extract_citations") (PyDict [])
         :: Analyze :: GetAvailableTools
         :: StatusSet (Iteration 0) :: IterationSet 0 :: trace (start 10)
    /\ count is_dispatch (trace m') = count is_dispatch (trace (start 10))
    /\ count is_merge (trace m') = count is_merge (trace (start 10))
    /\ (forall n,
           for_range (iteration_body proposing_invalid) (seq 0 (S n))
             (start 10)
           = for_range (iteration_body proposing_invalid) (seq 1 n) m').
Proof.
  apply (validation_failure_skips_the_tool
           proposing_invalid 0 (start 10)
           [("action", PyStr "use_tool");
            ("tool_name", PyStr "extract_citations");
            ("tool_args", PyDict []);
            ("reason", PyStr "next step")]
           (PyStr "extract_citations") (PyDict [])
           (ToolRegistryActivities.validate_tool_usage
              "extract_citations" []));
    reflexivity.
Defined.

(** C5, evaluated.  Given a search result itself, the accumulator appends
    its [papers] to [discovered_papers].  In a run, though, it is given the
    dispatcher's envelope, which holds the tool's result under ["result"]
    and has no ["papers"] key: in scenario 2 with the cap of ten, ten
    searches are dispatched and merged, they return twenty papers in all,
    and [discovered_papers] stays empty.  It stays empty in every run. *)
Theorem searches_are_dispatched_but_nothing_is_discovered :
  discovered_papers
    (snd (_update_context_with_results (PyInt 0) two_papers_found
            "arxiv_search_papers" (configured 10)))
  = [PyDict [("id", PyStr "1706.03762"); ("is_downloaded", PyBool true)];
     PyDict [("id", PyStr "2010.11929"); ("is_downloaded", PyBool false)]]
  /\ count is_dispatch
       (trace (snd (run searching "X" "user" None (start 10)))) = 10
  /\ count is_merge
       (trace (snd (run searching "X" "user" None (start 10)))) = 10
  /\ papers_dispatched
       (trace (snd (run searching "X" "user" None (start 10)))) = 20
  /\ size (tool_results
             (research_context
                (self (snd (run searching "X" "user" None (start 10))))))
     = 10
  /\ discovered_papers
       (self (snd (run searching "X" "user" None (start 10)))) = []
  /\ (exists result,
         fst (run searching "X" "user" None (start 10)) = Returns result
         /\ success result = true
         /\ papers_discovered result = Some 0)
  /\ (forall (env : environment) (research_query user_id : string)
             (document_id : option string) (cap : nat),
         discovered_papers
           (self (snd (run env research_query user_id document_id
                         (start cap)))) = []).
Proof.
  split; [reflexivity|].
  split; [vm_compute; reflexivity|].
  split; [vm_compute; reflexivity|].
  split; [vm_compute; reflexivity|].
  split; [vm_compute; reflexivity|].
  split; [vm_compute; reflexivity|].
  split; [eexists; split; [vm_compute; reflexivity|]; split; reflexivity|].
  intros env research_query user_id document_id cap.
  apply run_effect.
Qed.

(* ===================================================================== *)
(** ** The registry as it changes *)
(* ===================================================================== *)

Section Dictionaries.

Context {A : Type}.

Lemma lookup_assign_same (k : string) (v : A) (d : list (string * A)) :
  lookup k (PyDict.assign k v d) = Some v.
Proof.
  induction d as [|[k' v'] d IH]; simpl.
  - rewrite String.eqb_refl. reflexivity.
  - destruct (String.eqb k k') eqn:E; simpl.
    + rewrite String.eqb_refl. reflexivity.
    + rewrite E. exact IH.
Qed.

Lemma lookup_assign_other (k k' : string) (v : A) (d : list (string * A)) :
  k' <> k -> lookup k' (PyDict.assign k v d) = lookup k' d.
Proof.
  intros Hne. apply String.eqb_neq in Hne.
  induction d as [|[k0 v0] d IH]; simpl.
  - rewrite Hne. reflexivity.
  - destruct (String.eqb k k0) eqn:E; simpl.
    + apply String.eqb_eq in E. subst k0. rewrite Hne. reflexivity.
    + destruct (String.eqb k' k0); [reflexivity | exact IH].
Qed.

Lemma lookup_delete_same (k : string) (d : list (string * A)) :
  lookup k (PyDict.delete k d) = None.
Proof.
  induction d as [|[k' v'] d IH]; simpl; [reflexivity|].
  destruct (String.eqb k k') eqn:E; simpl; [exact IH|].
  rewrite E. exact IH.
Qed.

Lemma lookup_delete_other (k k' : string) (d : list (string * A)) :
  k' <> k -> lookup k' (PyDict.delete k d) = lookup k' d.
Proof.
  intros Hne. apply String.eqb_neq in Hne.
  induction d as [|[k0 v0] d IH]; simpl; [reflexivity|].
  destruct (String.eqb k k0) eqn:E; simpl.
  - apply String.eqb_eq in E. subst k0. rewrite Hne. exact IH.
  - destruct (String.eqb k' k0); [reflexivity | exact IH].
Qed.

(** Deleting a key that was just added to a dictionary without it gives
    the dictionary back. *)
Lemma delete_assign_fresh (k : string) (v : A) (d : list (string * A)) :
  lookup k d = None -> PyDict.delete k (PyDict.assign k v d) = d.
Proof.
  unfold PyDict.delete.
  induction d as [|[k' v'] d IH]; simpl; intros Hfresh.
  - rewrite String.eqb_refl. reflexivity.
  - destruct (String.eqb k k') eqn:E; [discriminate|].
    simpl. rewrite E. simpl. rewrite (IH Hfresh). reflexivity.
Qed.

Lemma contains_key_in_keys (k : string) (d : list (string * A)) :
  contains_key k d = in_list k (keys d).
Proof.
  unfold contains_key, in_list, keys.
  induction d as [|[k' v'] d IH]; simpl; [reflexivity|].
  destruct (String.eqb k k'); [reflexivity | exact IH].
Qed.

Lemma keys_assign (k : string) (v : A) (d : list (string * A)) :
  keys (PyDict.assign k v d)
  = if in_list k (keys d) then keys d else keys d ++ [k].
Proof.
  unfold in_list, keys.
  induction d as [|[k' v'] d IH]; simpl; [reflexivity|].
  destruct (String.eqb k k') eqn:E; simpl.
  - apply String.eqb_eq in E. subst k'. reflexivity.
  - rewrite IH. destruct (existsb (String.eqb k) (map fst d)); reflexivity.
Qed.

Lemma keys_delete (k : string) (d : list (string * A)) :
  keys (PyDict.delete k d)
  = filter (fun name => negb (String.eqb k name)) (keys d).
Proof.
  unfold PyDict.delete, keys.
  induction d as [|[k' v'] d IH]; simpl; [reflexivity|].
  destruct (String.eqb k k'); simpl; rewrite IH; reflexivity.
Qed.

Lemma delete_absent (k : string) (d : list (string * A)) :
  contains_key k d = false -> PyDict.delete k d = d.
Proof.
  unfold PyDict.delete, contains_key.
  induction d as [|[k' v'] d IH]; simpl; [reflexivity|].
  destruct (String.eqb k k'); [discriminate|].
  intros H. simpl. rewrite (IH H). reflexivity.
Qed.

End Dictionaries.

Section RegistryChanges.

Import RegistryModule.

(** On the dictionaries of the import, the validator is the one of
    [Registry]. *)
Lemma validate_after_import (tool : string -> DynamicToolActivity.tool_handler)
    (tool_name : string) (tool_args : dict) :
  validate_tool_usage (imported tool) tool_name tool_args
  = Registry.validate_tool_usage tool_name tool_args.
Proof.
  unfold validate_tool_usage, Registry.validate_tool_usage, imported;
    cbn [TOOL_REGISTRY TOOL_DESCRIPTIONS].
  rewrite contains_key_in_keys.
  assert (Hkeys : keys (map (fun name => (name, tool name))
                          Registry.TOOL_REGISTRY)
                  = Registry.TOOL_REGISTRY) by reflexivity.
  rewrite Hkeys. reflexivity.
Qed.

Lemma consistent_contains (st : state) (name : string) :
  consistent st ->
  contains_key name (TOOL_DESCRIPTIONS st)
  = contains_key name (TOOL_REGISTRY st).
Proof.
  unfold consistent. intros H. rewrite !contains_key_in_keys, H. reflexivity.
Qed.

Lemma perform_keeps_consistent (c : call) (st : state) :
  consistent st -> consistent (perform c st).
Proof.
  intros H. destruct c as [name handler description|name]; simpl.
  - unfold consistent, register_tool; cbn [TOOL_REGISTRY TOOL_DESCRIPTIONS].
    rewrite !keys_assign. unfold consistent in H. rewrite H. reflexivity.
  - unfold unregister_tool.
    rewrite (consistent_contains st name H).
    destruct (contains_key name (TOOL_REGISTRY st)); [|exact H].
    unfold consistent; cbn [snd TOOL_REGISTRY TOOL_DESCRIPTIONS].
    rewrite !keys_delete. unfold consistent in H. rewrite H. reflexivity.
Qed.

Lemma after_keeps_consistent (calls : list call) (st : state) :
  consistent st -> consistent (after calls st).
Proof.
  unfold after. revert st.
  induction calls as [|c calls IH]; intros st H; simpl; [exact H|].
  apply IH, perform_keeps_consistent, H.
Qed.

(** The loop of the registry validator finds nothing missing exactly when
    every argument whose description lacks ["Optional:"] is a key of the
    arguments. *)
Lemma registry_nothing_missing_iff (required : list (string * string))
    (tool_args : dict) :
  Registry.missing_args required tool_args = []
  <-> forall arg_name arg_desc,
        In (arg_name, arg_desc) required ->
        str_in "Optional:" arg_desc = false ->
        contains_key arg_name tool_args = true.
Proof.
  unfold Registry.missing_args.
  induction required as [|[n d] rest IH]; cbn [filter map fst snd].
  - split; [intros _ ? ? [] | reflexivity].
  - destruct (str_in "Optional:" d) eqn:Ho; cbn [negb andb].
    + rewrite IH. split.
      * intros H a b [E|Hin] Hb; [injection E as <- <-; congruence|].
        apply (H a b Hin Hb).
      * intros H a b Hin Hb. apply (H a b (or_intror Hin) Hb).
    + destruct (contains_key n tool_args) eqn:Hc; cbn [negb map fst].
      * rewrite IH. split.
        -- intros H a b [E|Hin] Hb; [injection E as <- <-; exact Hc|].
           apply (H a b Hin Hb).
        -- intros H a b Hin Hb. apply (H a b (or_intror Hin) Hb).
      * split; [discriminate|].
        intros H. specialize (H n d (or_introl eq_refl) Ho). congruence.
Qed.

End RegistryChanges.

(** X1.  After [register_tool(name, handler, description)] the name
    resolves to that handler and that description, whether or not it was
    registered before, a call of it is accepted exactly when every
    argument whose description does not contain ["Optional:"] is a key of
    the call's arguments, and every other name resolves as before. *)
Theorem registered_tool_is_found
    (st : RegistryModule.state) (name : string)
    (handler : DynamicToolActivity.tool_handler)
    (description : tool_description) (tool_args : dict) :
  let st' := RegistryModule.register_tool name handler description st in
  RegistryModule.get_tool_handler st' name = Some handler
  /\ lookup name (RegistryModule.TOOL_DESCRIPTIONS st') = Some description
  /\ (valid (RegistryModule.validate_tool_usage st' name tool_args) = true
      <-> forall arg_name arg_desc,
            In (arg_name, arg_desc) (args description) ->
            str_in "Optional:" arg_desc = false ->
            contains_key arg_name tool_args = true)
  /\ (forall other,
         other <> name ->
         RegistryModule.get_tool_handler st' other
         = RegistryModule.get_tool_handler st other
         /\ lookup other (RegistryModule.TOOL_DESCRIPTIONS st')
            = lookup other (RegistryModule.TOOL_DESCRIPTIONS st)).
Proof.
  cbv zeta.
  unfold RegistryModule.get_tool_handler, RegistryModule.register_tool,
    RegistryModule.validate_tool_usage;
    cbn [RegistryModule.TOOL_REGISTRY RegistryModule.TOOL_DESCRIPTIONS].
  split; [apply lookup_assign_same|].
  split; [apply lookup_assign_same|].
  split.
  - rewrite <- registry_nothing_missing_iff.
    unfold contains_key. rewrite !lookup_assign_same. cbn [negb].
    destruct (Registry.missing_args (args description) tool_args);
      simpl; split; congruence.
  - intros other Hne.
    split; apply lookup_assign_other; exact Hne.
Qed.

(** X2.  [unregister_tool(name)] returns [True] exactly when the name has
    a callable.  Afterwards the name has no callable and the validator
    answers "not found" for it; when it returned [True] the description is
    gone too, when it returned [False] nothing changed (a description
    without a callable stays).  Every other name resolves as before. *)
Theorem unregister_removes_exactly_that_tool
    (st : RegistryModule.state) (name : string) (tool_args : dict) :
  let r := RegistryModule.unregister_tool name st in
  fst r = contains_key name (RegistryModule.TOOL_REGISTRY st)
  /\ RegistryModule.get_tool_handler (snd r) name = None
  /\ RegistryModule.validate_tool_usage (snd r) name tool_args
     = not_found name (RegistryModule.get_available_tools (snd r))
  /\ (fst r = true ->
      lookup name (RegistryModule.TOOL_DESCRIPTIONS (snd r)) = None)
  /\ (fst r = false -> snd r = st)
  /\ (forall other,
         other <> name ->
         RegistryModule.get_tool_handler (snd r) other
         = RegistryModule.get_tool_handler st other
         /\ lookup other (RegistryModule.TOOL_DESCRIPTIONS (snd r))
            = lookup other (RegistryModule.TOOL_DESCRIPTIONS st)).
Proof.
  cbv zeta.
  unfold RegistryModule.unregister_tool, RegistryModule.get_tool_handler,
    RegistryModule.validate_tool_usage, RegistryModule.get_available_tools.
  destruct (contains_key name (RegistryModule.TOOL_REGISTRY st)) eqn:Hin;
    cbn [fst snd RegistryModule.TOOL_REGISTRY RegistryModule.TOOL_DESCRIPTIONS].
  - split; [reflexivity|]. split; [apply lookup_delete_same|].
    split.
    { unfold contains_key. rewrite lookup_delete_same. reflexivity. }
    split.
    { intros _.
      destruct (contains_key name (RegistryModule.TOOL_DESCRIPTIONS st))
        eqn:Hd.
      - apply lookup_delete_same.
      - unfold contains_key in Hd.
        destruct (lookup name (RegistryModule.TOOL_DESCRIPTIONS st));
          [discriminate | reflexivity]. }
    split; [discriminate|].
    intros other Hne. split; [apply lookup_delete_other; exact Hne|].
    destruct (contains_key name (RegistryModule.TOOL_DESCRIPTIONS st));
      [apply lookup_delete_other; exact Hne | reflexivity].
  - split; [reflexivity|].
    assert (Hnone : lookup name (RegistryModule.TOOL_REGISTRY st) = None).
    { unfold contains_key in Hin.
      destruct (lookup name (RegistryModule.TOOL_REGISTRY st));
        [discriminate | reflexivity]. }
    split; [exact Hnone|].
    split; [rewrite Hin; reflexivity|].
    split; [discriminate|]. split; [reflexivity|].
    intros other _. split; reflexivity.
Qed.

(** X3.  Registering a name that is in neither dictionary and then
    unregistering it returns [True] and leaves both dictionaries exactly
    as they were, order included. *)
Theorem register_then_unregister_restores
    (st : RegistryModule.state) (name : string)
    (handler : DynamicToolActivity.tool_handler)
    (description : tool_description) :
  contains_key name (RegistryModule.TOOL_REGISTRY st) = false ->
  contains_key name (RegistryModule.TOOL_DESCRIPTIONS st) = false ->
  RegistryModule.unregister_tool name
    (RegistryModule.register_tool name handler description st)
  = (true, st).
Proof.
  intros Hr Hd.
  unfold RegistryModule.unregister_tool, RegistryModule.register_tool;
    cbn [RegistryModule.TOOL_REGISTRY RegistryModule.TOOL_DESCRIPTIONS].
  unfold contains_key in *. rewrite !lookup_assign_same.
  destruct (lookup name (RegistryModule.TOOL_REGISTRY st)) eqn:Er;
    [discriminate|].
  destruct (lookup name (RegistryModule.TOOL_DESCRIPTIONS st)) eqn:Ed;
    [discriminate|].
  rewrite (delete_assign_fresh name handler _ Er),
    (delete_assign_fresh name description _ Ed).
  destruct st; reflexivity.
Qed.

(** The theorem for the tool the unit tests register. *)
Lemma register_then_unregister_restores_witness :
  RegistryModule.unregister_tool "temp_tool"
    (RegistryModule.register_tool "temp_tool" (returning (PyDict []))
       {| description := "temp"; args := []; returns := "temp" |}
       (RegistryModule.imported (fun _ => returning PyNone)))
  = (true, RegistryModule.imported (fun _ => returning PyNone)).
Proof.
  apply (register_then_unregister_restores
           (RegistryModule.imported (fun _ => returning PyNone)) "temp_tool"
           (returning (PyDict []))
           {| description := "temp"; args := []; returns := "temp" |});
    reflexivity.
Defined.

(** X4.  Whatever sequence of [register_tool] and [unregister_tool] calls
    follows the import, the two dictionaries list the same names in the
    same order; so a name with a callable always has a description, and
    the validator never answers "missing description metadata": it answers
    "not found" or decides on the missing arguments. *)
Theorem registry_and_descriptions_stay_in_step
    (tool : string -> DynamicToolActivity.tool_handler)
    (calls : list RegistryModule.call) (tool_name : string)
    (tool_args : dict) :
  let st := RegistryModule.after calls (RegistryModule.imported tool) in
  keys (RegistryModule.TOOL_REGISTRY st)
  = keys (RegistryModule.TOOL_DESCRIPTIONS st)
  /\ (RegistryModule.get_tool_handler st tool_name = None
      <-> lookup tool_name (RegistryModule.TOOL_DESCRIPTIONS st) = None)
  /\ RegistryModule.validate_tool_usage st tool_name tool_args
     <> missing_metadata tool_name.
Proof.
  cbv zeta.
  assert (Hcons : RegistryModule.consistent
                    (RegistryModule.after calls (RegistryModule.imported tool)))
    by (apply after_keeps_consistent; reflexivity).
  pose proof (consistent_contains _ tool_name Hcons) as Hsame.
  split; [exact Hcons|].
  unfold RegistryModule.get_tool_handler, RegistryModule.validate_tool_usage.
  unfold contains_key in *.
  destruct (lookup tool_name
              (RegistryModule.TOOL_REGISTRY
                 (RegistryModule.after calls (RegistryModule.imported tool))));
    destruct (lookup tool_name
                (RegistryModule.TOOL_DESCRIPTIONS
                   (RegistryModule.after calls
                      (RegistryModule.imported tool)))) as [desc|];
    try discriminate Hsame; cbn [negb].
  - split; [split; discriminate|].
    destruct (Registry.missing_args (args desc) tool_args); discriminate.
  - split; [split; reflexivity | discriminate].
Qed.

(* ===================================================================== *)
(** ** The catalog, the validators and the dispatcher together *)
(* ===================================================================== *)

Section Catalog.

Lemma lookup_none_of_not_listed {A : Type} (k : string)
    (d : list (string * A)) :
  in_list k (keys d) = false -> lookup k d = None.
Proof.
  rewrite <- contains_key_in_keys. unfold contains_key.
  destruct (lookup k d); [discriminate | reflexivity].
Qed.

Lemma lookup_some_of_listed {A : Type} (k : string) (d : list (string * A)) :
  in_list k (keys d) = true -> exists v, lookup k d = Some v.
Proof.
  rewrite <- contains_key_in_keys. unfold contains_key.
  destruct (lookup k d) as [v|]; [exists v; reflexivity | discriminate].
Qed.

(** A truthy value found in a mapping is found in every extension. *)
Lemma truthy_get_extends (large small : dict) (key : string) :
  extends large small ->
  truthy (get small key) = true -> truthy (get large key) = true.
Proof.
  intros Hext. unfold get.
  destruct (lookup key small) as [v|] eqn:E; [|discriminate].
  rewrite (Hext key v E). auto.
Qed.

Lemma contains_key_extends (large small : dict) (key : string) :
  extends large small ->
  contains_key key small = true -> contains_key key large = true.
Proof.
  intros Hext. unfold contains_key.
  destruct (lookup key small) as [v|] eqn:E; [|discriminate].
  rewrite (Hext key v E). auto.
Qed.

Lemma activity_missing_args_extends (large small : dict)
    (required : list (string * string)) :
  extends large small ->
  ToolRegistryActivities.missing_args required small = [] ->
  ToolRegistryActivities.missing_args required large = [].
Proof.
  intros Hext. unfold ToolRegistryActivities.missing_args.
  induction required as [|[n d] required IH]; simpl; [reflexivity|].
  destruct (ToolRegistryActivities.is_optional d); simpl; [exact IH|].
  destruct (contains_key n small) eqn:E; simpl; [|discriminate].
  rewrite (contains_key_extends large small n Hext E). simpl. exact IH.
Qed.

Lemma registry_missing_args_extends (large small : dict)
    (required : list (string * string)) :
  extends large small ->
  Registry.missing_args required small = [] ->
  Registry.missing_args required large = [].
Proof.
  intros Hext. unfold Registry.missing_args.
  induction required as [|[n d] required IH]; simpl; [reflexivity|].
  destruct (str_in "Optional:" d); simpl; [exact IH|].
  destruct (contains_key n small) eqn:E; simpl; [|discriminate].
  rewrite (contains_key_extends large small n Hext E). simpl. exact IH.
Qed.

(** The dispatcher resolves no handler exactly for the names outside the
    catalog, whatever the imports do. *)
Lemma no_handler_iff_not_listed (modules : DynamicToolActivity.tool_modules)
    (tool_name : string) :
  DynamicToolActivity._get_tool_handler modules tool_name = Returns None
  <-> in_list tool_name ToolRegistryActivities.get_available_tools = false.
Proof.
  split; [|apply unknown_tool_has_no_handler].
  intros Hnone.
  destruct (in_list tool_name ToolRegistryActivities.get_available_tools)
    eqn:Hin; [|reflexivity].
  exfalso. unfold in_list in Hin. cbn in Hin.
  unfold DynamicToolActivity._get_tool_handler in Hnone.
  repeat match type of Hnone with
         | (if String.eqb tool_name ?s then _ else _) = _ =>
             destruct (String.eqb tool_name s)
         end;
    try discriminate Hin;
    unfold DynamicToolActivity.imported in Hnone;
    match type of Hnone with
    | and_then ?o _ = _ => destruct o; discriminate Hnone
    end.
Qed.

End Catalog.

(** X5.  A tool name outside the catalog is rejected by both validators
    with the same answer: [valid = False], the reason
    ["Tool '<name>' not found in registry"] and the full list of the
    twelve registered names, whatever the arguments. *)
Theorem unknown_tool_is_rejected_with_the_catalog
    (tool_name : string) (tool_args : dict) :
  in_list tool_name ToolRegistryActivities.get_available_tools = false ->
  ToolRegistryActivities.validate_tool_usage tool_name tool_args
  = {| valid := false;
       reason := Some ("Tool '" +++ tool_name +++ "' not found in registry");
       available_tools :=
         Some ["arxiv_search_papers"; "arxiv_download_paper";
               "arxiv_list_papers"; "arxiv_read_paper"; "arxiv_get_metadata";
               "arxiv_deep_analysis"; "extract_citations";
               "analyze_citation_network"; "process_pdf"; "extract_sections";
               "find_similar_papers"; "calculate_similarity"];
       required_args := None; tool_name := None; validated_args := None |}
  /\ Registry.validate_tool_usage tool_name tool_args
     = ToolRegistryActivities.validate_tool_usage tool_name tool_args.
Proof.
  intros Hunknown.
  assert (HA : ToolRegistryActivities.validate_tool_usage tool_name tool_args
               = not_found tool_name ToolRegistryActivities.get_available_tools).
  { unfold ToolRegistryActivities.validate_tool_usage.
    rewrite (lookup_none_of_not_listed tool_name
               ToolRegistryActivities.TOOL_DESCRIPTIONS Hunknown).
    reflexivity. }
  split; [rewrite HA; reflexivity|].
  rewrite HA. unfold Registry.validate_tool_usage.
  change Registry.TOOL_REGISTRY
    with ToolRegistryActivities.get_available_tools.
  rewrite Hunknown. reflexivity.
Qed.

(** The theorem for the name the unit tests use. *)
Lemma unknown_tool_is_rejected_with_the_catalog_witness :
  ToolRegistryActivities.validate_tool_usage "unknown_tool"
    [("arg", PyStr "value")]
  = {| valid := false;
       reason := Some "Tool 'unknown_tool' not found in registry";
       available_tools :=
         Some ["arxiv_search_papers"; "arxiv_download_paper";
               "arxiv_list_papers"; "arxiv_read_paper"; "arxiv_get_metadata";
               "arxiv_deep_analysis"; "extract_citations";
               "analyze_citation_network"; "process_pdf"; "extract_sections";
               "find_similar_papers"; "calculate_similarity"];
       required_args := None; tool_name := None; validated_args := None |}
  /\ Registry.validate_tool_usage "unknown_tool" [("arg", PyStr "value")]
     = ToolRegistryActivities.validate_tool_usage "unknown_tool"
         [("arg", PyStr "value")].
Proof.
  apply (unknown_tool_is_rejected_with_the_catalog
           "unknown_tool" [("arg", PyStr "value")]).
  reflexivity.
Defined.

(** X6.  Both validators are permissive: a call that is accepted stays
    accepted when keys are added to its arguments (the values of the keys
    it had unchanged), whether or not the description knows the new keys,
    and the answer echoes the arguments it was given, unchanged, under
    [validated_args]. *)
Theorem accepted_calls_stay_accepted_with_more_keys
    (tool_name : string) (small large : dict) :
  extends large small ->
  (valid (ToolRegistryActivities.validate_tool_usage tool_name small) = true ->
   ToolRegistryActivities.validate_tool_usage tool_name large
   = accepted tool_name large)
  /\ (valid (Registry.validate_tool_usage tool_name small) = true ->
      Registry.validate_tool_usage tool_name large
      = accepted tool_name large).
Proof.
  intros Hext. split.
  - unfold ToolRegistryActivities.validate_tool_usage.
    destruct (lookup tool_name ToolRegistryActivities.TOOL_DESCRIPTIONS)
      as [tool_desc|]; [|discriminate].
    cbv zeta.
    destruct (String.eqb tool_name "extract_citations").
    { destruct (truthy (get small "paper_text")) eqn:Et.
      - rewrite (truthy_get_extends large small _ Hext Et). reflexivity.
      - destruct (truthy (get small "paper_url")) eqn:Eu; [|discriminate].
        rewrite (truthy_get_extends large small _ Hext Eu).
        cbn [negb]. rewrite !andb_false_r. reflexivity. }
    destruct (String.eqb tool_name "arxiv_search_papers").
    { destruct (truthy (get small "query")) eqn:Eq; [|discriminate].
      rewrite (truthy_get_extends large small _ Hext Eq). reflexivity. }
    destruct (in_list tool_name _).
    { destruct (truthy (get small "paper_id")) eqn:Ei; [|discriminate].
      rewrite (truthy_get_extends large small _ Hext Ei). reflexivity. }
    destruct (ToolRegistryActivities.missing_args (args tool_desc) small)
      eqn:Em; [|discriminate].
    rewrite (activity_missing_args_extends large small _ Hext Em).
    reflexivity.
  - unfold Registry.validate_tool_usage.
    destruct (negb (in_list tool_name Registry.TOOL_REGISTRY));
      [discriminate|].
    destruct (lookup tool_name Registry.TOOL_DESCRIPTIONS) as [tool_desc|];
      [|discriminate].
    cbv zeta.
    destruct (Registry.missing_args (args tool_desc) small) eqn:Em;
      [|discriminate].
    rewrite (registry_missing_args_extends large small _ Hext Em).
    reflexivity.
Qed.

(** The theorem for a search call to which an unknown key is added, as in
    the unit test of extra arguments. *)
Lemma accepted_calls_stay_accepted_with_more_keys_witness :
  ToolRegistryActivities.validate_tool_usage "arxiv_search_papers"
    [("query", PyStr "test"); ("extra_arg", PyStr "should_be_ignored")]
  = accepted "arxiv_search_papers"
      [("query", PyStr "test"); ("extra_arg", PyStr "should_be_ignored")]
  /\ Registry.validate_tool_usage "arxiv_search_papers"
       [("query", PyStr "test"); ("extra_arg", PyStr "should_be_ignored")]
     = accepted "arxiv_search_papers"
         [("query", PyStr "test"); ("extra_arg", PyStr "should_be_ignored")].
Proof.
  assert (Hext : extends
                   [("query", PyStr "test");
                    ("extra_arg", PyStr "should_be_ignored")]
                   [("query", PyStr "test")]).
  { intros k v. simpl. destruct (String.eqb k "query"); [auto | discriminate]. }
  split.
  - apply (proj1 (accepted_calls_stay_accepted_with_more_keys
                    "arxiv_search_papers" [("query", PyStr "test")]
                    [("query", PyStr "test");
                     ("extra_arg", PyStr "should_be_ignored")] Hext)).
    reflexivity.
  - apply (proj2 (accepted_calls_stay_accepted_with_more_keys
                    "arxiv_search_papers" [("query", PyStr "test")]
                    [("query", PyStr "test");
                     ("extra_arg", PyStr "should_be_ignored")] Hext)).
    reflexivity.
Defined.

(** X7.  The dispatcher and the validator the workflow calls know the same
    names: [_get_tool_handler] resolves no handler exactly for the names
    outside [get_available_tools], whatever the imports do.  So for a call
    the validator accepts the dispatcher never answers "not found": it
    answers with what importing or calling the handler did. *)
Theorem accepted_calls_reach_a_handler
    (modules : DynamicToolActivity.tool_modules)
    (info : DynamicToolActivity.activity_info)
    (tool_name : string) (tool_args : pyval)
    (tool_validation : validation) :
  (DynamicToolActivity._get_tool_handler modules tool_name = Returns None
   <-> in_list tool_name ToolRegistryActivities.get_available_tools = false)
  /\ (ToolRegistryActivities.validate_tool_usage_activity
        (PyStr tool_name) tool_args
      = Returns tool_validation ->
      valid tool_validation = true ->
      (exists e,
          DynamicToolActivity._get_tool_handler modules tool_name = Raises e
          /\ DynamicToolActivity.dynamic_tool_activity
               modules info tool_name tool_args
             = answer_for info tool_name (Raises e))
      \/ (exists h,
             DynamicToolActivity._get_tool_handler modules tool_name
             = Returns (Some h)
             /\ DynamicToolActivity.dynamic_tool_activity
                  modules info tool_name tool_args
                = answer_for info tool_name
                    (DynamicToolActivity.call h tool_args))).
Proof.
  split; [apply no_handler_iff_not_listed|].
  intros Hvalidate Hvalid.
  assert (Hin : in_list tool_name ToolRegistryActivities.get_available_tools
                = true).
  { destruct (activity_accepts_only_names _ _ _ Hvalidate Hvalid)
      as [name [Hname Hkey]].
    injection Hname as <-.
    destruct (in_list tool_name ToolRegistryActivities.get_available_tools)
      eqn:Hin; [reflexivity|].
    unfold contains_key in Hkey.
    rewrite (lookup_none_of_not_listed tool_name
               ToolRegistryActivities.TOOL_DESCRIPTIONS Hin) in Hkey.
    discriminate Hkey. }
  pose proof (no_handler_iff_not_listed modules tool_name) as Hiff.
  unfold DynamicToolActivity.dynamic_tool_activity.
  destruct (DynamicToolActivity._get_tool_handler modules tool_name)
    as [[h|]|e].
  - right. exists h. split; [reflexivity|]. cbn [and_then].
    destruct (DynamicToolActivity.is_coroutine h);
      destruct (DynamicToolActivity.call h tool_args) as [r|e];
      cbn [and_then try_except answer_for];
      try destruct (is_exception e); reflexivity.
  - rewrite (proj1 Hiff eq_refl) in Hin. discriminate Hin.
  - left. exists e. split; [reflexivity|].
    cbn [and_then try_except answer_for].
    destruct (is_exception e); reflexivity.
Qed.

(** The theorem for a search call with eager imports that succeed. *)
Lemma accepted_calls_reach_a_handler_witness :
  (exists e,
      DynamicToolActivity._get_tool_handler
        (every_tool (returning two_papers)) "arxiv_search_papers" = Raises e
      /\ DynamicToolActivity.dynamic_tool_activity
           (every_tool (returning two_papers)) first_attempt
           "arxiv_search_papers" (PyDict [("query", PyStr "X")])
         = answer_for first_attempt "arxiv_search_papers" (Raises e))
  \/ (exists h,
         DynamicToolActivity._get_tool_handler
           (every_tool (returning two_papers)) "arxiv_search_papers"
         = Returns (Some h)
         /\ DynamicToolActivity.dynamic_tool_activity
              (every_tool (returning two_papers)) first_attempt
              "arxiv_search_papers" (PyDict [("query", PyStr "X")])
            = answer_for first_attempt "arxiv_search_papers"
                (DynamicToolActivity.call h
                   (PyDict [("query", PyStr "X")]))).
Proof.
  apply (proj2 (accepted_calls_reach_a_handler
                  (every_tool (returning two_papers)) first_attempt
                  "arxiv_search_papers" (PyDict [("query", PyStr "X")])
                  (ToolRegistryActivities.validate_tool_usage
                     "arxiv_search_papers" [("query", PyStr "X")])));
    reflexivity.
Defined.

(** X8.  The dispatcher returns an envelope unless importing or calling
    the handler raises an exception that is no [Exception], in which case
    it raises that exception.  The envelope's [success] flag tells only
    whether the handler was resolved and returned: it is [True] exactly
    then, with the handler's return value passed through unchanged under
    [result], also when that value itself reports a failure; otherwise it
    is [False]. *)
Theorem envelope_success_means_the_handler_returned
    (modules : DynamicToolActivity.tool_modules)
    (info : DynamicToolActivity.activity_info)
    (tool_name : string) (tool_args : pyval) :
  ((exists envelope,
       DynamicToolActivity.dynamic_tool_activity
         modules info tool_name tool_args
       = Returns envelope)
   <-> forall e,
         tool_raises modules tool_name tool_args e -> is_exception e = true)
  /\ (forall e,
         DynamicToolActivity.dynamic_tool_activity
           modules info tool_name tool_args
         = Raises e ->
         tool_raises modules tool_name tool_args e
         /\ is_exception e = false)
  /\ (forall envelope,
         DynamicToolActivity.dynamic_tool_activity
           modules info tool_name tool_args
         = Returns envelope ->
         (get envelope "success" = PyBool true
          \/ get envelope "success" = PyBool false)
         /\ get envelope "tool_name" = PyStr tool_name
         /\ (get envelope "success" = PyBool true
             <-> exists h result,
                   DynamicToolActivity._get_tool_handler modules tool_name
                   = Returns (Some h)
                   /\ DynamicToolActivity.call h tool_args = Returns result
                   /\ lookup "result" envelope = Some result
                   /\ contains_key "error" envelope = false)).
Proof.
  unfold tool_raises, DynamicToolActivity.dynamic_tool_activity.
  destruct (DynamicToolActivity._get_tool_handler modules tool_name)
    as [[h|]|e0]; cbn [and_then].
  - assert (Hsame : (if DynamicToolActivity.is_coroutine h
                     then DynamicToolActivity.call h tool_args
                     else DynamicToolActivity.call h tool_args)
                    = DynamicToolActivity.call h tool_args)
      by (destruct (DynamicToolActivity.is_coroutine h); reflexivity).
    rewrite Hsame.
    destruct (DynamicToolActivity.call h tool_args) as [result|e0] eqn:Hcall;
      cbn [and_then try_except].
    + split; [|split].
      * split; [|intros _; eexists; reflexivity].
        intros _ e [H|(h' & Hh & Hr)]; [discriminate H|].
        injection Hh as <-. congruence.
      * discriminate.
      * intros envelope H. injection H as <-.
        split; [left; reflexivity|]. split; [reflexivity|].
        split; [intros _; exists h, result; repeat split; auto
               | reflexivity].
    + destruct (is_exception e0) eqn:He.
      * split; [|split].
        -- split; [|intros _; eexists; reflexivity].
           intros _ e [H|(h' & Hh & Hr)]; [discriminate H|].
           injection Hh as <-. congruence.
        -- discriminate.
        -- intros envelope H. injection H as <-.
           split; [right; reflexivity|]. split; [reflexivity|].
           split; [discriminate|].
           intros (h' & r & Hh & Hr & _). injection Hh as <-. congruence.
      * split; [|split].
        -- split; [intros [envelope H]; discriminate H|].
           intros H. specialize (H e0 (or_intror (ex_intro _ h
                                                    (conj eq_refl Hcall)))).
           congruence.
        -- intros e H. injection H as <-.
           split; [right; exists h; auto | exact He].
        -- discriminate.
  - cbn [try_except ValueError is_exception]. split; [|split].
    + split; [|intros _; eexists; reflexivity].
      intros _ e [H|(h' & Hh & _)]; discriminate.
    + discriminate.
    + intros envelope H. injection H as <-.
      split; [right; reflexivity|]. split; [reflexivity|].
      split; [discriminate|]. intros (h' & r & Hh & _). discriminate Hh.
  - cbn [try_except]. destruct (is_exception e0) eqn:He.
    + split; [|split].
      * split; [|intros _; eexists; reflexivity].
        intros _ e [H|(h' & Hh & _)]; [congruence | discriminate Hh].
      * discriminate.
      * intros envelope H. injection H as <-.
        split; [right; reflexivity|]. split; [reflexivity|].
        split; [discriminate|]. intros (h' & r & Hh & _). discriminate Hh.
    + split; [|split].
      * split; [intros [envelope H]; discriminate H|].
        intros H. specialize (H e0 (or_introl eq_refl)). congruence.
      * intros e H. injection H as <-. split; [left; reflexivity | exact He].
      * discriminate.
Qed.

(** X26. On the tools without a special case the validator of
    [registry.py] is the stricter one: every call it accepts, the
    validator the workflow calls accepts too, whatever the arguments.  The
    converse fails: [process_pdf] with only [pdf_url] is accepted by the
    workflow's validator and rejected by the registry's, which takes
    ["Optional list of sections to extract"] for a required argument. *)
Theorem registry_validator_is_stricter_on_plain_tools :
  (forall tool_name tool_args,
      has_special_case tool_name = false ->
      valid (Registry.validate_tool_usage tool_name tool_args) = true ->
      valid (ToolRegistryActivities.validate_tool_usage tool_name tool_args)
      = true)
  /\ (exists tool_name tool_args,
         has_special_case tool_name = false
         /\ valid (ToolRegistryActivities.validate_tool_usage
                     tool_name tool_args) = true
         /\ valid (Registry.validate_tool_usage tool_name tool_args)
            = false).
Proof.
  split.
  - intros tool_name tool_args Hplain Hreg.
    assert (Hin : In tool_name Registry.TOOL_REGISTRY).
    { unfold Registry.validate_tool_usage in Hreg.
      destruct (in_list tool_name Registry.TOOL_REGISTRY) eqn:E;
        [|discriminate Hreg].
      unfold in_list in E. apply existsb_exists in E.
      destruct E as (name & Hname & Heq).
      apply String.eqb_eq in Heq. subst name. exact Hname. }
    cbn in Hin.
    repeat (destruct Hin as [<- | Hin]; [try discriminate Hplain|]);
      try contradiction;
      revert Hreg;
      unfold Registry.validate_tool_usage,
        ToolRegistryActivities.validate_tool_usage,
        Registry.missing_args, ToolRegistryActivities.missing_args;
      cbn;
      repeat match goal with
             | |- context [contains_key ?k tool_args] =>
                 destruct (contains_key k tool_args)
             end;
      cbn; auto.
  - exists "process_pdf", [("pdf_url", PyStr "https://arxiv.org/pdf/1706.03762")].
    repeat split.
Qed.

(* ===================================================================== *)
(** ** The category rules of the accumulator *)
(* ===================================================================== *)

Section CategoryRules.

Lemma in_two (x a b : string) :
  in_list x [a; b] = true -> x = a \/ x = b.
Proof.
  unfold in_list. simpl. rewrite orb_false_r.
  intros H. apply orb_true_iff in H.
  destruct H as [H|H]; apply String.eqb_eq in H; auto.
Qed.

Lemma contains_key_of_lookup {A : Type} (k : string) (v : A)
    (d : list (string * A)) :
  lookup k d = Some v -> contains_key k d = true.
Proof. unfold contains_key. intros ->. reflexivity. Qed.

Lemma get_of_lookup (k : string) (v : pyval) (d : dict) :
  lookup k d = Some v -> get d k = v.
Proof. unfold get. intros ->. reflexivity. Qed.

(** The generator expression counts the flagged papers when every paper
    is a mapping. *)
Lemma downloaded_count_of_dicts (papers : list pyval) :
  forallb is_dict papers = true ->
  downloaded_count papers
  = Returns (List.length (filter flagged_downloaded papers)).
Proof.
  induction papers as [|paper papers IH]; simpl; [reflexivity|].
  intros H. apply andb_true_iff in H. destruct H as [Hd Hrest].
  destruct paper; try discriminate Hd. simpl.
  rewrite (IH Hrest). simpl.
  destruct (truthy (get_default entries "is_downloaded" (PyBool false)));
    reflexivity.
Qed.

Lemma same_outside_search_refl (w : workflow) : same_outside_search w w.
Proof. unfold same_outside_search. repeat split. Qed.

Lemma same_outside_search_trans (a b c : workflow) :
  same_outside_search a b -> same_outside_search b c ->
  same_outside_search a c.
Proof. unfold same_outside_search. intuition congruence. Qed.

End CategoryRules.

(** Compute a call of the accumulator whose branch is known: open the
    object, run the plumbing, split on the keys still unknown. *)
Ltac merge_steps :=
  cbv beta iota zeta delta
    [bind lift get_state ret modify update_context extend_discovered
     append_analysis ensure extend_item item and_then];
  cbn [fst snd research_context discovered_papers analysis_results
       max_iterations];
  cbn.

Section MergeOnToolResults.

Lemma downloaded_count_of_a_stray (papers : list pyval) :
  forallb is_dict papers = false ->
  exists e, downloaded_count papers = Raises e
            /\ exc_type e = "AttributeError".
Proof.
  induction papers as [|paper papers IH]; simpl; [discriminate|].
  intros H. apply andb_false_iff in H.
  destruct paper; simpl; try (eexists; split; reflexivity).
  destruct H as [H|H]; [discriminate H|].
  destruct (IH H) as [e [-> He]]. exists e. simpl. auto.
Qed.

Lemma not_a_category (tool_name other : string) :
  in_list tool_name category_names = false ->
  In other category_names ->
  String.eqb tool_name other = false.
Proof.
  unfold in_list. intros H Hin.
  destruct (String.eqb tool_name other) eqn:E; [|reflexivity].
  apply String.eqb_eq in E. subst other.
  assert (Hex : existsb (String.eqb tool_name) category_names = true).
  { apply existsb_exists. exists tool_name. split; [exact Hin|].
    apply String.eqb_refl. }
  congruence.
Qed.

End MergeOnToolResults.

(** X9. Called on a search result itself (tool [arxiv_search_papers] or
    [arxiv_search], a [papers] list; for [arxiv_search_papers] every paper
    a mapping), [_update_context_with_results] returns, has appended the
    papers to [discovered_papers] in order, has set [papers_count] to the
    new length of [discovered_papers], has set [papers_downloaded] (for
    [arxiv_search_papers] only) to the number of papers of this result
    whose [is_downloaded] is truthy, has stored the result, and has
    touched no accumulator of another category. *)
Theorem search_result_extends_discovered_papers
    (now : pyval) (tool_result : dict) (tool_name : string)
    (papers : list pyval) (w : workflow) :
  in_list tool_name ["arxiv_search_papers"; "arxiv_search"] = true ->
  lookup "papers" tool_result = Some (PyList papers) ->
  (tool_name = "arxiv_search_papers" -> forallb is_dict papers = true) ->
  let r := _update_context_with_results now tool_result tool_name w in
  fst r = Returns tt
  /\ discovered_papers (snd r) = discovered_papers w ++ papers
  /\ papers_count (research_context (snd r))
     = Some (List.length (discovered_papers w) + List.length papers)
  /\ papers_downloaded (research_context (snd r))
     = (if String.eqb tool_name "arxiv_search_papers"
        then Some (List.length (filter flagged_downloaded papers))
        else papers_downloaded (research_context w))
  /\ tool_results (research_context (snd r))
     = Some (held (tool_results (research_context w))
             ++ [tool_results_entry tool_name tool_result now])
  /\ same_outside_search w (snd r).
Proof.
  intros Hname Hpapers Hdicts. cbv zeta.
  unfold _update_context_with_results.
  rewrite Hname, (contains_key_of_lookup _ _ _ Hpapers),
    (get_of_lookup _ _ _ Hpapers).
  cbn [andb iterate].
  destruct w as [c dp ar mx]. destruct c.
  destruct (String.eqb tool_name "arxiv_search_papers") eqn:E.
  - apply String.eqb_eq in E.
    merge_steps. rewrite (downloaded_count_of_dicts papers (Hdicts E)).
    destruct tool_results0; cbn; rewrite length_app;
      unfold same_outside_search; cbn; repeat split; reflexivity.
  - merge_steps.
    destruct tool_results0; cbn; rewrite length_app;
      unfold same_outside_search; cbn; repeat split; reflexivity.
Qed.

Lemma search_result_extends_discovered_papers_witness :
  let w := configured 10 in
  let result :=
    [("papers",
      PyList [PyDict [("id", PyStr "1706.03762");
                      ("is_downloaded", PyBool true)];
              PyDict [("id", PyStr "1810.04805")]])] in
  let r := _update_context_with_results PyNone result
             "arxiv_search_papers" w in
  fst r = Returns tt
  /\ List.length (discovered_papers (snd r)) = 2
  /\ papers_count (research_context (snd r)) = Some 2
  /\ papers_downloaded (research_context (snd r)) = Some 1.
Proof.
  cbv zeta.
  destruct (search_result_extends_discovered_papers PyNone
              [("papers",
                PyList [PyDict [("id", PyStr "1706.03762");
                                ("is_downloaded", PyBool true)];
                        PyDict [("id", PyStr "1810.04805")]])]
              "arxiv_search_papers"
              [PyDict [("id", PyStr "1706.03762");
                       ("is_downloaded", PyBool true)];
               PyDict [("id", PyStr "1810.04805")]]
              (configured 10) eq_refl eq_refl (fun _ => eq_refl))
    as (Hret & Hdp & Hcount & Hdown & _).
  split; [exact Hret|]. split; [rewrite Hdp; reflexivity|].
  split; [exact Hcount | exact Hdown].
Defined.

(** X10. A paper that is not a mapping in an [arxiv_search_papers] result
    makes [_update_context_with_results] raise [AttributeError] half way:
    the papers are already in [discovered_papers] and [papers_count]
    already counts them, while [papers_downloaded] and [tool_results] are
    as before the call. *)
Theorem stray_paper_leaves_a_partial_update
    (now : pyval) (tool_result : dict) (papers : list pyval)
    (w : workflow) :
  lookup "papers" tool_result = Some (PyList papers) ->
  forallb is_dict papers = false ->
  let r := _update_context_with_results now tool_result
             "arxiv_search_papers" w in
  (exists e, fst r = Raises e /\ exc_type e = "AttributeError")
  /\ discovered_papers (snd r) = discovered_papers w ++ papers
  /\ papers_count (research_context (snd r))
     = Some (List.length (discovered_papers w) + List.length papers)
  /\ papers_downloaded (research_context (snd r))
     = papers_downloaded (research_context w)
  /\ tool_results (research_context (snd r))
     = tool_results (research_context w).
Proof.
  intros Hpapers Hstray. cbv zeta.
  unfold _update_context_with_results.
  rewrite (contains_key_of_lookup _ _ _ Hpapers),
    (get_of_lookup _ _ _ Hpapers).
  cbn [in_list existsb String.eqb Ascii.eqb Bool.eqb orb andb iterate].
  destruct w as [c dp ar mx]. destruct c.
  destruct (downloaded_count_of_a_stray papers Hstray) as [e [He Htype]].
  merge_steps. rewrite He. cbn. rewrite length_app.
  split; [exists e; auto|]. repeat split; reflexivity.
Qed.

Lemma stray_paper_leaves_a_partial_update_witness :
  let r := _update_context_with_results PyNone
             [("papers", PyList [PyStr "1706.03762"])]
             "arxiv_search_papers" (configured 10) in
  (exists e, fst r = Raises e /\ exc_type e = "AttributeError")
  /\ discovered_papers (snd r) = [PyStr "1706.03762"]
  /\ papers_count (research_context (snd r)) = Some 1
  /\ tool_results (research_context (snd r)) = None.
Proof.
  cbv zeta.
  destruct (stray_paper_leaves_a_partial_update PyNone
              [("papers", PyList [PyStr "1706.03762"])]
              [PyStr "1706.03762"] (configured 10) eq_refl eq_refl)
    as (Hraise & Hdp & Hcount & _ & Hres).
  split; [exact Hraise|]. split; [exact Hdp|].
  split; [exact Hcount | exact Hres].
Defined.

(** X11. For a tool name that no category rule names (of the registered
    tools: [arxiv_list_papers], [arxiv_get_metadata] and
    [arxiv_deep_analysis]), [_update_context_with_results] returns and
    its whole effect is the new [tool_results] entry, whatever the result
    holds. *)
Theorem uncategorised_tools_only_store_the_result
    (now : pyval) (tool_result : dict) (tool_name : string) (w : workflow) :
  in_list tool_name category_names = false ->
  _update_context_with_results now tool_result tool_name w
  = (Returns tt,
     with_tool_result (tool_results_entry tool_name tool_result now) w).
Proof.
  intros Hname. unfold _update_context_with_results, in_list.
  cbn [existsb].
  rewrite !(not_a_category tool_name _ Hname) by (cbn; tauto).
  cbn [orb andb].
  destruct w as [c dp ar mx]. destruct c.
  destruct tool_results0; reflexivity.
Qed.

Lemma uncategorised_tools_only_store_the_result_witness :
  In "arxiv_list_papers" Registry.TOOL_REGISTRY
  /\ _update_context_with_results PyNone
       [("papers", PyList [PyDict []]); ("success", PyBool true)]
       "arxiv_list_papers" (configured 10)
     = (Returns tt,
        with_tool_result
          (tool_results_entry "arxiv_list_papers"
             [("papers", PyList [PyDict []]); ("success", PyBool true)]
             PyNone)
          (configured 10)).
Proof.
  split; [cbn; tauto|].
  apply (uncategorised_tools_only_store_the_result PyNone
           [("papers", PyList [PyDict []]); ("success", PyBool true)]
           "arxiv_list_papers" (configured 10)).
  reflexivity.
Defined.

(** X12. A download or read result whose [success] is missing or falsy is
    only stored: [_update_context_with_results] returns and changes
    nothing but [tool_results], so a [paper_id] in such a result is not
    recorded and the accumulator's key is not even created. *)
Theorem failed_download_or_read_is_only_stored
    (now : pyval) (tool_result : dict) (tool_name : string) (w : workflow) :
  in_list tool_name ["arxiv_download_paper"; "arxiv_read_paper"] = true ->
  truthy (get tool_result "success") = false ->
  _update_context_with_results now tool_result tool_name w
  = (Returns tt,
     with_tool_result (tool_results_entry tool_name tool_result now) w).
Proof.
  intros Hname Hfail. unfold _update_context_with_results.
  rewrite Hfail, !andb_false_r.
  destruct (in_two _ _ _ Hname) as [-> | ->];
    cbn [in_list existsb String.eqb Ascii.eqb Bool.eqb orb andb];
    destruct w as [c dp ar mx]; destruct c;
    destruct tool_results0; reflexivity.
Qed.

Lemma failed_download_or_read_is_only_stored_witness :
  downloaded_papers
    (research_context
       (snd (_update_context_with_results PyNone
               [("success", PyBool false); ("paper_id", PyStr "1706.03762")]
               "arxiv_download_paper" (configured 10))))
  = None.
Proof.
  rewrite (failed_download_or_read_is_only_stored PyNone
             [("success", PyBool false); ("paper_id", PyStr "1706.03762")]
             "arxiv_download_paper" (configured 10) eq_refl eq_refl).
  reflexivity.
Defined.

(** X13. A successful download result with a [paper_id] puts that id at
    the end of [downloaded_papers] (creating the list when the key is
    absent); a successful read result with a [paper_id] and a [content]
    mapping puts the id at the end of [read_papers] and
    [{paper_id, sections_found}] at the end of [extracted_content], where
    [sections_found] is the length of the content's [sections] (0 when the
    content has none).  Both calls return and store the result. *)
Theorem successful_download_and_read_record_the_paper
    (now : pyval) (tool_result : dict) (paper_id : pyval) (w : workflow) :
  truthy (get tool_result "success") = true ->
  lookup "paper_id" tool_result = Some paper_id ->
  (let r := _update_context_with_results now tool_result
              "arxiv_download_paper" w in
   fst r = Returns tt
   /\ downloaded_papers (research_context (snd r))
      = Some (held (downloaded_papers (research_context w)) ++ [paper_id])
   /\ read_papers (research_context (snd r))
      = read_papers (research_context w)
   /\ tool_results (research_context (snd r))
      = Some (held (tool_results (research_context w))
              ++ [tool_results_entry "arxiv_download_paper" tool_result now]))
  /\ (forall (content : dict) (sections : pyval) (sections_found : nat),
         lookup "content" tool_result = Some (PyDict content) ->
         get_default content "sections" (PyDict []) = sections ->
         len sections = Returns sections_found ->
         let r := _update_context_with_results now tool_result
                    "arxiv_read_paper" w in
         fst r = Returns tt
         /\ read_papers (research_context (snd r))
            = Some (held (read_papers (research_context w)) ++ [paper_id])
         /\ extracted_content (research_context (snd r))
            = Some (held (extracted_content (research_context w))
                    ++ [PyDict [("paper_id", paper_id);
                                ("sections_found",
                                 PyInt (Z.of_nat sections_found))]])
         /\ downloaded_papers (research_context (snd r))
            = downloaded_papers (research_context w)
         /\ tool_results (research_context (snd r))
            = Some (held (tool_results (research_context w))
                    ++ [tool_results_entry "arxiv_read_paper" tool_result
                          now])).
Proof.
  intros Hok Hid. split.
  - cbv zeta. unfold _update_context_with_results.
    rewrite Hok, (contains_key_of_lookup _ _ _ Hid),
      (get_of_lookup _ _ _ Hid).
    cbn [in_list existsb String.eqb Ascii.eqb Bool.eqb orb andb].
    destruct w as [c dp ar mx]. destruct c.
    destruct downloaded_papers0, tool_results0; cbn; repeat split.
  - intros content sections sections_found Hcontent Hsections Hlen.
    cbv zeta. unfold _update_context_with_results.
    rewrite Hok, (contains_key_of_lookup _ _ _ Hid),
      (get_of_lookup _ _ _ Hid), (contains_key_of_lookup _ _ _ Hcontent),
      (get_of_lookup _ _ _ Hcontent).
    cbn [in_list existsb String.eqb Ascii.eqb Bool.eqb orb andb method_get].
    rewrite Hsections.
    destruct w as [c dp ar mx]. destruct c.
    merge_steps. rewrite Hlen.
    destruct read_papers0, extracted_content0, tool_results0; cbn;
      repeat split.
Qed.

Lemma successful_download_and_read_record_the_paper_witness :
  let result :=
    [("success", PyBool true); ("paper_id", PyStr "1706.03762");
     ("content", PyDict [("sections", PyDict [("abstract", PyStr "a");
                                               ("method", PyStr "m")])])] in
  downloaded_papers
    (research_context
       (snd (_update_context_with_results PyNone result
               "arxiv_download_paper" (configured 10))))
  = Some [PyStr "1706.03762"]
  /\ extracted_content
       (research_context
          (snd (_update_context_with_results PyNone result
                  "arxiv_read_paper" (configured 10))))
     = Some [PyDict [("paper_id", PyStr "1706.03762");
                     ("sections_found", PyInt 2)]].
Proof.
  cbv zeta.
  destruct (successful_download_and_read_record_the_paper PyNone
              [("success", PyBool true); ("paper_id", PyStr "1706.03762");
               ("content",
                PyDict [("sections", PyDict [("abstract", PyStr "a");
                                              ("method", PyStr "m")])])]
              (PyStr "1706.03762") (configured 10) eq_refl eq_refl)
    as [(_ & Hdown & _) Hread].
  split; [exact Hdown|].
  destruct (Hread [("sections", PyDict [("abstract", PyStr "a");
                                         ("method", PyStr "m")])]
              (PyDict [("abstract", PyStr "a"); ("method", PyStr "m")])
              2 eq_refl eq_refl eq_refl)
    as (_ & _ & Hextracted & _).
  exact Hextracted.
Defined.

Section Counters.

Lemma same_discovered_refl (w : workflow) : same_discovered w w.
Proof. split; reflexivity. Qed.

Lemma same_discovered_trans (a b c : workflow) :
  same_discovered a b -> same_discovered b c -> same_discovered a c.
Proof. unfold same_discovered. intuition congruence. Qed.

Lemma same_analysed_refl (w : workflow) : same_analysed w w.
Proof. split; reflexivity. Qed.

Lemma same_analysed_trans (a b c : workflow) :
  same_analysed a b -> same_analysed b c -> same_analysed a c.
Proof. unfold same_analysed. intuition congruence. Qed.

End Counters.

(** One write, compared under the relation [rel]. *)
Ltac one_write_of rel :=
  let c := fresh "c" in
  intros [c ? ? ?]; destruct c;
  cbv [ensure extend_item update_context extend_discovered append_analysis
       modify bind get_state lift ret item];
  cbn;
  repeat match goal with
         | |- context [match ?x with _ => _ end] => is_var x; destruct x; cbn
         end;
  unfold rel; cbn; repeat split; reflexivity.

Ltac walk_of rel refl trans :=
  repeat match goal with
         | |- relates _ (bind _ _) =>
             apply (relates_bind _ trans); [| intros ?]
         | |- relates _ (ret _) => apply (relates_ret _ refl)
         | |- relates _ (lift _) => apply (relates_lift _ refl)
         | |- relates _ get_state => apply (relates_get_state _ refl)
         | |- relates _ (if ?c then _ else _) => destruct c
         | |- relates _ _ => one_write_of rel
         end.

(** X18. The two counters never go stale: after any call of
    [_update_context_with_results], returning or raising, either
    [discovered_papers] and [papers_count] are both as before, or
    [papers_count] is the length of [discovered_papers]; and likewise for
    [analysis_results] and [analysis_count]. *)
Theorem counters_follow_their_lists
    (now : pyval) (tool_result : dict) (tool_name : string) (w : workflow) :
  let w' := snd (_update_context_with_results now tool_result tool_name w) in
  (same_discovered w w'
   \/ papers_count (research_context w')
      = Some (List.length (discovered_papers w')))
  /\ (same_analysed w w'
      \/ analysis_count (research_context w')
         = Some (List.length (analysis_results w'))).
Proof.
  cbv zeta. unfold _update_context_with_results. split.
  - destruct (in_list tool_name ["arxiv_search_papers"; "arxiv_search"]
              && contains_key "papers" tool_result).
    + destruct w as [c dp ar mx]. destruct c.
      destruct (iterate (get tool_result "papers")) as [papers|e];
        merge_steps;
        [|left; split; reflexivity].
      right.
      destruct (String.eqb tool_name "arxiv_search_papers"); cbn;
        [destruct (downloaded_count papers); cbn|];
        destruct tool_results0; reflexivity.
    + left. cbv iota.
      match goal with
      | |- same_discovered w (snd (?m w)) =>
          assert (H : relates same_discovered m);
            [walk_of same_discovered same_discovered_refl
               same_discovered_trans
            | exact (H w)]
      end.
  - destruct (in_list tool_name ["arxiv_search_papers"; "arxiv_search"]
              && contains_key "papers" tool_result);
      [left;
       match goal with
       | |- same_analysed w (snd (?m w)) =>
           assert (H : relates same_analysed m);
             [walk_of same_analysed same_analysed_refl same_analysed_trans
             | exact (H w)]
       end|].
    destruct (String.eqb tool_name "arxiv_download_paper"
              && truthy (get tool_result "success"));
      [left;
       match goal with
       | |- same_analysed w (snd (?m w)) =>
           assert (H : relates same_analysed m);
             [walk_of same_analysed same_analysed_refl same_analysed_trans
             | exact (H w)]
       end|].
    destruct (String.eqb tool_name "arxiv_read_paper"
              && truthy (get tool_result "success"));
      [left;
       match goal with
       | |- same_analysed w (snd (?m w)) =>
           assert (H : relates same_analysed m);
             [walk_of same_analysed same_analysed_refl same_analysed_trans
             | exact (H w)]
       end|].
    destruct (in_list tool_name ["extract_citations";
                                 "analyze_citation_network"]);
      [left;
       match goal with
       | |- same_analysed w (snd (?m w)) =>
           assert (H : relates same_analysed m);
             [walk_of same_analysed same_analysed_refl same_analysed_trans
             | exact (H w)]
       end|].
    destruct (in_list tool_name ["process_pdf"; "extract_sections"]
              && contains_key "content" tool_result).
    + right. destruct w as [c dp ar mx]. destruct c.
      destruct tool_results0; reflexivity.
    + left.
      match goal with
      | |- same_analysed w (snd (?m w)) =>
          assert (H : relates same_analysed m);
            [walk_of same_analysed same_analysed_refl same_analysed_trans
            | exact (H w)]
      end.
Qed.

(* ===================================================================== *)
(** ** What a whole run leaves behind *)
(* ===================================================================== *)

Section QuietLoop.

Lemma size_held (field : option (list pyval)) :
  size field = List.length (held field).
Proof. destruct field; reflexivity. Qed.

Lemma quiet_refl (m : machine) : quiet m m.
Proof. split; reflexivity. Qed.

Lemma quiet_trans (a b c : machine) : quiet a b -> quiet b c -> quiet a c.
Proof.
  unfold quiet. intros [Hf1 Hn1] [Hf2 Hn2]. split; [congruence | lia].
Qed.

(** On a mapping without the category keys the method writes nothing of
    the frame: at most it creates an empty list. *)
Lemma merge_without_category_keys_keeps_the_frame (now : pyval)
    (tool_result : dict) (tool_name : string) (w : workflow) :
  category_keys_absent tool_result ->
  loop_frame (snd (_update_context_with_results now tool_result tool_name w))
  = loop_frame w.
Proof.
  intros (Hp & Hid & Hc & Hci & Hn & Hsp & Hs).
  unfold _update_context_with_results.
  rewrite Hp, Hid, Hc, Hci, Hn, Hsp, Hs, !andb_false_r.
  destruct w as [c dp ar mx]. destruct c.
  repeat match goal with
         | |- context [if ?b then _ else _] => destruct b
         end;
    cbn;
    repeat match goal with
           | |- context [match ?x with _ => _ end] =>
               is_var x; destruct x; cbn
           end;
    reflexivity.
Qed.

End QuietLoop.

Opaque ToolRegistryActivities.get_available_tools
       ToolRegistryActivities.validate_tool_usage
       ToolRegistryActivities.validate_tool_usage_activity
       DynamicToolActivity.dynamic_tool_activity
       _update_context_with_results String.append.

(** Every pass through the loop body ends in one of the eight ways. *)
Lemma iteration_body_ends (env : environment) (i : nat) (m : machine) :
  pass_ends env i m (fst (iteration_body env i m))
    (snd (iteration_body env i m)).
Proof.
  destruct m as [[c dp ar mx] tr].
  pose (m0 := {| self := {| research_context := c; discovered_papers := dp;
                            analysis_results := ar; max_iterations := mx |};
                 trace := tr |}).
  unfold iteration_body. machine_steps.
  destruct (llm_analyze env _ _) as [next_action|e] eqn:Hcall;
    machine_steps; [|apply (analysis_raised env i m0); exact Hcall].
  destruct (method_get next_action "action" PyNone) as [action|e] eqn:Hget;
    machine_steps;
    [|apply (answer_without_get env i m0 next_action); assumption].
  destruct next_action as [| | | | |answer]; try discriminate Hget.
  cbn [method_get] in Hget. injection Hget as <-.
  change (get_default answer "action" PyNone) with (get answer "action").
  destruct (is_complete (get answer "action")) eqn:Hdone; machine_steps;
    [apply (agent_completed env i m0 answer); assumption|].
  cbn [entry].
  destruct (lookup "tool_name" answer) as [tool_name|] eqn:Hname;
    machine_steps;
    [|apply (nothing_proposed env i m0 answer); auto].
  destruct (lookup "tool_args" answer) as [tool_args|] eqn:Hargs;
    machine_steps;
    [|apply (nothing_proposed env i m0 answer); auto].
  assert (Hprop : proposed_in env i
                    {| research_context := c; discovered_papers := dp;
                       analysis_results := ar; max_iterations := mx |}
                    answer tool_name tool_args)
    by (repeat split; assumption).
  destruct (ToolRegistryActivities.validate_tool_usage_activity
              tool_name tool_args) as [tool_validation|e] eqn:Hvalidate;
    machine_steps;
    [|apply (validation_raised env i m0 answer); assumption].
  destruct (valid tool_validation) eqn:Hvalid; machine_steps.
  - destruct (activity_accepts_only_names _ _ _ Hvalidate Hvalid)
      as [name [-> _]].
    cbn [DynamicToolActivity.dynamic_tool_activity_any
         _update_context_with_results_any].
    match goal with
    | |- context [DynamicToolActivity.dynamic_tool_activity ?ms ?inf ?n ?a] =>
        destruct (dispatch_outcome ms inf n a)
          as [[res H]|[[e H]|[e [H He]]]];
          rewrite H
    end; machine_steps.
    3:{ apply (tool_aborted env i m0 answer name tool_args tool_validation);
          assumption. }
    all: match goal with
    | |- context [_update_context_with_results ?now ?tr ?n ?w] =>
        assert (Habsent : category_keys_absent tr)
          by apply envelopes_have_no_category_keys;
        pose proof (merge_without_category_keys now tr n w Habsent)
          as (Hret & _);
        destruct (_update_context_with_results now tr n w) as [r w']
          eqn:Hmerge
    end;
    cbn [fst] in Hret; subst r; machine_steps;
    apply (tool_merged env i m0 answer name tool_args tool_validation);
    assumption.
  - destruct (activity_rejection_has_reason _ _ _ Hvalidate Hvalid)
      as [why Hwhy].
    rewrite Hwhy. unfold item. machine_steps.
    apply (call_rejected env i m0 answer tool_name tool_args tool_validation);
      assumption.
Qed.

Transparent ToolRegistryActivities.get_available_tools
            ToolRegistryActivities.validate_tool_usage
            ToolRegistryActivities.validate_tool_usage_activity
            DynamicToolActivity.dynamic_tool_activity
            _update_context_with_results String.append.

(** Entering a pass writes [iteration] and [status] only. *)
Lemma entered_frame (i : nat) (w : workflow) :
  loop_frame (entered i w) = loop_frame w
  /\ tool_results (research_context (entered i w))
     = tool_results (research_context w).
Proof. destruct w as [c dp ar mx]. destruct c. split; reflexivity. Qed.

(** An analysis of a pass is a proposal the analyzer can make. *)
Lemma proposed_in_proposes (env : environment) (i : nat) (w : workflow)
    (answer : dict) (tool_name tool_args : pyval) :
  proposed_in env i w answer tool_name tool_args ->
  proposes env tool_name tool_args.
Proof.
  intros (Hcall & _ & Hname & Hargs).
  exists (research_context (entered i w)),
         ToolRegistryActivities.get_available_tools, (PyDict answer).
  auto.
Qed.

(** What the validator raises is an [Exception]. *)
Lemma validation_raises_an_exception (tool_name tool_args : pyval)
    (e : exception) :
  ToolRegistryActivities.validate_tool_usage_activity tool_name tool_args
  = Raises e ->
  is_exception e = true.
Proof.
  assert (Hc : forall v k x, contains v k = Raises x -> is_exception x = true)
    by (intros v k x H; destruct v; cbn in H; try discriminate H;
        injection H as <-; reflexivity).
  assert (Hg : forall v k d x,
             method_get v k d = Raises x -> is_exception x = true)
    by (intros v k d x H; destruct v; cbn in H; try discriminate H;
        injection H as <-; reflexivity).
  assert (Hm : forall required b,
             ToolRegistryActivities.missing_args_of required tool_args
             = Raises b ->
             is_exception b = true).
  { induction required as [|[n d] rest IH]; intros b; cbn;
      [discriminate|].
    destruct (ToolRegistryActivities.is_optional d); [apply IH|].
    destruct (contains tool_args n) eqn:Hcn; cbn;
      [|intros H; injection H as <-; eapply Hc; eassumption].
    destruct (ToolRegistryActivities.missing_args_of rest tool_args) eqn:Hr;
      cbn; [discriminate|].
    intros H; injection H as <-. apply IH. reflexivity. }
  unfold ToolRegistryActivities.validate_tool_usage_activity.
  destruct tool_name as [| | |name| |]; try discriminate;
    try (intros H; injection H as <-; reflexivity).
  destruct (lookup name ToolRegistryActivities.TOOL_DESCRIPTIONS)
    as [tool_desc|]; [|discriminate].
  destruct (ToolRegistryActivities.missing_args_of (args tool_desc) tool_args)
    as [missing|b] eqn:Hmiss; cbn [and_then];
    [|intros H; injection H as <-; eapply Hm; eassumption].
  repeat match goal with
         | |- (if ?b then _ else _) = _ -> _ => destruct b
         | |- and_then (method_get ?v ?k ?d) _ = _ -> _ =>
             let E := fresh "E" in
             destruct (method_get v k d) eqn:E; cbn [and_then];
             [|intros H; injection H as <-; eapply Hg; eassumption]
         | |- match ?l with [] => _ | _ :: _ => _ end = _ -> _ =>
             destruct l
         | |- Returns _ = Raises _ -> _ => discriminate
         end.
Qed.

(** One pass through the loop body writes [iteration], [status] and at
    most one [tool_results] entry, the one of its merge. *)
Lemma iteration_body_quiet (env : environment) (i : nat) (m : machine) :
  quiet m (snd (iteration_body env i m)).
Proof.
  pose proof (iteration_body_ends env i m) as H.
  destruct (iteration_body env i m) as [r m'].
  cbn [fst snd] in *.
  destruct (entered_frame i (self m)) as [Hframe Hresults].
  destruct H; unfold quiet; cbn [self trace];
    try (rewrite Hframe, Hresults; split; reflexivity).
  match goal with
  | Hm : _update_context_with_results ?now ?tr ?n ?w0 = _,
    Ha : category_keys_absent _ |- _ =>
      pose proof (merge_without_category_keys_keeps_the_frame
                    now tr n w0 Ha) as Hq;
      pose proof (merge_without_category_keys now tr n w0 Ha)
        as (_ & Hres & _);
      rewrite Hm in Hq, Hres; cbn [snd] in Hq, Hres
  end.
  rewrite Hq, Hres, Hframe, Hresults. split; [reflexivity|].
  cbn [size]. rewrite length_app, <- size_held. unfold count. cbn. lia.
Qed.

(** A pass through the loop body raises what the analyzer's call, the
    reading of its answer, the validator or a tool raised. *)
Lemma iteration_body_raises (env : environment) (i : nat) (m : machine)
    (e : exception) :
  fst (iteration_body env i m) = Raises e ->
  analysis_fails env e \/ validation_fails env e \/ tool_aborts env e.
Proof.
  pose proof (iteration_body_ends env i m) as H.
  destruct (iteration_body env i m) as [r m'].
  cbn [fst snd] in *. intros ->.
  inversion H; subst.
  - left. left. eauto.
  - left. right. eauto.
  - right. left. eexists. eexists.
    split; [eapply proposed_in_proposes; eassumption | assumption].
  - right. right. exists name, tool_args.
    split; [eapply proposed_in_proposes; eassumption|].
    match goal with
    | Hd : DynamicToolActivity.dynamic_tool_activity _ _ _ _ = Raises _ |- _ =>
        destruct (dispatch_raises_what_the_tool_raised _ _ _ _ _ Hd)
          as [He Hwho]
    end.
    split; [exact Hwho | exact He].
Qed.

(** The dispatches of a pass are merged, but for one that raised. *)
Lemma iteration_body_tally (env : environment) (i : nat) (m : machine) :
  unmerged m (snd (iteration_body env i m)) 0
  \/ (exists e,
         fst (iteration_body env i m) = Raises e
         /\ is_exception e = false
         /\ unmerged m (snd (iteration_body env i m)) 1).
Proof.
  pose proof (iteration_body_ends env i m) as H.
  destruct (iteration_body env i m) as [r m'].
  cbn [fst snd] in *.
  destruct H; unfold unmerged, count; cbn;
    try (left; lia).
  right. exists e. repeat split; [assumption | lia].
Qed.

(** A pass through the loop body stores nothing in [tool_results] but
    entries of the accumulator. *)
Lemma iteration_body_results (env : environment) (i : nat) (m : machine) :
  results_only (self m) ->
  results_only (self (snd (iteration_body env i m))).
Proof.
  intros Hinv.
  pose proof (iteration_body_ends env i m) as H.
  destruct (iteration_body env i m) as [r m'].
  cbn [fst snd] in *.
  destruct (entered_frame i (self m)) as [_ Hresults].
  assert (Hkeep : results_only (entered i (self m)))
    by (unfold results_only; rewrite Hresults; exact Hinv).
  destruct H; cbn [self]; try exact Hkeep.
  match goal with
  | Hm : _update_context_with_results ?now ?tr ?n ?w0 = _,
    Ha : category_keys_absent _ |- _ =>
      pose proof (merge_without_category_keys now tr n w0 Ha)
        as (_ & Hres & _);
      rewrite Hm in Hres; cbn [snd] in Hres
  end.
  unfold results_only. rewrite Hres. cbn [held].
  apply Forall_app. split; [exact Hkeep|].
  apply Forall_cons; [|apply Forall_nil].
  eexists name, _, _. reflexivity.
Qed.

(** A pass through the loop body dispatches only what the validator
    accepted. *)
Lemma iteration_body_dispatches (env : environment) (i : nat) (m : machine) :
  Forall validated_dispatch (trace m) ->
  Forall validated_dispatch (trace (snd (iteration_body env i m))).
Proof.
  intros Hinv.
  pose proof (iteration_body_ends env i m) as H.
  destruct (iteration_body env i m) as [r m'].
  cbn [fst snd] in *.
  destruct H; cbn [trace]; unfold pass_begins;
    repeat (apply Forall_cons;
            [first [exact I
                   | exists tool_validation; split; assumption]|]);
    exact Hinv.
Qed.

(** A pass through the loop body stores what it merges and merges what
    the dispatcher returned. *)
Lemma iteration_body_stores (env : environment) (i : nat) (m : machine) :
  results_match_the_trace env m ->
  results_match_the_trace env (snd (iteration_body env i m)).
Proof.
  unfold results_match_the_trace. intros [Hres Hfollow].
  pose proof (iteration_body_ends env i m) as H.
  destruct (iteration_body env i m) as [r m'].
  cbn [fst snd] in *.
  destruct (entered_frame i (self m)) as [_ Hresults].
  destruct H; cbn [self trace]; unfold pass_begins;
    cbn [stored_results merges_follow_dispatches];
    try (rewrite Hresults; split; [exact Hres | exact Hfollow]);
    try (rewrite Hresults; split; [exact Hres | split; [exact I|]; exact Hfollow]).
  match goal with
  | Hm : _update_context_with_results ?now ?tr ?n ?w0 = _,
    Ha : category_keys_absent _ |- _ =>
      pose proof (merge_without_category_keys now tr n w0 Ha)
        as (_ & Hstored & _);
      rewrite Hm in Hstored; cbn [snd] in Hstored
  end.
  rewrite Hstored, Hresults. cbn [held]. rewrite Hres.
  split; [reflexivity|].
  split; [|exact Hfollow].
  split; [reflexivity|].
  cbn [DynamicToolActivity.dynamic_tool_activity_any]. assumption.
Qed.

(** A pass through the loop body leaves the status at its own
    [iteration_i]. *)
Lemma iteration_body_status (env : environment) (i : nat) (m : machine) :
  status (research_context (self (snd (iteration_body env i m))))
  = Some (Iteration i).
Proof.
  destruct (iteration_body_effect env i m)
    as (evs & _ & _ & _ & _ & _ & _ & _ & H & _).
  exact H.
Qed.

(** What every pass keeps, the loop keeps. *)
Lemma for_range_keeps (P : machine -> Prop) (env : environment) :
  (forall i m, P m -> P (snd (iteration_body env i m))) ->
  forall indices m,
    P m -> P (snd (for_range (iteration_body env) indices m)).
Proof.
  intros Hpass. induction indices as [|i rest IH]; intros m Hinv.
  - exact Hinv.
  - cbn [for_range]. rewrite bind_run.
    pose proof (Hpass i m Hinv) as H1.
    destruct (iteration_body env i m) as [[[|]|e] m1]; cbn [fst snd] in *.
    + apply IH, H1.
    + exact H1.
    + exact H1.
Qed.

Lemma for_range_quiet (env : environment) (indices : list nat) :
  forall m, quiet m (snd (for_range (iteration_body env) indices m)).
Proof.
  intros m. apply (for_range_keeps (quiet m)); [|apply quiet_refl].
  intros i m' H. eapply quiet_trans; [exact H | apply iteration_body_quiet].
Qed.

Lemma for_range_raises (env : environment) (indices : list nat)
    (e : exception) :
  forall m,
    fst (for_range (iteration_body env) indices m) = Raises e ->
    analysis_fails env e \/ validation_fails env e \/ tool_aborts env e.
Proof.
  induction indices as [|i rest IH]; intros m.
  - discriminate.
  - cbn [for_range]. rewrite bind_run.
    pose proof (iteration_body_raises env i m) as H1.
    destruct (iteration_body env i m) as [[[|]|e'] m1]; cbn [fst snd] in *.
    + apply IH.
    + discriminate.
    + intros H. injection H as <-. apply H1. reflexivity.
Qed.

Lemma for_range_tally (env : environment) (indices : list nat) :
  forall m,
    unmerged m (snd (for_range (iteration_body env) indices m)) 0
    \/ (exists e,
           fst (for_range (iteration_body env) indices m) = Raises e
           /\ is_exception e = false
           /\ unmerged m (snd (for_range (iteration_body env) indices m)) 1).
Proof.
  induction indices as [|i rest IH]; intros m.
  - left. unfold unmerged. cbn. lia.
  - cbn [for_range]. rewrite bind_run.
    pose proof (iteration_body_tally env i m) as H1.
    destruct (iteration_body env i m) as [[[|]|e'] m1]; cbn [fst snd] in *.
    + destruct H1 as [H1|(e & He & _)]; [|discriminate He].
      destruct (IH m1) as [H2|(e & He & Hne & H2)];
        [left | right; exists e; split; [exact He|]; split; [exact Hne|]];
        unfold unmerged in *; lia.
    + destruct H1 as [H1|(e & He & _)]; [left; exact H1 | discriminate He].
    + destruct H1 as [H1|(e & He & Hne & H1)]; [left; exact H1|].
      right. exists e. injection He as ->. auto.
Qed.

Lemma for_range_results (env : environment) (indices : list nat) :
  forall m,
    results_only (self m) ->
    results_only (self (snd (for_range (iteration_body env) indices m))).
Proof.
  apply (for_range_keeps (fun m => results_only (self m))).
  apply iteration_body_results.
Qed.

Lemma for_range_dispatches (env : environment) (indices : list nat) :
  forall m,
    Forall validated_dispatch (trace m) ->
    Forall validated_dispatch
      (trace (snd (for_range (iteration_body env) indices m))).
Proof.
  apply (for_range_keeps (fun m => Forall validated_dispatch (trace m))).
  apply iteration_body_dispatches.
Qed.

Lemma for_range_stores (env : environment) (indices : list nat) :
  forall m,
    results_match_the_trace env m ->
    results_match_the_trace env
      (snd (for_range (iteration_body env) indices m)).
Proof.
  apply (for_range_keeps (results_match_the_trace env)).
  apply iteration_body_stores.
Qed.

Lemma run_dispatches (env : environment) (research_query user : string)
    (document : option string) (m : machine) :
  Forall validated_dispatch (trace m) ->
  Forall validated_dispatch
    (trace (snd (run env research_query user document m))).
Proof.
  destruct m as [[c0 dp0 ar0 mx0] tr0]. cbn [trace]. intros Hinv.
  unfold run, run_try, run_except. machine_steps.
  destruct (llm_plan_research env research_query) as [research_plan|e];
    machine_steps;
    [|destruct (is_exception e); machine_steps;
      repeat (apply Forall_cons; [exact I|]); exact Hinv].
  match goal with
  | |- context [for_range (iteration_body env) ?l ?m0] =>
      assert (H0 : Forall validated_dispatch (trace m0))
        by (cbn [trace]; repeat (apply Forall_cons; [exact I|]); exact Hinv);
      pose proof (for_range_dispatches env l m0 H0) as Hloop;
      destruct (for_range (iteration_body env) l m0)
        as [[[]|e] [[c dp ar mx] tr]]
  end; cbn [snd trace] in Hloop; machine_steps.
  - destruct (llm_analyze_summarize env _ _) as [final|e]; machine_steps;
      [|destruct (is_exception e); machine_steps];
      repeat (apply Forall_cons; [exact I|]); exact Hloop.
  - destruct (is_exception e); machine_steps;
      repeat (apply Forall_cons; [exact I|]); exact Hloop.
Qed.

Lemma run_stores (env : environment) (research_query user : string)
    (document : option string) (cap : nat) :
  results_match_the_trace env
    (snd (run env research_query user document (start cap))).
Proof.
  unfold run, run_try, run_except, start, configured. machine_steps.
  destruct (llm_plan_research env research_query) as [research_plan|e];
    machine_steps;
    [|destruct (is_exception e); machine_steps;
      (split; [reflexivity | exact I])].
  match goal with
  | |- context [for_range (iteration_body env) ?l ?m0] =>
      assert (H0 : results_match_the_trace env m0)
        by (split; [reflexivity | exact I]);
      pose proof (for_range_stores env l m0 H0) as [Hres Hfollow];
      destruct (for_range (iteration_body env) l m0)
        as [[[]|e] [[c dp ar mx] tr]]
  end; cbn [snd self trace research_context] in Hres, Hfollow;
    machine_steps.
  - destruct (llm_analyze_summarize env _ _) as [final|e]; machine_steps;
      [|destruct (is_exception e); machine_steps];
      (split; [destruct c; exact Hres | exact Hfollow]).
  - destruct (is_exception e); machine_steps;
      (split; [destruct c; exact Hres | exact Hfollow]).
Qed.

(** How every run ends, from any state of the object: it reports
    success, it reports a failure, or it raises what is no
    [Exception]. *)
Lemma run_ends (env : environment) (research_query user : string)
    (document : option string) (m : machine) :
  let r := run env research_query user document m in
  let c := research_context (self (snd r)) in
  loop_frame (self (snd r))
  = ((Some research_query, Some user, Some document, plan c, summary c,
      error c, None),
     (None, None, None, None),
     ([], [], [], [], [], []),
     (discovered_papers (self m), analysis_results (self m),
      max_iterations (self m)))
  /\ size (tool_results c) + count is_merge (trace m)
     = count is_merge (trace (snd r))
  /\ ((exists final,
          fst r = Returns
                    {| success := true;
                       result_error := None;
                       result_research_context := c;
                       papers_discovered :=
                         Some (List.length (discovered_papers (self m)));
                       result_analysis_count :=
                         Some (List.length (analysis_results (self m)));
                       final_summary := Some final |}
          /\ status c = Some Completed
          /\ summary c = Some final
          /\ error c = None
          /\ unmerged m (snd r) 0
          /\ llm_analyze_summarize env
               (set_summary None (set_status (Some Summarizing) c)) []
             = Returns final)
      \/ (exists e,
             fst r = Returns
                       {| success := false;
                          result_error := Some (exc_str e);
                          result_research_context := c;
                          papers_discovered := None;
                          result_analysis_count := None;
                          final_summary := None |}
             /\ status c = Some Failed
             /\ error c = Some (exc_str e)
             /\ summary c = None
             /\ unmerged m (snd r) 0
             /\ is_exception e = true
             /\ (llm_plan_research env research_query = Raises e
                 \/ analysis_fails env e
                 \/ validation_fails env e
                 \/ (exists c' tools,
                        llm_analyze_summarize env c' tools = Raises e)))
      \/ (exists e,
             fst r = Raises e
             /\ (exists s, status c = Some s /\ terminal s = false)
             /\ error c = None
             /\ summary c = None
             /\ (unmerged m (snd r) 0 \/ unmerged m (snd r) 1)
             /\ is_exception e = false
             /\ (llm_plan_research env research_query = Raises e
                 \/ analysis_fails env e
                 \/ tool_aborts env e
                 \/ (exists c' tools,
                        llm_analyze_summarize env c' tools = Raises e))))
  /\ results_only (self (snd r)).
Proof.
  destruct m as [[c0 dp0 ar0 mx0] tr0].
  unfold run, run_try, run_except. machine_steps.
  destruct (llm_plan_research env research_query) as [research_plan|e]
    eqn:Hplan; machine_steps.
  2:{ destruct (is_exception e) eqn:He; machine_steps;
        (split; [reflexivity|]); (split; [unfold count; cbn; lia|]);
        (split; [|apply Forall_nil]); right; [left|right]; exists e;
        (split; [reflexivity|]).
      - repeat split; auto. unfold unmerged, count; cbn; lia.
      - split; [exists Initializing; split; reflexivity|].
        repeat split; auto. left. unfold unmerged, count; cbn; lia. }
  match goal with
  | |- context [for_range (iteration_body env) ?l ?m0] =>
      pose proof (for_range_quiet env l m0) as [Hframe Hsize];
      pose proof (fun e => for_range_raises env l e m0) as Hraise;
      pose proof (for_range_tally env l m0) as Htally;
      pose proof (for_range_results env l m0 (Forall_nil _)) as Hinv;
      pose proof (for_range_keeps
                    (fun m => exists s,
                         status (research_context (self m)) = Some s
                         /\ terminal s = false)
                    env
                    (fun i m _ =>
                       ex_intro _ (Iteration i)
                         (conj (iteration_body_status env i m) eq_refl))
                    l m0
                    (ex_intro _ PlanningComplete (conj eq_refl eq_refl)))
        as Hstatus;
      destruct (for_range (iteration_body env) l m0)
        as [[[]|e] [[c dp ar mx] tr]]
  end;
    cbn [fst snd self trace research_context] in Hframe, Hsize, Hraise,
      Htally, Hstatus;
    unfold results_only in Hinv;
    cbn [fst snd self research_context] in Hinv;
    unfold loop_frame in Hframe;
    cbn [research_context discovered_papers analysis_results max_iterations
         initial_context set_plan set_status query user_id document_id plan
         summary error updated_focus papers_count papers_downloaded
         analysis_count citation_network downloaded_papers read_papers
         extracted_content citations similar_papers similarity_scores
         tool_results held] in Hframe;
    unfold count in Hsize; cbn [filter is_merge List.length size
                                 tool_results initial_context set_plan
                                 set_status] in Hsize;
    unfold unmerged, count in Htally;
    cbn [trace filter is_merge is_dispatch List.length] in Htally;
    destruct c; cbn in Hframe, Hsize, Hstatus; inversion Hframe; subst;
    machine_steps.
  - assert (Hzero : List.length (filter is_dispatch tr)
                    + List.length (filter is_merge tr0)
                    = List.length (filter is_merge tr)
                      + List.length (filter is_dispatch tr0) + 0)
      by (destruct Htally as [?|(e & He & _)]; [assumption | discriminate He]).
    clear Htally.
    destruct (llm_analyze_summarize env _ _) as [final|e] eqn:Hsum;
      machine_steps.
    + split; [unfold loop_frame; cbn; congruence|].
      split; [unfold count in *; cbn; lia|].
      split; [|exact Hinv].
      left. exists final.
      split; [reflexivity|]. split; [reflexivity|].
      split; [reflexivity|]. split; [reflexivity|].
      split; [unfold unmerged, count; cbn; lia | exact Hsum].
    + destruct (is_exception e) eqn:He; machine_steps.
      * split; [unfold loop_frame; cbn; congruence|].
        split; [unfold count in *; cbn; lia|].
        split; [|exact Hinv].
        right. left. exists e.
        split; [reflexivity|]. split; [reflexivity|].
        split; [reflexivity|]. split; [reflexivity|].
        split; [unfold unmerged, count; cbn; lia|].
        split; [exact He|]. right. right. right. eauto.
      * split; [unfold loop_frame; cbn; congruence|].
        split; [unfold count in *; cbn; lia|].
        split; [|exact Hinv].
        right. right. exists e.
        split; [reflexivity|].
        split; [exists Summarizing; split; reflexivity|].
        split; [reflexivity|]. split; [reflexivity|].
        split; [left; unfold unmerged, count; cbn; lia|].
        split; [exact He|]. right. right. right. eauto.
  - destruct (is_exception e) eqn:He; machine_steps.
    + split; [unfold loop_frame; cbn; congruence|].
      split; [unfold count in *; cbn; lia|].
      split; [|exact Hinv].
      right. left. exists e.
      split; [reflexivity|]. split; [reflexivity|].
      split; [reflexivity|]. split; [reflexivity|].
      split.
      { destruct Htally as [?|(e' & He' & Hne & _)];
          [unfold unmerged, count; cbn; lia|].
        injection He' as <-. congruence. }
      split; [exact He|].
      destruct (Hraise e eq_refl) as [H|[H|(n & a & _ & _ & Hne)]];
        [auto | auto | congruence].
    + split; [unfold loop_frame; cbn; congruence|].
      split; [unfold count in *; cbn; lia|].
      split; [|exact Hinv].
      right. right. exists e.
      split; [reflexivity|].
      split; [exact Hstatus|].
      split; [reflexivity|]. split; [reflexivity|].
      split.
      { destruct Htally as [?|(e' & _ & _ & ?)];
          [left | right]; unfold unmerged, count; cbn; lia. }
      split; [exact He|].
      destruct (Hraise e eq_refl) as [H|[(n & a & _ & Hv)|H]];
        [auto | | auto].
      apply validation_raises_an_exception in Hv. congruence.
Qed.

(** A run whose tool is cancelled raises the cancellation: the first
    pass dispatches the search, nothing is merged, [run] does not reach
    its [except] block and the status stays at [iteration_0]. *)
Lemma cancelled_run_raises :
  fst (run cancelled_while_searching "X" "user" None (start 10))
  = Raises (CancelledError "")
  /\ status
       (research_context
          (self (snd (run cancelled_while_searching "X" "user" None
                        (start 10)))))
     = Some (Iteration 0)
  /\ count is_dispatch
       (trace (snd (run cancelled_while_searching "X" "user" None
                      (start 10)))) = 1
  /\ count is_merge
       (trace (snd (run cancelled_while_searching "X" "user" None
                      (start 10)))) = 0.
Proof. vm_compute. repeat split. Qed.

(** A run whose analyzer proposes [null] arguments fails in its first
    pass with the validator's [AttributeError]. *)
Lemma null_arguments_fail_the_run :
  exists result,
    fst (run proposing_null_arguments "X" "user" None (start 10))
    = Returns result
    /\ success result = false
    /\ result_error result
       = Some "'NoneType' object has no attribute 'get'"
    /\ count is_cycle
         (trace (snd (run proposing_null_arguments "X" "user" None
                        (start 10)))) = 1.
Proof. eexists. vm_compute. repeat split. Qed.

(** X14. In every run, whatever the planner, the analyzer and the tools
    do and whatever the object held before, the only accumulator that
    grows is [tool_results], by one entry for each merge of the run, and a
    run that returns merged every dispatch it made (a run that raises made
    at most one dispatch more): the counters [papers_count],
    [papers_downloaded], [analysis_count] and [citation_network] are never
    written, the category lists ([downloaded_papers], [read_papers],
    [extracted_content], [citations], [similar_papers],
    [similarity_scores]) hold nothing at the end, and [discovered_papers]
    and [analysis_results] are as they were. *)
Theorem only_tool_results_accumulate_in_a_run
    (env : environment) (research_query user : string)
    (document : option string) (m : machine) :
  let r := run env research_query user document m in
  let c := research_context (self (snd r)) in
  (papers_count c = None /\ papers_downloaded c = None
   /\ analysis_count c = None /\ citation_network c = None)
  /\ (size (downloaded_papers c) = 0 /\ size (read_papers c) = 0
      /\ size (extracted_content c) = 0 /\ size (citations c) = 0
      /\ size (similar_papers c) = 0 /\ size (similarity_scores c) = 0)
  /\ discovered_papers (self (snd r)) = discovered_papers (self m)
  /\ analysis_results (self (snd r)) = analysis_results (self m)
  /\ size (tool_results c) + count is_merge (trace m)
     = count is_merge (trace (snd r))
  /\ (forall result,
         fst r = Returns result ->
         size (tool_results c) + count is_dispatch (trace m)
         = count is_dispatch (trace (snd r)))
  /\ (forall e,
         fst r = Raises e ->
         size (tool_results c) + count is_dispatch (trace m)
         <= count is_dispatch (trace (snd r))
         /\ count is_dispatch (trace (snd r))
            <= size (tool_results c) + count is_dispatch (trace m) + 1).
Proof.
  cbv zeta.
  destruct (run_ends env research_query user document m)
    as (Hf & Hn & Hend & _).
  unfold loop_frame in Hf. cbv zeta in Hf, Hn, Hend.
  assert (Hsize : forall field, held field = [] -> size field = 0)
    by (intros [l|]; cbn; [intros ->|]; reflexivity).
  split; [repeat split; congruence|].
  split; [repeat split; apply Hsize; congruence|].
  split; [congruence|]. split; [congruence|].
  split; [exact Hn|].
  unfold unmerged in Hend.
  destruct Hend as [(final & Hr & _ & _ & _ & Hz & _)
                   |[(e & Hr & _ & _ & _ & Hz & _)
                    |(e & Hr & _ & _ & _ & Hz & _)]];
    rewrite Hr; split; try discriminate; intros x Hx; lia.
Qed.


(** X16. [run] replaces the context wholesale: the final context holds
    the query, the user and the document of this call, and a focus
    signalled before the run is gone ([updated_focus] is absent at the
    end); a focus signalled after the run is kept under [updated_focus]
    and changes nothing the status query reports. *)
Theorem focus_signal_survives_only_after_the_context_is_set_up
    (env : environment) (research_query user new_focus : string)
    (document : option string) (m : machine) :
  let signalled :=
    {| self := snd (update_research_focus new_focus (self m));
       trace := trace m |} in
  let early := run env research_query user document signalled in
  let late := update_research_focus new_focus
                (self (snd (run env research_query user document m))) in
  (query (research_context (self (snd early))) = Some research_query
   /\ user_id (research_context (self (snd early))) = Some user
   /\ document_id (research_context (self (snd early))) = Some document
   /\ updated_focus (research_context (self (snd early))) = None)
  /\ fst late = Returns tt
  /\ updated_focus (research_context (snd late)) = Some new_focus
  /\ get_current_status (snd late)
     = get_current_status
         (self (snd (run env research_query user document m))).
Proof.
  cbv zeta. split.
  - match goal with
    | |- context [run env research_query user document ?m0] =>
        destruct (run_ends env research_query user document m0)
          as (Hf & _ & _ & _)
    end.
    unfold loop_frame in Hf. cbv zeta in Hf.
    repeat split; congruence.
  - destruct (snd (run env research_query user document m))
      as [[c dp ar mx] tr].
    destruct c. repeat split.
Qed.

(** X17. The status query before and after a run.  On a fresh object it
    answers ["unknown"], iteration 0 and two zero counts.  After a run of
    a fresh object with cap [cap] that returned it answers ["completed"]
    when the run reported success and ["failed"] otherwise; after one
    that raised it answers the state the run was in, which is neither.
    In both cases the iteration it answers is below [cap], or 0 when
    [cap] is 0, and the two counts are still zero. *)
Theorem status_query_before_and_after_a_run
    (env : environment) (research_query user : string)
    (document : option string) (cap : nat) :
  let r := run env research_query user document (start cap) in
  let answer := get_current_status (self (snd r)) in
  get_current_status (self (start cap))
  = {| CurrentStatus.status := "unknown";
       CurrentStatus.iteration := 0;
       CurrentStatus.papers_discovered := 0;
       CurrentStatus.analysis_count := 0 |}
  /\ (forall result,
         fst r = Returns result ->
         CurrentStatus.status answer
         = (if success result then "completed" else "failed"))
  /\ (forall e,
         fst r = Raises e ->
         exists s,
           terminal s = false
           /\ CurrentStatus.status answer = status_string s)
  /\ (cap = 0 -> CurrentStatus.iteration answer = 0)
  /\ (0 < cap -> CurrentStatus.iteration answer < cap)
  /\ CurrentStatus.papers_discovered answer = 0
  /\ CurrentStatus.analysis_count answer = 0.
Proof.
  cbv zeta. split; [reflexivity|].
  destruct (run_ends env research_query user document (start cap))
    as (_ & _ & Hend & _).
  destruct (run_effect env research_query user document cap)
    as (Hdp & Har & _ & Hiter).
  cbv zeta in Hend, Hdp, Har, Hiter.
  unfold get_current_status.
  cbn [CurrentStatus.status CurrentStatus.iteration
       CurrentStatus.papers_discovered CurrentStatus.analysis_count].
  rewrite Hdp, Har.
  split; [|split; [|split; [|split; [|split; reflexivity]]]].
  - intros result Hres.
    destruct Hend as [(final & Hr & Hst & _)
                     |[(e & Hr & Hst & _) | (e & Hr & _)]];
      rewrite Hr in Hres; try discriminate Hres;
      injection Hres as <-; rewrite Hst; reflexivity.
  - intros e Hres.
    destruct Hend as [(final & Hr & _)
                     |[(e' & Hr & _) | (e' & Hr & (s & Hst & Hterm) & _)]];
      rewrite Hr in Hres; try discriminate Hres.
    exists s. rewrite Hst. auto.
  - intros ->.
    destruct Hiter as [(e & _ & _ & _ & _ & ->)
                      |[(e & _ & _ & _ & _ & ->)
                       |(plan & passes & evs & how & _ & Hle & _ & _
                         & -> & _)]]; lia.
  - intros Hcap.
    destruct Hiter as [(e & _ & _ & _ & _ & ->)
                      |[(e & _ & _ & _ & _ & ->)
                       |(plan & passes & evs & how & _ & Hle & _ & _
                         & -> & _)]]; lia.
Qed.

(** X25. A run dispatches only calls that the validator accepted.  For
    every dispatch recorded in a run of a fresh object, the tool name is
    a string, the validator the workflow calls returns on that name with
    those arguments and accepts them, the name is one of
    [get_available_tools], and the dispatcher resolves a handler for it
    or fails importing it: it never answers that the tool is not in its
    registry. *)
Theorem runs_dispatch_only_validated_calls
    (env : environment) (research_query user : string)
    (document : option string) (cap : nat)
    (tool_name tool_args : pyval) :
  In (Dispatch tool_name tool_args)
     (trace (snd (run env research_query user document (start cap)))) ->
  exists name tool_validation,
    tool_name = PyStr name
    /\ ToolRegistryActivities.validate_tool_usage_activity
         tool_name tool_args
       = Returns tool_validation
    /\ valid tool_validation = true
    /\ in_list name ToolRegistryActivities.get_available_tools = true
    /\ DynamicToolActivity._get_tool_handler (modules env) name
       <> Returns None.
Proof.
  intros Hin.
  pose proof (run_dispatches env research_query user document (start cap)
                (Forall_nil _)) as Hall.
  rewrite Forall_forall in Hall. specialize (Hall _ Hin).
  cbn [validated_dispatch] in Hall.
  destruct Hall as (tool_validation & Hvalidate & Hvalid).
  destruct (activity_accepts_only_names _ _ _ Hvalidate Hvalid)
    as [name [-> Hkey]].
  assert (Hlisted : in_list name
                      ToolRegistryActivities.get_available_tools = true).
  { destruct (in_list name ToolRegistryActivities.get_available_tools)
      eqn:E; [reflexivity|].
    apply lookup_none_of_not_listed in E.
    unfold contains_key in Hkey. rewrite E in Hkey. discriminate Hkey. }
  exists name, tool_validation.
  split; [reflexivity|]. split; [exact Hvalidate|].
  split; [exact Hvalid|]. split; [exact Hlisted|].
  intros Hnone. apply no_handler_iff_not_listed in Hnone. congruence.
Qed.

Lemma runs_dispatch_only_validated_calls_witness :
  exists name tool_validation,
    PyStr "arxiv_search_papers" = PyStr name
    /\ ToolRegistryActivities.validate_tool_usage_activity
         (PyStr "arxiv_search_papers") (PyDict [("query", PyStr "X")])
       = Returns tool_validation
    /\ valid tool_validation = true
    /\ in_list name ToolRegistryActivities.get_available_tools = true
    /\ DynamicToolActivity._get_tool_handler (modules searching) name
       <> Returns None.
Proof.
  apply (runs_dispatch_only_validated_calls searching "X" "user" None 1).
  vm_compute.
  repeat first [left; reflexivity | right].
Defined.

(** X29. What [tool_results] holds after a run of a fresh object: exactly
    one entry for each merge of the run, in order, each holding the tool
    name, the merged result and the clock as it stood when the merge
    began; every merge comes right after a dispatch of the same tool and
    merges the envelope the dispatcher returned for that call; and a run
    that returns merged every dispatch it made. *)
Theorem tool_results_are_the_dispatched_envelopes
    (env : environment) (research_query user : string)
    (document : option string) (cap : nat) :
  let r := run env research_query user document (start cap) in
  held (tool_results (research_context (self (snd r))))
  = stored_results env (trace (snd r))
  /\ merges_follow_dispatches env (trace (snd r))
  /\ List.length (stored_results env (trace (snd r)))
     = count is_merge (trace (snd r))
  /\ (forall result,
         fst r = Returns result ->
         List.length (stored_results env (trace (snd r)))
         = count is_dispatch (trace (snd r))).
Proof.
  cbv zeta.
  destruct (run_stores env research_query user document cap)
    as [Hres Hfollow].
  split; [exact Hres|]. split; [exact Hfollow|].
  rewrite <- Hres, <- size_held.
  destruct (run_ends env research_query user document (start cap))
    as (_ & Hn & Hend & _).
  cbv zeta in Hn, Hend. cbn [start trace] in Hn.
  unfold count in Hn at 1. cbn [filter List.length] in Hn.
  split; [lia|].
  intros result Hret. unfold unmerged in Hend. cbn [start trace] in Hend.
  unfold count in Hend at 2 3 6 7.
  destruct Hend as [(final & _ & _ & _ & _ & Hz & _)
                   |[(e & _ & _ & _ & _ & Hz & _)
                    |(e & Hr & _)]];
    [| |rewrite Hr in Hret; discriminate Hret];
    unfold count in *; cbn [filter List.length] in Hz; lia.
Qed.

(* ===================================================================== *)
(** ** The LLM activities and the runs they serve *)
(* ===================================================================== *)

Section LlmAnswers.

Variable complete : LlmActivities.request -> outcome pyval.
Variable json_loads : pyval -> outcome pyval.

Lemma summary_answers (c : context) :
  (exists answer,
      LlmActivities._generate_research_summary complete c
      = Returns (PyDict answer))
  \/ (exists e,
         LlmActivities._generate_research_summary complete c = Raises e
         /\ is_exception e = false
         /\ complete (LlmActivities.SummaryRequest c) = Raises e).
Proof.
  unfold LlmActivities._generate_research_summary.
  destruct (complete (LlmActivities.SummaryRequest c)) as [text|e];
    cbn [and_then try_except].
  - left.
    destruct (LlmActivities.tool_set (held (tool_results c)) [])
      as [tools|e] eqn:Hset; cbn [and_then try_except];
      [eexists; reflexivity|].
    assert (He : is_exception e = true).
    { revert Hset. generalize (@nil LlmActivities.hashed).
      induction (held (tool_results c)) as [|result rest IH];
        intros seen; cbn [LlmActivities.tool_set]; [discriminate|].
      destruct result; cbn [method_get and_then];
        try (intros H; injection H as <-; reflexivity).
      match goal with
      | |- context [LlmActivities.hash_key ?v] =>
          destruct v; cbn [LlmActivities.hash_key and_then];
            try (intros H; injection H as <-; reflexivity); apply IH
      end. }
    rewrite He. eexists; reflexivity.
  - destruct (is_exception e) eqn:He; [left; eexists; reflexivity|].
    right. exists e. auto.
Qed.

Lemma next_action_answers (c : context) (tools : list string)
    (kind : string) :
  String.eqb kind "summarize" = false ->
  (exists content answer,
      complete (LlmActivities.NextActionRequest c tools) = Returns content
      /\ json_loads content = Returns (PyDict answer)
      /\ LlmActivities.llm_analyze complete json_loads c tools kind
         = Returns (PyDict answer))
  \/ (exists e,
         LlmActivities.llm_analyze complete json_loads c tools kind
         = Returns (PyDict [("action", PyStr "complete");
                            ("reason",
                             PyStr ("Analysis failed: " +++ exc_str e));
                            ("error", PyBool true)]))
  \/ (exists e,
         LlmActivities.llm_analyze complete json_loads c tools kind
         = Raises e
         /\ provider_aborts complete json_loads
              (LlmActivities.NextActionRequest c tools) e).
Proof.
  intros Hkind. unfold LlmActivities.llm_analyze, provider_aborts.
  rewrite Hkind.
  destruct (complete (LlmActivities.NextActionRequest c tools))
    as [content|e] eqn:Hc; cbn [and_then try_except].
  2:{ destruct (is_exception e) eqn:He;
        [right; left; eexists; reflexivity|].
      right. right. exists e. auto. }
  destruct (json_loads content) as [analysis|e] eqn:Hj;
    cbn [and_then try_except].
  2:{ destruct (is_exception e) eqn:He;
        [right; left; eexists; reflexivity|].
      right. right. exists e. split; [reflexivity|].
      split; [exact He|]. right. exists content. auto. }
  destruct analysis as [| b | n | s | items | entries];
    cbn [method_get and_then try_except AttributeError is_exception];
    try (right; left; eexists; reflexivity).
  left. exists content, entries. auto.
Qed.

End LlmAnswers.


(** X20. The LLM activities answer with a mapping whatever the provider
    and the JSON reader return or raise as an [Exception]; only an
    exception that is no [Exception] passes through them.
    [llm_plan_research] answers with the parsed plan, or with
    [success = False] and a fallback plan whose [key_concepts] and
    [search_terms] are the query itself.  [llm_analyze] other than for a
    summary answers with the provider's JSON object as it is, or, when
    the completion failed, was not JSON or was not an object, with
    [{"action": "complete", "reason": "Analysis failed: ...",
    "error": True}]; for a summary it answers with a mapping too. *)
Theorem llm_activities_always_answer
    (complete : LlmActivities.request -> outcome pyval)
    (json_loads : pyval -> outcome pyval) :
  (forall research_query,
      (exists content plan,
          complete (LlmActivities.PlanRequest research_query)
          = Returns content
          /\ json_loads content = Returns plan
          /\ LlmActivities.llm_plan_research complete json_loads
               research_query
             = Returns (PyDict [("success", PyBool true);
                                ("plan", plan);
                                ("query", PyStr research_query)]))
      \/ (exists e,
             LlmActivities.llm_plan_research complete json_loads
               research_query
             = Returns
                 (PyDict [("success", PyBool false);
                          ("error", PyStr (exc_str e));
                          ("fallback_plan",
                           PyDict [("key_concepts",
                                    PyList [PyStr research_query]);
                                   ("search_terms",
                                    PyList [PyStr research_query]);
                                   ("strategy", PyStr "basic_search")])]))
      \/ (exists e,
             LlmActivities.llm_plan_research complete json_loads
               research_query
             = Raises e
             /\ provider_aborts complete json_loads
                  (LlmActivities.PlanRequest research_query) e))
  /\ (forall c tools kind,
         (exists answer,
             LlmActivities.llm_analyze complete json_loads c tools kind
             = Returns (PyDict answer)
             /\ (String.eqb kind "summarize" = false ->
                 (exists content,
                     complete (LlmActivities.NextActionRequest c tools)
                     = Returns content
                     /\ json_loads content = Returns (PyDict answer))
                 \/ (get answer "action" = PyStr "complete"
                     /\ get answer "error" = PyBool true
                     /\ contains_key "tool_name" answer = false)))
         \/ (exists e,
                LlmActivities.llm_analyze complete json_loads c tools kind
                = Raises e
                /\ provider_aborts complete json_loads
                     (if String.eqb kind "summarize"
                      then LlmActivities.SummaryRequest c
                      else LlmActivities.NextActionRequest c tools) e))
  /\ ((forall r e, complete r = Raises e -> is_exception e = true) ->
      (forall content e,
          json_loads content = Raises e -> is_exception e = true) ->
      (forall research_query,
          exists answer,
            LlmActivities.llm_plan_research complete json_loads
              research_query
            = Returns (PyDict answer))
      /\ (forall c tools kind,
             exists answer,
               LlmActivities.llm_analyze complete json_loads c tools kind
               = Returns (PyDict answer))).
Proof.
  assert (Hplan : forall research_query,
      (exists content plan,
          complete (LlmActivities.PlanRequest research_query)
          = Returns content
          /\ json_loads content = Returns plan
          /\ LlmActivities.llm_plan_research complete json_loads
               research_query
             = Returns (PyDict [("success", PyBool true);
                                ("plan", plan);
                                ("query", PyStr research_query)]))
      \/ (exists e,
             LlmActivities.llm_plan_research complete json_loads
               research_query
             = Returns
                 (PyDict [("success", PyBool false);
                          ("error", PyStr (exc_str e));
                          ("fallback_plan",
                           PyDict [("key_concepts",
                                    PyList [PyStr research_query]);
                                   ("search_terms",
                                    PyList [PyStr research_query]);
                                   ("strategy", PyStr "basic_search")])]))
      \/ (exists e,
             LlmActivities.llm_plan_research complete json_loads
               research_query
             = Raises e
             /\ provider_aborts complete json_loads
                  (LlmActivities.PlanRequest research_query) e)).
  { intros research_query.
    unfold LlmActivities.llm_plan_research, provider_aborts.
    destruct (complete (LlmActivities.PlanRequest research_query))
      as [content|e] eqn:Hc; cbn [and_then try_except].
    2:{ destruct (is_exception e) eqn:He;
          [right; left; eexists; reflexivity|].
        right. right. exists e. auto. }
    destruct (json_loads content) as [plan|e] eqn:Hj;
      cbn [and_then try_except].
    2:{ destruct (is_exception e) eqn:He;
          [right; left; eexists; reflexivity|].
        right. right. exists e. split; [reflexivity|].
        split; [exact He|]. right. exists content. auto. }
    left. eauto. }
  assert (Hanalyze : forall c tools kind,
         (exists answer,
             LlmActivities.llm_analyze complete json_loads c tools kind
             = Returns (PyDict answer)
             /\ (String.eqb kind "summarize" = false ->
                 (exists content,
                     complete (LlmActivities.NextActionRequest c tools)
                     = Returns content
                     /\ json_loads content = Returns (PyDict answer))
                 \/ (get answer "action" = PyStr "complete"
                     /\ get answer "error" = PyBool true
                     /\ contains_key "tool_name" answer = false)))
         \/ (exists e,
                LlmActivities.llm_analyze complete json_loads c tools kind
                = Raises e
                /\ provider_aborts complete json_loads
                     (if String.eqb kind "summarize"
                      then LlmActivities.SummaryRequest c
                      else LlmActivities.NextActionRequest c tools) e)).
  { intros c tools kind.
    destruct (String.eqb kind "summarize") eqn:Hkind.
    - unfold LlmActivities.llm_analyze. rewrite Hkind.
      destruct (summary_answers complete c)
        as [[answer Ha]|(e & Ha & He & Hc)].
      + left. exists answer. split; [exact Ha | discriminate].
      + right. exists e. split; [exact Ha|]. split; [exact He|]. auto.
    - destruct (next_action_answers complete json_loads c tools kind Hkind)
        as [(content & answer & Hc & Hj & Ha) | [(e & Ha) | (e & Ha & Hp)]].
      + left. exists answer. split; [exact Ha|]. intros _. left. eauto.
      + left. eexists. split; [exact Ha|]. intros _. right. repeat split.
      + right. exists e. auto. }
  split; [exact Hplan|]. split; [exact Hanalyze|].
  intros Hc Hj. split.
  - intros research_query.
    destruct (Hplan research_query)
      as [(content & plan & _ & _ & H) | [(e & H) | (e & _ & He & Hwho)]];
      [eexists; exact H | eexists; exact H | exfalso].
    destruct Hwho as [H|(content & _ & H)];
      [apply Hc in H | apply Hj in H]; congruence.
  - intros c tools kind.
    destruct (Hanalyze c tools kind)
      as [(answer & H & _) | (e & _ & He & Hwho)];
      [eexists; exact H | exfalso].
    destruct Hwho as [H|(content & _ & H)];
      [apply Hc in H | apply Hj in H]; congruence.
Qed.

(** X21. A provider outage is reported as a success.  When the LLM
    activities are those of [llm_activities.py] and every completion
    fails, a run still returns [success = True] with status [completed]:
    the plan is the fallback plan for the query, the analyzer's failure
    reads as ["complete"], so the loop stops in its first pass without
    validating or dispatching a tool, and the summary attached is the
    fallback summary with [success = False]. *)
Theorem provider_outage_is_reported_as_success
    (env : environment)
    (complete : LlmActivities.request -> outcome pyval)
    (json_loads : pyval -> outcome pyval)
    (research_query user : string) (document : option string) (cap : nat) :
  served_by env complete json_loads ->
  outage complete ->
  let r := run env research_query user document (start cap) in
  let c := research_context (self (snd r)) in
  exists result planning_error summary_error,
    fst r = Returns result
    /\ success result = true
    /\ result_error result = None
    /\ status c = Some Completed
    /\ error c = None
    /\ plan c
       = Some (PyDict [("success", PyBool false);
                       ("error", PyStr planning_error);
                       ("fallback_plan",
                        PyDict [("key_concepts",
                                 PyList [PyStr research_query]);
                                ("search_terms",
                                 PyList [PyStr research_query]);
                                ("strategy", PyStr "basic_search")])])
    /\ final_summary result
       = Some (PyDict [("success", PyBool false);
                       ("error", PyStr summary_error);
                       ("fallback_summary",
                        PyStr "Research summary could not be generated due to technical issues.")])
    /\ summary c = final_summary result
    /\ iteration c = Some 0
    /\ tool_results c = None
    /\ count is_dispatch (trace (snd r)) = 0
    /\ count is_analyze (trace (snd r)) = Nat.min 1 cap.
Proof.
  intros (Hplan & Hnext & Hsum) Hout. cbv zeta.
  assert (Hp : exists e,
             llm_plan_research env research_query
             = Returns
                 (PyDict [("success", PyBool false);
                          ("error", PyStr (exc_str e));
                          ("fallback_plan",
                           PyDict [("key_concepts",
                                    PyList [PyStr research_query]);
                                   ("search_terms",
                                    PyList [PyStr research_query]);
                                   ("strategy", PyStr "basic_search")])])).
  { destruct (Hout (LlmActivities.PlanRequest research_query))
      as [e [He Hexc]].
    exists e. rewrite Hplan. unfold LlmActivities.llm_plan_research.
    rewrite He. cbn [and_then try_except]. rewrite Hexc. reflexivity. }
  assert (Hn : forall c tools,
             exists answer,
               llm_analyze env c tools = Returns (PyDict answer)
               /\ is_complete (get answer "action") = true).
  { intros c tools. rewrite Hnext.
    destruct (Hout (LlmActivities.NextActionRequest c tools))
      as [e [He Hexc]].
    unfold LlmActivities.llm_analyze.
    cbn [String.eqb Ascii.eqb Bool.eqb]. rewrite He.
    cbn [and_then try_except]. rewrite Hexc.
    eexists. split; reflexivity. }
  assert (Hs : forall c tools,
             exists e,
               llm_analyze_summarize env c tools
               = Returns
                   (PyDict [("success", PyBool false);
                            ("error", PyStr (exc_str e));
                            ("fallback_summary",
                             PyStr "Research summary could not be generated due to technical issues.")])).
  { intros c tools.
    destruct (Hout (LlmActivities.SummaryRequest c)) as [e [He Hexc]].
    exists e. rewrite Hsum. unfold LlmActivities.llm_analyze.
    cbn [String.eqb Ascii.eqb Bool.eqb].
    unfold LlmActivities._generate_research_summary. rewrite He.
    cbn [and_then try_except]. rewrite Hexc. reflexivity. }
  clear Hplan Hnext Hsum Hout.
  destruct Hp as [ep Hp].
  unfold run, run_try, start, configured. machine_steps.
  rewrite Hp. machine_steps.
  destruct cap as [|cap].
  - cbn [seq for_range]. machine_steps.
    match goal with
    | |- context [llm_analyze_summarize env ?c ?t] =>
        destruct (Hs c t) as [es Hes]; rewrite Hes
    end.
    machine_steps.
    eexists. exists (exc_str ep), (exc_str es).
    split; [reflexivity|]. repeat split.
  - cbn [seq for_range]. unfold iteration_body. machine_steps.
    match goal with
    | |- context [llm_analyze env ?c ?t] =>
        destruct (Hn c t) as (answer & Hcall & Hdone); rewrite Hcall
    end.
    machine_steps. cbn [method_get]. machine_steps.
    change (get_default answer "action" PyNone) with (get answer "action").
    rewrite Hdone. machine_steps.
    match goal with
    | |- context [llm_analyze_summarize env ?c ?t] =>
        destruct (Hs c t) as [es Hes]; rewrite Hes
    end.
    machine_steps.
    eexists. exists (exc_str ep), (exc_str es).
    split; [reflexivity|]. repeat split.
Qed.

Lemma provider_outage_is_reported_as_success_witness :
  exists result,
    fst (run offline "vision transformer" "user" None (start 10))
    = Returns result
    /\ success result = true
    /\ count is_dispatch
         (trace (snd (run offline "vision transformer" "user" None
                        (start 10)))) = 0.
Proof.
  destruct (provider_outage_is_reported_as_success
              offline unreachable unread "vision transformer" "user" None 10)
    as (result & _ & _ & Hr & Hs & _ & _ & _ & _ & _ & _ & _ & _ & Hd & _).
  - split; [reflexivity|]. split; reflexivity.
  - intros r. eexists. split; reflexivity.
  - exists result. auto.
Defined.


Section SummaryStatistics.

Lemma tool_set_of_results (results : list pyval) :
  Forall is_result_entry results ->
  forall seen,
    exists tools,
      LlmActivities.tool_set results seen = Returns tools
      /\ List.length seen <= List.length tools
      /\ List.length tools <= List.length seen + List.length results
      /\ (results <> [] -> 0 < List.length tools).
Proof.
  induction 1 as [|entry results Hentry _ IH]; intros seen.
  - exists seen. cbn. repeat split; try lia. congruence.
  - destruct Hentry as (tool_name & tool_result & now & ->).
    cbn [LlmActivities.tool_set].
    unfold tool_results_entry, method_get, get_default. cbn [lookup].
    cbn [String.eqb Ascii.eqb Bool.eqb and_then LlmActivities.hash_key].
    match goal with
    | |- context [LlmActivities.tool_set results ?seen'] =>
        destruct (IH seen') as (tools & Hrun & Hlow & Hhigh & _);
        assert (Hgrown : List.length seen <= List.length seen'
                         /\ List.length seen' <= S (List.length seen)
                         /\ 0 < List.length seen')
    end.
    { destruct (existsb _ seen) eqn:Hex.
      - split; [lia|]. split; [lia|].
        destruct seen; [discriminate Hex | cbn; lia].
      - rewrite length_app. cbn. lia. }
    exists tools. split; [exact Hrun|]. cbn [List.length].
    repeat split; lia.
Qed.

End SummaryStatistics.

(** X22. What the summary's statistics count.  In a run served by the
    activities of [llm_activities.py] that ends [completed], the summary
    request is made from the final context (but for [status] and
    [summary]).  When its completion returns, the summary attached has
    [success = True], the provider's text, and statistics in which
    [papers_analyzed] is the number of tool dispatches of the run,
    [iterations_completed] is the final [iteration] (the index of the
    last pass), and [tools_used] is at most the number of dispatches and
    positive when there was one.  When it fails, the fallback summary is
    attached. *)
Theorem summary_stats_count_tool_calls
    (env : environment)
    (complete : LlmActivities.request -> outcome pyval)
    (json_loads : pyval -> outcome pyval)
    (research_query user : string) (document : option string) (cap : nat) :
  served_by env complete json_loads ->
  let r := run env research_query user document (start cap) in
  let c := research_context (self (snd r)) in
  let asked :=
    LlmActivities.SummaryRequest
      (set_summary None (set_status (Some Summarizing) c)) in
  let dispatches := count is_dispatch (trace (snd r)) in
  status c = Some Completed ->
  (forall text,
      complete asked = Returns text ->
      exists used,
        summary c
        = Some (PyDict
                  [("success", PyBool true);
                   ("summary", text);
                   ("research_stats",
                    PyDict [("papers_analyzed",
                             PyInt (Z.of_nat dispatches));
                            ("iterations_completed",
                             PyInt (Z.of_nat match iteration c with
                                             | Some i => i
                                             | None => 0
                                             end));
                            ("tools_used", PyInt (Z.of_nat used))])])
        /\ used <= dispatches
        /\ (0 < dispatches -> 0 < used))
  /\ (forall e,
         complete asked = Raises e ->
         summary c
         = Some (PyDict
                   [("success", PyBool false);
                    ("error", PyStr (exc_str e));
                    ("fallback_summary",
                     PyStr "Research summary could not be generated due to technical issues.")])).
Proof.
  intros Hserved. cbv zeta. intros Hcompleted.
  destruct Hserved as (_ & _ & Hsum).
  destruct (run_ends env research_query user document (start cap))
    as (_ & Hcount & [(final & _ & _ & Hsummary & _ & Hz & Hcall)
                     |[(e & _ & Hst & _)
                      |(e & _ & (s & Hst & Hterm) & _)]] & Hinv).
  2:{ cbv zeta in Hst. congruence. }
  2:{ cbv zeta in Hst. rewrite Hst in Hcompleted.
      injection Hcompleted as ->. discriminate Hterm. }
  cbv zeta in Hcount, Hcall, Hsummary.
  rewrite Hsum in Hcall. unfold LlmActivities.llm_analyze in Hcall.
  cbn [String.eqb Ascii.eqb Bool.eqb] in Hcall.
  unfold LlmActivities._generate_research_summary in Hcall.
  unfold results_only in Hinv. unfold unmerged in Hz.
  cbn [start trace] in Hcount, Hz. unfold count in Hcount at 1.
  unfold count in Hz at 2 4.
  cbn [filter List.length] in Hcount, Hz.
  rewrite Nat.add_0_r, size_held in Hcount.
  destruct (snd (run env research_query user document (start cap)))
    as [[c dp ar mx] tr].
  cbn [self trace research_context] in *. destruct c.
  cbn [set_summary set_status tool_results iteration summary] in *.
  assert (Hsame : List.length (held tool_results0) = count is_dispatch tr)
    by lia.
  split.
  - intros text Htext. rewrite Htext in Hcall. cbn [and_then] in Hcall.
    destruct (tool_set_of_results _ Hinv [])
      as (tools & Hrun & _ & Hhigh & Hpos).
    rewrite Hrun in Hcall. cbn in Hcall. injection Hcall as <-.
    exists (List.length tools). rewrite Hsummary, Hsame.
    split; [reflexivity|]. cbn [List.length] in Hhigh.
    split; [lia|]. intros Hsome. apply Hpos.
    intros Hnil. rewrite Hnil in Hsame. cbn in Hsame. lia.
  - intros e He. rewrite He in Hcall. cbn [and_then try_except] in Hcall.
    destruct (is_exception e); [|discriminate Hcall].
    injection Hcall as <-. exact Hsummary.
Qed.

Lemma summary_stats_count_tool_calls_witness :
  exists used,
    summary
      (research_context (self (snd (run online "X" "user" None (start 2)))))
    = Some (PyDict
              [("success", PyBool true);
               ("summary", PyStr "text");
               ("research_stats",
                PyDict [("papers_analyzed", PyInt 2);
                        ("iterations_completed", PyInt 1);
                        ("tools_used", PyInt (Z.of_nat used))])])
    /\ used <= 2.
Proof.
  destruct (summary_stats_count_tool_calls
              online answering reading_a_search "X" "user" None 2)
    as [Hstats _].
  - split; [reflexivity|]. split; reflexivity.
  - reflexivity.
  - destruct (Hstats (PyStr "text") eq_refl) as (used & Hsum & Hle & _).
    exists used. split; [|exact Hle].
    rewrite Hsum. reflexivity.
Defined.

(* ===================================================================== *)
(** ** The helpers of the citation network analysis *)
(* ===================================================================== *)

Section SortedReverse.

Context {A : Type} (key : A -> nat).

Lemma insert_reverse_perm (x : A) (l : list A) :
  Permutation (PyList.insert_reverse key x l) (x :: l).
Proof.
  induction l as [|y l IH]; simpl; [apply Permutation_refl|].
  destruct (key y <=? key x)%nat; [apply Permutation_refl|].
  eapply Permutation_trans; [apply perm_skip, IH | apply perm_swap].
Qed.

Lemma sorted_reverse_perm (l : list A) :
  Permutation (PyList.sorted_reverse key l) l.
Proof.
  induction l as [|x l IH]; simpl; [apply Permutation_refl|].
  eapply Permutation_trans; [apply insert_reverse_perm|].
  apply perm_skip, IH.
Qed.

Lemma insert_reverse_sorted (x : A) (l : list A) :
  StronglySorted (PyList.descending key) l ->
  StronglySorted (PyList.descending key) (PyList.insert_reverse key x l).
Proof.
  induction 1 as [|y l Hl IH Hy]; simpl.
  - apply SSorted_cons; [apply SSorted_nil | apply Forall_nil].
  - destruct (key y <=? key x)%nat eqn:E.
    + apply Nat.leb_le in E.
      apply SSorted_cons; [apply SSorted_cons; assumption|].
      apply Forall_cons; [exact E|].
      eapply Forall_impl; [|exact Hy].
      unfold PyList.descending. intros b Hb. lia.
    + apply Nat.leb_gt in E.
      apply SSorted_cons; [exact IH|].
      eapply Permutation_Forall;
        [apply Permutation_sym, insert_reverse_perm|].
      apply Forall_cons; [unfold PyList.descending; lia | exact Hy].
Qed.

Lemma sorted_reverse_sorted (l : list A) :
  StronglySorted (PyList.descending key) (PyList.sorted_reverse key l).
Proof.
  induction l as [|x l IH]; simpl;
    [apply SSorted_nil | apply insert_reverse_sorted, IH].
Qed.

Lemma sorted_prefix (n : nat) (l : list A) :
  StronglySorted (PyList.descending key) l ->
  StronglySorted (PyList.descending key) (firstn n l)
  /\ (forall a b, In a (firstn n l) -> In b (skipn n l) ->
                  key b <= key a).
Proof.
  intros Hs. revert n.
  induction Hs as [|x l Hl IH Hx]; intros n.
  - rewrite firstn_nil, skipn_nil. split; [apply SSorted_nil|].
    intros a b [].
  - destruct n as [|n]; simpl.
    + split; [apply SSorted_nil | intros a b []].
    + destruct (IH n) as [Hfirst Hrest]. split.
      * apply SSorted_cons; [exact Hfirst|].
        rewrite Forall_forall in *. intros b Hb.
        apply Hx. rewrite <- (firstn_skipn n l).
        apply in_or_app. left. exact Hb.
      * intros a b [<- | Ha] Hb.
        -- rewrite Forall_forall in Hx. apply Hx.
           rewrite <- (firstn_skipn n l). apply in_or_app. right. exact Hb.
        -- apply Hrest; assumption.
Qed.

Lemma sorted_keys (l : list A) :
  StronglySorted (PyList.descending key) l -> StronglySorted ge (map key l).
Proof.
  induction 1 as [|x l Hl IH Hx]; simpl; [apply SSorted_nil|].
  apply SSorted_cons; [exact IH|].
  rewrite Forall_forall in *. intros k Hk.
  apply in_map_iff in Hk. destruct Hk as (b & <- & Hb).
  apply Hx, Hb.
Qed.

End SortedReverse.

Section Enumerate.

Context {A B : Type}.

Lemma map_enumerate_value (g : A -> B) (l : list A) :
  forall k,
    map (fun entry => g (snd entry)) (combine (seq k (List.length l)) l)
    = map g l.
Proof.
  induction l as [|x l IH]; intros k; simpl; [reflexivity|].
  rewrite IH. reflexivity.
Qed.

Lemma map_enumerate_index (g : nat -> B) (l : list A) :
  forall k,
    map (fun entry => g (fst entry)) (combine (seq k (List.length l)) l)
    = map g (seq k (List.length l)).
Proof.
  induction l as [|x l IH]; intros k; simpl; [reflexivity|].
  rewrite IH. reflexivity.
Qed.

End Enumerate.

Section Counting.

Import CitationAnalyzer.

Lemma not_in_list (k : string) (l : list string) :
  in_list k l = false -> ~ In k l.
Proof.
  unfold in_list. intros H Hin.
  assert (Hex : existsb (String.eqb k) l = true).
  { apply existsb_exists. exists k. split; [exact Hin|].
    apply String.eqb_refl. }
  congruence.
Qed.

Lemma assign_keeps_keys_apart {V : Type} (k : string) (v : V)
    (d : list (string * V)) :
  NoDup (keys d) -> NoDup (keys (PyDict.assign k v d)).
Proof.
  intros H. rewrite keys_assign.
  destruct (in_list k (keys d)) eqn:E; [exact H|].
  apply not_in_list in E.
  apply NoDup_app; [exact H | apply NoDup_cons; [intros [] | apply NoDup_nil] |].
  intros x Hx [<- | []]. exact (E Hx).
Qed.

Lemma lookup_of_entry {V : Type} (k : string) (v : V)
    (d : list (string * V)) :
  NoDup (keys d) -> In (k, v) d -> lookup k d = Some v.
Proof.
  induction d as [|[k' v'] d IH]; simpl; intros Hnd Hin; [destruct Hin|].
  inversion Hnd as [|? ? Hfresh Hrest]; subst.
  destruct Hin as [Heq | Hin].
  - injection Heq as -> ->. rewrite String.eqb_refl. reflexivity.
  - destruct (String.eqb k k') eqn:E.
    + apply String.eqb_eq in E. subst k'. exfalso. apply Hfresh.
      unfold keys. apply in_map_iff. exists (k, v). auto.
    + apply IH; assumption.
Qed.

Lemma entry_of_lookup {V : Type} (k : string) (v : V)
    (d : list (string * V)) :
  lookup k d = Some v -> In (k, v) d.
Proof.
  induction d as [|[k' v'] d IH]; simpl; [discriminate|].
  destruct (String.eqb k k') eqn:E.
  - apply String.eqb_eq in E. subst k'. intros H. injection H as ->. auto.
  - intros H. right. apply IH, H.
Qed.

Lemma counting_keeps_keys_apart (edges : list edge) :
  forall seen,
    NoDup (keys seen) ->
    NoDup (keys (fold_left count_citation edges seen)).
Proof.
  induction edges as [|e edges IH]; intros seen H; simpl; [exact H|].
  apply IH. unfold count_citation.
  destruct (lookup (target e) seen); apply assign_keeps_keys_apart, H.
Qed.

(** What the counting loop leaves for a paper. *)
Lemma counting_counts (edges : list edge) (paper : string) :
  forall seen,
    lookup paper (fold_left count_citation edges seen)
    = match lookup paper seen, times_cited edges paper with
      | Some n, k => Some (n + k)
      | None, 0 => None
      | None, S k => Some (S k)
      end.
Proof.
  unfold times_cited.
  induction edges as [|e edges IH]; intros seen; simpl fold_left.
  - simpl. destruct (lookup paper seen) as [n|]; [f_equal; lia | reflexivity].
  - rewrite IH. unfold count_citation. cbn [map].
    destruct (string_dec (target e) paper) as [Heq | Hne].
    + rewrite count_occ_cons_eq by exact Heq. subst paper.
      destruct (lookup (target e) seen) as [n|];
        rewrite lookup_assign_same; f_equal; lia.
    + rewrite count_occ_cons_neq by exact Hne.
      assert (Hne' : paper <> target e) by congruence.
      destruct (lookup (target e) seen) as [n|];
        rewrite lookup_assign_other by exact Hne'; reflexivity.
Qed.

Lemma paper_citations_entries (edges : list edge) (paper : string)
    (n : nat) :
  In (paper, n) (paper_citations edges)
  <-> n = times_cited edges paper /\ 0 < n.
Proof.
  unfold paper_citations. split.
  - intros Hin.
    apply lookup_of_entry in Hin;
      [|apply counting_keeps_keys_apart, NoDup_nil].
    rewrite counting_counts in Hin. cbn [lookup] in Hin.
    destruct (times_cited edges paper); [discriminate|].
    injection Hin as <-. split; [reflexivity | lia].
  - intros [-> Hpos]. apply entry_of_lookup.
    rewrite counting_counts. cbn [lookup].
    destruct (times_cited edges paper); [lia | reflexivity].
Qed.

Lemma paper_citations_keys (edges : list edge) (paper : string) :
  In paper (keys (paper_citations edges)) <-> In paper (map target edges).
Proof.
  unfold keys. rewrite in_map_iff. split.
  - intros ([k n] & <- & Hin). cbn [fst].
    apply paper_citations_entries in Hin. destruct Hin as [-> Hpos].
    unfold times_cited in Hpos.
    apply (count_occ_In string_dec). exact Hpos.
  - intros Hin. exists (paper, times_cited edges paper). split; [reflexivity|].
    apply paper_citations_entries. split; [reflexivity|].
    unfold times_cited. apply (count_occ_In string_dec). exact Hin.
Qed.

Lemma paper_citations_length (edges : list edge) :
  List.length (paper_citations edges)
  = List.length (nodup string_dec (map target edges)).
Proof.
  assert (H : Permutation (keys (paper_citations edges))
                (nodup string_dec (map target edges))).
  { apply NoDup_Permutation.
    - apply counting_keeps_keys_apart, NoDup_nil.
    - apply NoDup_nodup.
    - intros paper. rewrite paper_citations_keys, nodup_In. reflexivity. }
  apply Permutation_length in H. unfold keys in H.
  rewrite length_map in H. exact H.
Qed.

End Counting.

(** X23. [_find_central_papers] lists the most cited papers of the
    network: as many entries as there are distinct edge targets, at most
    five; ranks 1, 2, ... in order; no paper twice; each entry's
    [citation_count] is the number of edges that point to the paper and is
    positive; the counts never increase down the list; and no cited paper
    that is left out is cited more often than a paper that is listed. *)
Theorem central_papers_are_the_most_cited
    (edges : list CitationAnalyzer.edge) :
  let central := CitationAnalyzer._find_central_papers edges in
  let targets := map CitationAnalyzer.target edges in
  List.length central
  = Nat.min 5 (List.length (nodup string_dec targets))
  /\ map CitationAnalyzer.centrality_rank central
     = seq 1 (List.length central)
  /\ NoDup (map CitationAnalyzer.paper_id central)
  /\ (forall p,
         In p central ->
         CitationAnalyzer.citation_count p
         = times_cited edges (CitationAnalyzer.paper_id p)
         /\ 0 < CitationAnalyzer.citation_count p)
  /\ StronglySorted ge (map CitationAnalyzer.citation_count central)
  /\ (forall paper p,
         In paper targets ->
         ~ In paper (map CitationAnalyzer.paper_id central) ->
         In p central ->
         times_cited edges paper <= CitationAnalyzer.citation_count p).
Proof.
  cbv zeta. unfold CitationAnalyzer._find_central_papers. cbv zeta.
  unfold PyList.enumerate.
  set (sorted_papers :=
         PyList.sorted_reverse snd (CitationAnalyzer.paper_citations edges)).
  set (top := firstn 5 sorted_papers).
  pose proof (sorted_reverse_perm snd (CitationAnalyzer.paper_citations edges))
    as Hperm. fold sorted_papers in Hperm.
  pose proof (sorted_reverse_sorted snd
                (CitationAnalyzer.paper_citations edges)) as Hsorted.
  fold sorted_papers in Hsorted.
  destruct (sorted_prefix snd 5 sorted_papers Hsorted) as [Htop Hrest].
  fold top in Htop, Hrest.
  assert (Hids : map CitationAnalyzer.paper_id
                   (map (fun entry =>
                           {| CitationAnalyzer.paper_id := fst (snd entry);
                              CitationAnalyzer.citation_count :=
                                snd (snd entry);
                              CitationAnalyzer.centrality_rank :=
                                fst entry + 1 |})
                        (combine (seq 0 (List.length top)) top))
                 = map fst top).
  { rewrite map_map. cbn [CitationAnalyzer.paper_id].
    apply (map_enumerate_value fst top 0). }
  assert (Hcounts : map CitationAnalyzer.citation_count
                      (map (fun entry =>
                              {| CitationAnalyzer.paper_id := fst (snd entry);
                                 CitationAnalyzer.citation_count :=
                                   snd (snd entry);
                                 CitationAnalyzer.centrality_rank :=
                                   fst entry + 1 |})
                           (combine (seq 0 (List.length top)) top))
                    = map snd top).
  { rewrite map_map. cbn [CitationAnalyzer.citation_count].
    apply (map_enumerate_value snd top 0). }
  assert (Hlen : List.length
                   (map (fun entry =>
                           {| CitationAnalyzer.paper_id := fst (snd entry);
                              CitationAnalyzer.citation_count :=
                                snd (snd entry);
                              CitationAnalyzer.centrality_rank :=
                                fst entry + 1 |})
                        (combine (seq 0 (List.length top)) top))
                 = List.length top).
  { rewrite length_map, length_combine, length_seq. lia. }
  assert (Hentry : forall p,
             In p (map (fun entry =>
                          {| CitationAnalyzer.paper_id := fst (snd entry);
                             CitationAnalyzer.citation_count :=
                               snd (snd entry);
                             CitationAnalyzer.centrality_rank :=
                               fst entry + 1 |})
                       (combine (seq 0 (List.length top)) top)) ->
             In (CitationAnalyzer.paper_id p,
                 CitationAnalyzer.citation_count p) top).
  { intros p Hp. apply in_map_iff in Hp.
    destruct Hp as ([i [paper n]] & <- & Hin). cbn.
    apply in_combine_r in Hin. exact Hin. }
  assert (Htop_in : forall entry, In entry top ->
                                  In entry (CitationAnalyzer.paper_citations edges)).
  { intros entry Hin. eapply Permutation_in; [exact Hperm|].
    rewrite <- (firstn_skipn 5 sorted_papers). apply in_or_app. left.
    exact Hin. }
  split; [|split; [|split; [|split; [|split]]]].
  - rewrite Hlen. unfold top. rewrite length_firstn.
    rewrite (Permutation_length Hperm), paper_citations_length.
    reflexivity.
  - rewrite Hlen, map_map. cbn [CitationAnalyzer.centrality_rank].
    rewrite (map_enumerate_index (fun i => i + 1) top 0).
    rewrite <- seq_shift. apply map_ext. intros i. lia.
  - rewrite Hids.
    assert (Hnd : NoDup (map fst sorted_papers)).
    { eapply Permutation_NoDup;
        [apply Permutation_map, Permutation_sym, Hperm|].
      apply (counting_keeps_keys_apart edges []), NoDup_nil. }
    rewrite <- (firstn_skipn 5 sorted_papers), map_app in Hnd.
    apply NoDup_app_remove_r in Hnd. exact Hnd.
  - intros p Hp. apply Hentry, Htop_in in Hp.
    apply paper_citations_entries in Hp. exact Hp.
  - rewrite Hcounts. apply sorted_keys, Htop.
  - intros paper p Hpaper Hout Hp.
    rewrite Hids in Hout.
    assert (Hin : In (paper, times_cited edges paper) sorted_papers).
    { eapply Permutation_in; [apply Permutation_sym, Hperm|].
      apply paper_citations_entries. split; [reflexivity|].
      unfold times_cited. apply (count_occ_In string_dec). exact Hpaper. }
    rewrite <- (firstn_skipn 5 sorted_papers) in Hin.
    apply in_app_or in Hin. destruct Hin as [Hin | Hin].
    + exfalso. apply Hout. apply in_map_iff.
      exists (paper, times_cited edges paper). auto.
    + apply (Hrest _ _ (Hentry p Hp) Hin).
Qed.

Section SimulatedCitations.

Lemma str_of_nat_injective (n m : nat) :
  str_of_nat n = str_of_nat m -> n = m.
Proof.
  unfold str_of_nat. intros H.
  apply (f_equal NilEmpty.uint_of_string) in H.
  rewrite !NilEmpty.usu in H. injection H as H.
  apply (f_equal Nat.of_uint) in H.
  rewrite !Unsigned.of_to in H. exact H.
Qed.

Lemma map_apart {A B : Type} (f : A -> B) (l : list A) :
  (forall a b, f a = f b -> a = b) -> NoDup l -> NoDup (map f l).
Proof.
  intros Hinj. induction 1 as [|x l Hx Hl IH]; simpl; [apply NoDup_nil|].
  apply NoDup_cons; [|exact IH].
  intros Hin. apply in_map_iff in Hin. destruct Hin as (y & Hy & Hin).
  apply Hinj in Hy. subst y. exact (Hx Hin).
Qed.

End SimulatedCitations.

(** X24. The simulated neighbours of a paper, whatever [hash] is:
    [_simulate_cited_papers] gives [min(5, 2 * depth)] entries and
    [_simulate_citing_papers] gives [min(3, depth)], none for a depth
    below 1; every relationship is ["direct_citation"]; the ids are
    ["cited_<n>"] and ["citing_<n>"] for consecutive [n] from
    [hash(paper_id) % 100], so below 104; and no id occurs twice in the
    two lists together. *)
Theorem simulated_citations_are_bounded_and_distinct
    (hash : string -> Z) (paper : string) (depth : Z) :
  let cited := CitationAnalyzer._simulate_cited_papers hash paper depth in
  let citing := CitationAnalyzer._simulate_citing_papers hash paper depth in
  let base := CitationAnalyzer.base_num hash paper in
  (List.length cited = Z.to_nat (Z.min 5 (2 * depth))
   /\ List.length citing = Z.to_nat (Z.min 3 depth)
   /\ List.length cited <= 5 /\ List.length citing <= 3)
  /\ ((depth <= 0)%Z -> cited = [] /\ citing = [])
  /\ Forall (fun entry => snd entry = "direct_citation") (cited ++ citing)
  /\ base < 100
  /\ map fst cited
     = map (fun i => "cited_" +++ str_of_nat (base + i))
         (seq 0 (List.length cited))
  /\ map fst citing
     = map (fun i => "citing_" +++ str_of_nat (base + i))
         (seq 0 (List.length citing))
  /\ NoDup (map fst (cited ++ citing)).
Proof.
  cbv zeta.
  unfold CitationAnalyzer._simulate_cited_papers,
    CitationAnalyzer._simulate_citing_papers, CitationAnalyzer.range.
  rewrite !length_map, !length_seq.
  replace (depth * 2)%Z with (2 * depth)%Z by lia.
  split; [repeat split; lia|].
  split.
  { intros Hd.
    replace (Z.to_nat (Z.min 5 (2 * depth))) with 0 by lia.
    replace (Z.to_nat (Z.min 3 depth)) with 0 by lia.
    split; reflexivity. }
  split.
  { apply Forall_app. split; apply Forall_forall; intros entry Hin;
      apply in_map_iff in Hin; destruct Hin as (i & <- & _); reflexivity. }
  split.
  { unfold CitationAnalyzer.base_num.
    pose proof (Z.mod_pos_bound (hash paper) 100 ltac:(lia)). lia. }
  split; [rewrite map_map; reflexivity|].
  split; [rewrite map_map; reflexivity|].
  rewrite map_app, !map_map. cbn [fst].
  apply NoDup_app.
  - apply map_apart; [|apply seq_NoDup].
    intros a b H. cbn in H. injection H as H.
    apply str_of_nat_injective in H. lia.
  - apply map_apart; [|apply seq_NoDup].
    intros a b H. cbn in H. injection H as H.
    apply str_of_nat_injective in H. lia.
  - intros id Hcited Hciting.
    apply in_map_iff in Hcited. destruct Hcited as (i & <- & _).
    apply in_map_iff in Hciting. destruct Hciting as (j & Hj & _).
    cbn in Hj. discriminate Hj.
Qed.

Section PairDictionaries.

Import CitationAnalyzer.

Context {A : Type}.

Lemma pair_eqb_eq (a b : string * string) : pair_eqb a b = true <-> a = b.
Proof.
  destruct a as [a1 a2], b as [b1 b2]. unfold pair_eqb. cbn [fst snd].
  rewrite andb_true_iff, !String.eqb_eq. split.
  - intros [-> ->]. reflexivity.
  - intros H. injection H as -> ->. auto.
Qed.

Lemma pair_eqb_refl (a : string * string) : pair_eqb a a = true.
Proof. apply pair_eqb_eq. reflexivity. Qed.

Lemma pair_eqb_neq (a b : string * string) : pair_eqb a b = false <-> a <> b.
Proof.
  split.
  - intros H Heq. apply pair_eqb_eq in Heq. congruence.
  - intros H. destruct (pair_eqb a b) eqn:E; [|reflexivity].
    apply pair_eqb_eq in E. contradiction.
Qed.

Lemma lookup_assign_pair_same (k : string * string) (v : A)
    (d : list ((string * string) * A)) :
  lookup_pair k (assign_pair k v d) = Some v.
Proof.
  induction d as [|[k' v'] d IH]; simpl.
  - rewrite pair_eqb_refl. reflexivity.
  - destruct (pair_eqb k k') eqn:E; simpl.
    + rewrite pair_eqb_refl. reflexivity.
    + rewrite E. exact IH.
Qed.

Lemma lookup_assign_pair_other (k k' : string * string) (v : A)
    (d : list ((string * string) * A)) :
  k' <> k -> lookup_pair k' (assign_pair k v d) = lookup_pair k' d.
Proof.
  intros Hne. apply pair_eqb_neq in Hne.
  induction d as [|[k0 v0] d IH]; simpl.
  - rewrite Hne. reflexivity.
  - destruct (pair_eqb k k0) eqn:E; simpl.
    + apply pair_eqb_eq in E. subst k0. rewrite Hne. reflexivity.
    + destruct (pair_eqb k' k0); [reflexivity | exact IH].
Qed.

Lemma assign_pair_keeps_keys_apart (k : string * string) (v : A)
    (d : list ((string * string) * A)) :
  NoDup (map fst d) -> NoDup (map fst (assign_pair k v d)).
Proof.
  induction d as [|[k' v'] d IH]; simpl; intros Hnd.
  - apply NoDup_cons; [intros [] | apply NoDup_nil].
  - inversion Hnd as [|? ? Hfresh Hrest]; subst.
    destruct (pair_eqb k k') eqn:E; simpl.
    + apply pair_eqb_eq in E. subst k'. apply NoDup_cons; assumption.
    + apply NoDup_cons; [|apply IH, Hrest].
      intros Hin. apply Hfresh. clear - Hin E.
      induction d as [|[k0 v0] d IH]; simpl in *.
      * destruct Hin as [Heq | []]. subst k'.
        rewrite pair_eqb_refl in E. discriminate E.
      * destruct (pair_eqb k k0) eqn:E0; simpl in Hin.
        -- apply pair_eqb_eq in E0. subst k0.
           destruct Hin as [Heq | Hin]; [|right; exact Hin].
           subst k'. rewrite pair_eqb_refl in E. discriminate E.
        -- destruct Hin as [Heq | Hin]; [left; exact Heq|].
           right. apply IH, Hin.
Qed.

Lemma lookup_pair_of_entry (k : string * string) (v : A)
    (d : list ((string * string) * A)) :
  NoDup (map fst d) -> In (k, v) d -> lookup_pair k d = Some v.
Proof.
  induction d as [|[k' v'] d IH]; simpl; intros Hnd Hin; [destruct Hin|].
  inversion Hnd as [|? ? Hfresh Hrest]; subst.
  destruct Hin as [Heq | Hin].
  - injection Heq as -> ->. rewrite pair_eqb_refl. reflexivity.
  - destruct (pair_eqb k k') eqn:E.
    + apply pair_eqb_eq in E. subst k'. exfalso. apply Hfresh.
      apply in_map_iff. exists (k, v). auto.
    + apply IH; assumption.
Qed.

End PairDictionaries.

Section CoCitations.

Import CitationAnalyzer.

Variable edges : list edge.

Lemma entry_of_assign {V : Type} (k k' : string) (v v' : V)
    (d : list (string * V)) :
  In (k', v') (PyDict.assign k v d) -> (k', v') = (k, v) \/ In (k', v') d.
Proof.
  induction d as [|[k0 v0] d IH]; simpl.
  - intros [H | []]. left. symmetry. exact H.
  - destruct (String.eqb k k0); simpl.
    + intros [H | H]; [left; symmetry; exact H | right; right; exact H].
    + intros [H | H]; [right; left; exact H|].
      destruct (IH H) as [Heq | Hin]; [left; exact Heq | right; right; exact Hin].
Qed.

Lemma add_citing_sound (kept : list (string * list string)) (e : edge) :
  In e edges -> citing_sound edges kept -> citing_sound edges (add_citing kept e).
Proof.
  intros He Hinv. unfold add_citing.
  set (created := if contains_key (target e) kept then kept
                  else PyDict.assign (target e) [] kept).
  assert (Hcreated : citing_sound edges created).
  { unfold created. destruct (contains_key (target e) kept); [exact Hinv|].
    intros cited citing_papers Hin citing Hciting.
    apply entry_of_assign in Hin. destruct Hin as [Heq | Hin].
    - injection Heq as -> ->. destruct Hciting.
    - exact (Hinv _ _ Hin _ Hciting). }
  clearbody created.
  destruct (lookup (target e) created) as [citing_papers|] eqn:Hl;
    [|exact Hcreated].
  apply entry_of_lookup in Hl.
  intros cited papers Hin citing Hciting.
  apply entry_of_assign in Hin. destruct Hin as [Heq | Hin].
  - injection Heq as -> ->. apply in_app_or in Hciting.
    destruct Hciting as [Hold | [<- | []]].
    + exact (Hcreated _ _ Hl _ Hold).
    + exists e. auto.
  - exact (Hcreated _ _ Hin _ Hciting).
Qed.

Lemma citing_relationships_sound_from (todo : list edge) :
  forall kept,
    incl todo edges -> citing_sound edges kept ->
    citing_sound edges (fold_left add_citing todo kept).
Proof.
  induction todo as [|e todo IH]; intros kept Hincl Hinv; simpl;
    [exact Hinv|].
  apply IH.
  - intros x Hx. apply Hincl. right. exact Hx.
  - apply add_citing_sound; [apply Hincl; left; reflexivity | exact Hinv].
Qed.

Lemma sorted_pair_ordered (paper1 paper2 : string) :
  String.ltb (snd (sorted_pair paper1 paper2))
    (fst (sorted_pair paper1 paper2)) = false.
Proof.
  unfold sorted_pair.
  destruct (String.ltb paper2 paper1) eqn:E; cbn [fst snd]; [|exact E].
  unfold String.ltb in *. rewrite String.compare_antisym.
  destruct (String.compare paper2 paper1); try discriminate E. reflexivity.
Qed.

Lemma pairs_of_members (citing_papers : list string) (pair : string * string) :
  In pair (pairs_of citing_papers) ->
  In (fst pair) citing_papers /\ In (snd pair) citing_papers
  /\ String.ltb (snd pair) (fst pair) = false.
Proof.
  induction citing_papers as [|paper1 rest IH]; simpl; [intros []|].
  intros Hin. apply in_app_or in Hin. destruct Hin as [Hin | Hin].
  - apply in_map_iff in Hin. destruct Hin as (paper2 & <- & Hin).
    split; [|split; [|apply sorted_pair_ordered]];
      unfold sorted_pair; destruct (String.ltb paper2 paper1);
      cbn [fst snd]; auto.
  - destruct (IH Hin) as (H1 & H2 & H3). auto.
Qed.

Lemma add_shared_sound (cited : string)
    (kept : list ((string * string) * list string))
    (pair : string * string) :
  String.ltb (snd pair) (fst pair) = false ->
  cites edges (fst pair) cited -> cites edges (snd pair) cited ->
  shared_sound edges kept -> shared_sound edges (add_shared cited kept pair).
Proof.
  intros Hord H1 H2 Hinv. unfold add_shared.
  destruct (lookup_pair pair kept) as [shared0|] eqn:Hl.
  - rewrite Hl. intros p s Hp.
    destruct (pair_eqb p pair) eqn:E.
    + apply pair_eqb_eq in E. subst p.
      rewrite lookup_assign_pair_same in Hp. injection Hp as <-.
      destruct (Hinv _ _ Hl) as (_ & _ & Hold).
      split; [destruct shared0; discriminate|]. split; [exact Hord|].
      intros c Hc. apply in_app_or in Hc.
      destruct Hc as [Hc | [<- | []]]; [apply Hold, Hc | auto].
    + apply pair_eqb_neq in E.
      rewrite lookup_assign_pair_other in Hp by exact E.
      exact (Hinv _ _ Hp).
  - rewrite lookup_assign_pair_same. intros p s Hp.
    destruct (pair_eqb p pair) eqn:E.
    + apply pair_eqb_eq in E. subst p.
      rewrite lookup_assign_pair_same in Hp. injection Hp as <-.
      split; [discriminate|]. split; [exact Hord|].
      intros c [<- | []]. auto.
    + apply pair_eqb_neq in E.
      rewrite !lookup_assign_pair_other in Hp by exact E.
      exact (Hinv _ _ Hp).
Qed.

Lemma add_shared_keeps_keys_apart (cited : string)
    (kept : list ((string * string) * list string))
    (pair : string * string) :
  NoDup (map fst kept) -> NoDup (map fst (add_shared cited kept pair)).
Proof.
  intros Hnd. unfold add_shared.
  destruct (lookup_pair pair kept) as [shared0|] eqn:Hl.
  - rewrite Hl. apply assign_pair_keeps_keys_apart, Hnd.
  - rewrite lookup_assign_pair_same.
    apply assign_pair_keeps_keys_apart, assign_pair_keeps_keys_apart, Hnd.
Qed.

Lemma add_pairs_sound (cited : string) (pairs : list (string * string)) :
  forall kept,
    (forall pair, In pair pairs ->
                  String.ltb (snd pair) (fst pair) = false
                  /\ cites edges (fst pair) cited
                  /\ cites edges (snd pair) cited) ->
    shared_sound edges kept /\ NoDup (map fst kept) ->
    shared_sound edges (fold_left (add_shared cited) pairs kept)
    /\ NoDup (map fst (fold_left (add_shared cited) pairs kept)).
Proof.
  induction pairs as [|pair pairs IH]; intros kept Hgood [Hinv Hnd]; simpl;
    [split; assumption|].
  apply IH.
  - intros p Hp. apply Hgood. right. exact Hp.
  - destruct (Hgood pair (or_introl eq_refl)) as (Hord & H1 & H2).
    split; [apply add_shared_sound; assumption
           | apply add_shared_keeps_keys_apart, Hnd].
Qed.

Lemma co_citations_sound_from (todo : list (string * list string)) :
  forall kept,
    citing_sound edges todo ->
    shared_sound edges kept /\ NoDup (map fst kept) ->
    shared_sound edges (fold_left add_co_citations todo kept)
    /\ NoDup (map fst (fold_left add_co_citations todo kept)).
Proof.
  induction todo as [|[cited citing_papers] todo IH];
    intros kept Htodo Hkept; simpl; [exact Hkept|].
  apply IH.
  - intros c l Hin. apply (Htodo c l). right. exact Hin.
  - destruct (1 <? List.length citing_papers)%nat; [|exact Hkept].
    apply add_pairs_sound; [|exact Hkept].
    intros pair Hpair. apply pairs_of_members in Hpair.
    destruct Hpair as (H1 & H2 & Hord).
    split; [exact Hord|].
    split; apply (Htodo cited citing_papers (or_introl eq_refl));
      assumption.
Qed.

Lemma co_citations_sound :
  shared_sound edges (co_citations edges)
  /\ NoDup (map fst (co_citations edges)).
Proof.
  unfold co_citations. apply co_citations_sound_from.
  - unfold citing_relationships.
    apply citing_relationships_sound_from; [apply incl_refl|].
    intros c l [].
  - split; [intros p s H; discriminate H | apply NoDup_nil].
Qed.

End CoCitations.

(** X30. [_analyze_co_citations] reports real co-citations.
    [strongest_co_citations] has as many entries as there are pairs, at
    most five, the [shared_citations] never increasing down the list and
    no pair listed twice.  Every entry is a pair of papers in sorted
    order; its [shared_citations] is the length of [shared_papers] and is
    positive; and each of its [shared_papers] is cited by both papers of
    the pair, by edges of the network. *)
Theorem co_citations_are_shared_citations
    (edges : list CitationAnalyzer.edge) :
  let analysis := CitationAnalyzer._analyze_co_citations edges in
  let strongest := CitationAnalyzer.strongest_co_citations analysis in
  List.length strongest
  = Nat.min 5 (CitationAnalyzer.co_citation_pairs analysis)
  /\ StronglySorted ge (map CitationAnalyzer.shared_citations strongest)
  /\ NoDup (map CitationAnalyzer.papers strongest)
  /\ (forall entry,
         In entry strongest ->
         exists first second,
           CitationAnalyzer.papers entry = [first; second]
           /\ String.ltb second first = false
           /\ CitationAnalyzer.shared_citations entry
              = List.length (CitationAnalyzer.shared_papers entry)
           /\ 0 < CitationAnalyzer.shared_citations entry
           /\ forall cited,
                In cited (CitationAnalyzer.shared_papers entry) ->
                cites edges first cited /\ cites edges second cited).
Proof.
  cbv zeta. unfold CitationAnalyzer._analyze_co_citations. cbv zeta.
  cbn [CitationAnalyzer.strongest_co_citations
       CitationAnalyzer.co_citation_pairs].
  set (found := CitationAnalyzer.co_citations edges).
  set (by_shared := fun entry : (string * string) * list string =>
                      List.length (snd entry)).
  set (sorted_pairs := PyList.sorted_reverse by_shared found).
  set (top := firstn 5 sorted_pairs).
  destruct (co_citations_sound edges) as [Hsound Hnd]. fold found in Hsound, Hnd.
  pose proof (sorted_reverse_perm by_shared found) as Hperm.
  fold sorted_pairs in Hperm.
  pose proof (sorted_reverse_sorted by_shared found) as Hsorted.
  fold sorted_pairs in Hsorted.
  destruct (sorted_prefix by_shared 5 sorted_pairs Hsorted) as [Htop _].
  fold top in Htop.
  assert (Htop_in : forall entry, In entry top -> In entry found).
  { intros entry Hin. eapply Permutation_in; [exact Hperm|].
    rewrite <- (firstn_skipn 5 sorted_pairs). apply in_or_app. left.
    exact Hin. }
  split; [|split; [|split]].
  - rewrite length_map. unfold top. rewrite length_firstn.
    rewrite (Permutation_length Hperm). reflexivity.
  - rewrite map_map. cbn [CitationAnalyzer.shared_citations].
    apply (sorted_keys by_shared top Htop).
  - rewrite map_map. cbn [CitationAnalyzer.papers].
    assert (Hkeys : NoDup (map fst top)).
    { assert (Hall : NoDup (map fst sorted_pairs)).
      { eapply Permutation_NoDup;
          [apply Permutation_map, Permutation_sym, Hperm | exact Hnd]. }
      rewrite <- (firstn_skipn 5 sorted_pairs), map_app in Hall.
      apply NoDup_app_remove_r in Hall. exact Hall. }
    rewrite <- (map_map fst (fun pair => [fst pair; snd pair])).
    apply map_apart; [|exact Hkeys].
    intros [a1 a2] [b1 b2] H. cbn in H. injection H as -> ->. reflexivity.
  - intros entry Hin. apply in_map_iff in Hin.
    destruct Hin as ([[first second] shared] & <- & Hin).
    cbn [CitationAnalyzer.papers CitationAnalyzer.shared_citations
         CitationAnalyzer.shared_papers fst snd].
    apply Htop_in in Hin.
    apply (lookup_pair_of_entry _ _ _ Hnd) in Hin.
    destruct (Hsound _ _ Hin) as (Hne & Hord & Hcited).
    exists first, second. split; [reflexivity|]. split; [exact Hord|].
    split; [reflexivity|]. split; [|exact Hcited].
    destruct shared; [contradiction | cbn; lia].
Qed.

(* ===================================================================== *)
(** ** The search query of the arXiv fallback *)
(* ===================================================================== *)

Section Stripping.

Import PyString.

Lemma lstrip_head (s : string) :
  lstrip s = EmptyString
  \/ exists c rest, lstrip s = String c rest /\ isspace c = false.
Proof.
  induction s as [|c rest IH]; simpl; [left; reflexivity|].
  destruct (isspace c) eqn:E; [exact IH|].
  right. exists c, rest. auto.
Qed.

Lemma rstrip_head (c : ascii) (rest : string) :
  isspace c = false ->
  exists kept, rstrip (String c rest) = String c kept.
Proof.
  intros E. simpl. rewrite E.
  destruct (rstrip rest); eexists; reflexivity.
Qed.

Lemma rstrip_idempotent (s : string) : rstrip (rstrip s) = rstrip s.
Proof.
  induction s as [|c rest IH]; simpl; [reflexivity|].
  destruct (rstrip rest) as [|d kept] eqn:E.
  - destruct (isspace c) eqn:Ec; simpl; [reflexivity|].
    rewrite Ec. reflexivity.
  - simpl in *. rewrite IH. reflexivity.
Qed.

Lemma strip_idempotent (s : string) : strip (strip s) = strip s.
Proof.
  unfold strip.
  destruct (lstrip_head s) as [-> | (c & rest & -> & Ec)]; [reflexivity|].
  destruct (rstrip_head c rest Ec) as [kept Hk]. rewrite Hk.
  simpl lstrip. rewrite Ec. rewrite <- Hk. apply rstrip_idempotent.
Qed.

Lemma nonempty_false (s : string) : nonempty s = false <-> s = "".
Proof. destruct s; simpl; split; congruence. Qed.

Lemma blank_categories_give_no_filter (categories : list string) :
  Forall (fun cat => strip cat = "") categories <->
  ArxivClient.category_filters categories = [].
Proof.
  unfold ArxivClient.category_filters.
  induction categories as [|cat categories IH]; cbn [filter].
  - split; [reflexivity | intros _; apply Forall_nil].
  - destruct (nonempty cat && nonempty (strip cat)) eqn:E.
    + cbn [map]. split; [|discriminate].
      intros H. inversion H as [|? ? Hblank _]; subst.
      apply andb_true_iff in E. destruct E as [_ E].
      rewrite Hblank in E. discriminate E.
    + rewrite <- IH. split.
      * intros H. inversion H. assumption.
      * intros H. apply Forall_cons; [|exact H].
        apply andb_false_iff in E. destruct E as [E | E];
          apply nonempty_false in E; [subst cat; reflexivity | exact E].
Qed.

End Stripping.

Section Joining.

Lemma join_head (sep x : string) (l : list string) :
  join sep (x :: l) = x
  \/ exists tail, join sep (x :: l) = x +++ sep +++ tail.
Proof.
  destruct l as [|y l]; [left; reflexivity|].
  right. eexists. reflexivity.
Qed.

End Joining.

(** X27. [_build_arxiv_query] never returns an empty query, and it
    returns the catch-all ["all:*"] exactly when there is nothing to
    search for: the query is blank and no category is left after
    stripping. *)
Theorem arxiv_query_falls_back_to_all
    (query : string) (categories : ArxivClient.categories_arg)
    (date_from date_to : option string) :
  let built :=
    ArxivClient._build_arxiv_query query categories date_from date_to in
  built <> ""
  /\ (built = "all:*"
      <-> PyString.strip query = "" /\ no_usable_category categories).
Proof.
  cbv zeta. unfold ArxivClient._build_arxiv_query.
  assert (Hgen : forall l,
             Forall (fun f => exists name, f = "cat:" +++ name)
               (ArxivClient.category_filters l)).
  { intros l. unfold ArxivClient.category_filters.
    apply Forall_forall. intros x Hx. apply in_map_iff in Hx.
    destruct Hx as (cat & <- & _). eexists. reflexivity. }
  assert (Hfilters : ArxivClient.category_part categories = []
                     <-> no_usable_category categories).
  { unfold ArxivClient.category_part, no_usable_category.
    destruct categories as [|category|l].
    - tauto.
    - destruct category as [|c rest]; [simpl; tauto|].
      cbn [PyString.nonempty].
      rewrite <- blank_categories_give_no_filter. split.
      + intros H. inversion H. assumption.
      + intros H. apply Forall_cons; [exact H | apply Forall_nil].
    - destruct l as [|cat l].
      + split; [intros _; apply Forall_nil | reflexivity].
      + symmetry. apply blank_categories_give_no_filter. }
  assert (Hcat : forall f rest,
             ArxivClient.category_part categories = f :: rest ->
             exists name, f = "cat:" +++ name).
  { intros f rest Hf.
    assert (Hall : Forall (fun f => exists name, f = "cat:" +++ name)
                     (ArxivClient.category_part categories)).
    { unfold ArxivClient.category_part.
      destruct categories as [|category|l]; [apply Forall_nil| |].
      - destruct (PyString.nonempty category);
          [apply Hgen | apply Forall_nil].
      - destruct l; [apply Forall_nil | apply Hgen]. }
    rewrite Hf in Hall. inversion Hall. assumption. }
  clear Hgen.
  set (filters := ArxivClient.category_part categories) in *.
  unfold ArxivClient.query_part. cbv zeta.
  clearbody filters.
  destruct (PyString.strip query) as [|c1 clean] eqn:Hclean;
    cbn [PyString.nonempty app].
  - destruct filters as [|f rest].
    + split; [discriminate|]. split; [intros _|reflexivity].
      split; [reflexivity | apply Hfilters; reflexivity].
    + destruct (Hcat f rest eq_refl) as [name ->].
      destruct (join_head " AND " ("cat:" +++ name) rest)
        as [-> | [tail ->]]; cbn;
        (split; [discriminate|]);
        (split; [discriminate|]);
        intros [_ Hno]; apply Hfilters in Hno; discriminate Hno.
  - destruct (existsb (fun char => str_in char (String c1 clean))
                ArxivClient.special_characters) eqn:Hspecial.
    + cbn [app].
      match goal with
      | |- context [join " AND " (?x :: filters)] =>
          destruct (join_head " AND " x filters) as [-> | [tail ->]]
      end; cbn;
        (split; [discriminate|]);
        (split; [discriminate|]);
        intros [Hq _]; discriminate Hq.
    + cbn [app].
      assert (Hcolon : str_in ":" (String c1 clean) = false).
      { cbn [existsb ArxivClient.special_characters] in Hspecial.
        apply orb_false_iff in Hspecial. tauto. }
      destruct (join_head " AND " (String c1 clean) filters)
        as [-> | [tail ->]];
        (split; [discriminate|]);
        (split; [|intros [Hq _]; discriminate Hq]);
        intros Hall; exfalso.
      * rewrite Hall in Hcolon. vm_compute in Hcolon. discriminate Hcolon.
      * cbn in Hall. injection Hall as -> Hall.
        destruct clean as [|c2 clean]; [discriminate Hall|].
        cbn in Hall. injection Hall as -> Hall.
        destruct clean as [|c3 clean]; [discriminate Hall|].
        cbn in Hall. injection Hall as -> Hall.
        destruct clean as [|c4 clean]; [discriminate Hall|].
        cbn in Hall. injection Hall as -> Hall.
        destruct clean; vm_compute in Hcolon; discriminate Hcolon.
Qed.

Section QueryArguments.

Import PyString.

Lemma strip_nonempty (s : string) :
  nonempty (strip s) = true -> nonempty s = true.
Proof. destruct s; [discriminate | reflexivity]. Qed.

Lemma category_filters_of_stripped (categories : list string) :
  ArxivClient.category_filters (map strip categories)
  = ArxivClient.category_filters categories.
Proof.
  unfold ArxivClient.category_filters.
  induction categories as [|cat categories IH]; [reflexivity|].
  cbn [map filter]. rewrite strip_idempotent.
  destruct (nonempty (strip cat)) eqn:E.
  - rewrite (strip_nonempty cat E). cbn [andb map].
    rewrite strip_idempotent, IH. reflexivity.
  - rewrite !andb_false_r. exact IH.
Qed.

End QueryArguments.

(** X28. What [_build_arxiv_query] does not look at: the two dates are
    ignored; white space around the query and around each category makes
    no difference; and a category given as a string gives the same query
    as the list of that one string. *)
Theorem arxiv_query_normalises_its_arguments
    (query : string) (categories : ArxivClient.categories_arg)
    (date_from date_to date_from' date_to' : option string) :
  ArxivClient._build_arxiv_query query categories date_from date_to
  = ArxivClient._build_arxiv_query (PyString.strip query) categories
      date_from' date_to'
  /\ (forall category,
         ArxivClient._build_arxiv_query query
           (ArxivClient.CategoryString category) date_from date_to
         = ArxivClient._build_arxiv_query query
             (ArxivClient.CategoryList [category]) date_from date_to)
  /\ (forall l,
         ArxivClient._build_arxiv_query query
           (ArxivClient.CategoryList (map PyString.strip l))
           date_from date_to
         = ArxivClient._build_arxiv_query query
             (ArxivClient.CategoryList l) date_from date_to).
Proof.
  unfold ArxivClient._build_arxiv_query. split; [|split].
  - unfold ArxivClient.query_part. cbv zeta.
    rewrite strip_idempotent. reflexivity.
  - intros category. destruct category; reflexivity.
  - intros l.
    assert (H : ArxivClient.category_part
                  (ArxivClient.CategoryList (map PyString.strip l))
                = ArxivClient.category_part (ArxivClient.CategoryList l)).
    { destruct l as [|cat l]; [reflexivity|].
      cbn [map ArxivClient.category_part].
      apply (category_filters_of_stripped (cat :: l)). }
    rewrite H. reflexivity.
Qed.
